(** * AbstractTradingMode: order mediation, remote signal scope and
      backtesting metadata persistence

    A shallow embedding of
    [octobot_trading/modes/abstract_trading_mode.py].  Methods of
    [AbstractTradingMode] become functions in a state-and-exception monad
    over the instance ([self]) and the process-wide state it shares with
    other instances.  Collaborators that live outside the file (trader,
    run databases, signal publisher, producers, consumers) are passed in
    as a record of behaviours. *)

From Stdlib Require Import ZArith QArith Lia.
From stdpp Require Import base option list gmap strings pretty.

Local Open Scope Z_scope.
Local Open Scope string_scope.

(** ** Python exceptions *)

Inductive exn :=
| KeyError (key : string)
| IndexError
| TypeError
| AttributeError (attr : string)
| RuntimeError (msg : string)
| AuthenticationRequired           (* octobot_commons.authentication *)
| UnavailableError                 (* octobot_commons.authentication *)
| OtherException (msg : string)    (* any other subclass of Exception *)
| KeyboardInterrupt.               (* derives from BaseException only *)

#[global] Instance exn_eq_dec : EqDecision exn.
Proof. solve_decision. Defined.

(** [except Exception] catches every class above except the last one. *)
Definition is_Exception (e : exn) : bool :=
  match e with
  | KeyboardInterrupt => false
  | _ => true
  end.

Definition is_KeyError (e : exn) : bool :=
  match e with
  | KeyError _ => true
  | _ => false
  end.

(** [except (authentication.AuthenticationRequired,
             authentication.UnavailableError)] *)
Definition is_authentication_failure (e : exn) : bool :=
  match e with
  | AuthenticationRequired | UnavailableError => true
  | _ => false
  end.

Inductive result (A : Type) :=
| Ok (a : A)
| Raise (e : exn).
Arguments Ok {A} a.
Arguments Raise {A} e.

Definition is_Ok {A} (r : result A) : bool :=
  match r with
  | Ok _ => true
  | Raise _ => false
  end.

(** ** Python floats, as an interface

    The module only converts, rounds, multiplies, divides and prints
    floats.  Nothing below depends on how these operations are realised,
    so they are kept behind a class. *)

Class PyFloat (F : Type) := {
  float_of_decimal : Q → F;        (* float(d) for a decimal.Decimal *)
  float_of_int : Z → F;            (* int operand of a float operation *)
  float_mul : F → F → F;
  float_div : F → F → F;
  float_round : F → Z → F;         (* round(x, ndigits) *)
  float_round_int : F → Z;         (* round(x) *)
  float_is_zero : F → bool;        (* x == 0.0 *)
  float_repr : F → string          (* str(x) *)
}.

(** ** The state-and-exception monad

    A raised exception keeps every state change made before it, as in
    Python. *)

Definition M (S A : Type) : Type := S → result A * S.

Definition ret {S A} (a : A) : M S A := λ s, (Ok a, s).

Definition bind {S A B} (m : M S A) (k : A → M S B) : M S B :=
  λ s, match m s with
       | (Ok a, s') => k a s'
       | (Raise e, s') => (Raise e, s')
       end.

Definition raise {S A} (e : exn) : M S A := λ s, (Raise e, s).

Definition get {S} : M S S := λ s, (Ok s, s).

Definition modify {S} (f : S → S) : M S unit := λ s, (Ok tt, f s).

(** Runs [m] and hands its outcome over as a value. *)
Definition attempt {S A} (m : M S A) : M S (result A) :=
  λ s, let '(r, s') := m s in (Ok r, s').

(** [try: m  except <catches> as e: handler e] *)
Definition try_except {S A} (m : M S A) (catches : exn → bool)
    (handler : exn → M S A) : M S A :=
  λ s, match m s with
       | (Raise e, s') => if catches e then handler e s' else (Raise e, s')
       | ok => ok
       end.

(** Turns the outcome of a collaborator into a computation. *)
Definition lift_result {S A} (r : result A) : M S A :=
  match r with
  | Ok a => ret a
  | Raise e => raise e
  end.

Definition lift_fault {S} (f : option exn) : M S unit :=
  match f with
  | None => ret tt
  | Some e => raise e
  end.

Notation "x <- m ;; k" := (bind m (λ x, k))
  (at level 100, m at next level, right associativity,
   format "'[v' x  <-  m  ;;  '/' k ']'").
Notation "m ;;; k" := (bind m (λ _, k))
  (at level 100, right associativity,
   format "'[v' m  ;;;  '/' k ']'").

(** [for x in xs: await f x] *)
Fixpoint for_each {S A} (f : A → M S unit) (xs : list A) : M S unit :=
  match xs with
  | [] => ret tt
  | x :: xs' => f x ;;; for_each f xs'
  end.

(** ** Enumerations used by the module *)

Inductive TradeOrderSide := BUY | SELL.

Inductive OrderStatus := FILLED | OPEN | PARTIALLY_FILLED | CANCELED | CLOSED.

#[global] Instance TradeOrderSide_eq_dec : EqDecision TradeOrderSide.
Proof. solve_decision. Defined.

#[global] Instance OrderStatus_eq_dec : EqDecision OrderStatus.
Proof. solve_decision. Defined.

(** Keys of a backtesting metadata record
    ([common_enums.BacktestingMetadata]). *)
Inductive BacktestingMetadata :=
| OPTIMIZATION_CAMPAIGN | ID | GAINS | PERCENT_GAINS | END_PORTFOLIO
| START_PORTFOLIO | WIN_RATE | DRAW_DOWN
| COEFFICIENT_OF_DETERMINATION_MAX_BALANCE
| COEFFICIENT_OF_DETERMINATION_END_BALANCE
| SYMBOLS | TIME_FRAMES | START_TIME | END_TIME | DURATION | ENTRIES
| WINS | LOSES | TRADES | TIMESTAMP | NAME | LEVERAGE | USER_INPUTS
| BACKTESTING_FILES | EXCHANGE.

#[global] Instance BacktestingMetadata_eq_dec : EqDecision BacktestingMetadata.
Proof. solve_decision. Defined.

Definition BacktestingMetadata_index (k : BacktestingMetadata) : nat :=
  match k with
  | OPTIMIZATION_CAMPAIGN => 0 | ID => 1 | GAINS => 2 | PERCENT_GAINS => 3
  | END_PORTFOLIO => 4 | START_PORTFOLIO => 5 | WIN_RATE => 6
  | DRAW_DOWN => 7 | COEFFICIENT_OF_DETERMINATION_MAX_BALANCE => 8
  | COEFFICIENT_OF_DETERMINATION_END_BALANCE => 9 | SYMBOLS => 10
  | TIME_FRAMES => 11 | START_TIME => 12 | END_TIME => 13 | DURATION => 14
  | ENTRIES => 15 | WINS => 16 | LOSES => 17 | TRADES => 18
  | TIMESTAMP => 19 | NAME => 20 | LEVERAGE => 21 | USER_INPUTS => 22
  | BACKTESTING_FILES => 23 | EXCHANGE => 24
  end%nat.

Definition BacktestingMetadata_all : list BacktestingMetadata :=
  [ OPTIMIZATION_CAMPAIGN; ID; GAINS; PERCENT_GAINS; END_PORTFOLIO;
    START_PORTFOLIO; WIN_RATE; DRAW_DOWN;
    COEFFICIENT_OF_DETERMINATION_MAX_BALANCE;
    COEFFICIENT_OF_DETERMINATION_END_BALANCE; SYMBOLS; TIME_FRAMES;
    START_TIME; END_TIME; DURATION; ENTRIES; WINS; LOSES; TRADES;
    TIMESTAMP; NAME; LEVERAGE; USER_INPUTS; BACKTESTING_FILES; EXCHANGE ].

#[global] Instance BacktestingMetadata_countable : Countable BacktestingMetadata.
Proof.
  refine (inj_countable BacktestingMetadata_index
            (λ n, BacktestingMetadata_all !! n) _).
  intros k. destruct k; reflexivity.
Defined.

(** ** Orders and trades *)

Record Order := {
  order_id : string;
  order_symbol : string;
  order_side : TradeOrderSide;
  origin_quantity : Q
}.

Record Trade := {
  trade_status : OrderStatus;
  trade_side : TradeOrderSide
}.

Record Position := {
  position_currency : string;     (* position.get_currency() *)
  position_quantity : Q
}.

(** A portfolio is a dict {currency: {"available": d, "total": d, ...}};
    insertion order is kept because the record stores [str(portfolio)]. *)
Definition Portfolio (V : Type) : Type := list (string * list (string * V)).

(** Opaque pass-through arguments of the trader. *)
Definition Params : Type := list (string * string).
Definition Callback : Type := string.

(** Python dicts whose insertion order is observable, as association
    lists with unique keys. *)
Definition dict_get {V} (k : string) (d : list (string * V)) : option V :=
  snd <$> find (λ kv, bool_decide (kv.1 = k)) d.

Fixpoint dict_set {V} (k : string) (v : V) (d : list (string * V))
    : list (string * V) :=
  match d with
  | [] => [(k, v)]
  | (k', v') :: d' =>
      if bool_decide (k' = k) then (k, v) :: d' else (k', v') :: dict_set k v d'
  end.

(** [d.pop(k, None)] *)
Definition dict_pop {V} (k : string) (d : list (string * V))
    : list (string * V) :=
  filter (λ kv, kv.1 ≠ k) d.

(** Constants of [octobot_commons.constants] and
    [script_keywords.QuantityType] whose values are defined elsewhere. *)
Class Constants := {
  CONFIG_EMIT_TRADING_SIGNALS : string;
  CONFIG_TRADING_SIGNALS_STRATEGY : string;
  PERCENT : string       (* script_keywords.QuantityType.PERCENT.value *)
}.

Section TradingMode.

Context {F : Type} `{PyFloat F} `{Constants}.

(** ** Python values held in configurations and metadata records *)

#[warnings="-register-all"]
Inductive pyval :=
| VNone
| VBool (b : bool)
| VInt (z : Z)
| VFloat (x : F)
| VStr (s : string)
| VList (l : list pyval)
| VDict (d : list (string * pyval)).

(** Truth value of an object, as tested by [if], [and], [or], [not]. *)
Definition truthy (v : pyval) : bool :=
  match v with
  | VNone => false
  | VBool b => b
  | VInt z => negb (z =? 0)%Z
  | VFloat x => negb (float_is_zero x)
  | VStr s => negb (bool_decide (s = ""))
  | VList l => negb (bool_decide (length l = 0%nat))
  | VDict d => negb (bool_decide (length d = 0%nat))
  end.

(** [a or b] *)
Definition py_or (a b : pyval) : pyval := if truthy a then a else b.

(** ** The exchange manager, as far as the module reads it *)

Record ExchangePersonalData := {
  origin_portfolio : Portfolio Q;
    (* portfolio_manager.portfolio_value_holder.origin_portfolio.portfolio *)
  portfolio : Portfolio Q;          (* portfolio_manager.portfolio.portfolio *)
  positions : list Position;        (* positions_manager.positions.values() *)
  trade_history : list Trade;       (* trading_api.get_trade_history *)
  profitability : Q;                (* trading_api.get_profitability_stats *)
  profitability_percent : Q;
  win_rate : Q;                     (* trading_api.get_win_rate *)
  draw_down : Q;                    (* trading_api.get_draw_down *)
  r_sq_end_balance : pyval;
    (* get_coefficient_of_determination(use_high_instead_of_end_balance=False) *)
  r_sq_max_balance : pyval          (* get_coefficient_of_determination *)
}.

Record Backtesting := {
  backtesting_starting_time : F;
  backtesting_ending_time : F;
  backtesting_duration : F;
  backtesting_data_files : list string
}.

Record ExchangeManager := {
  em_id : string;
  bot_id : string;
  exchange_name : string;
  is_backtesting : bool;
  is_future : bool;
  exchange_personal_data : ExchangePersonalData;
  trading_pairs : list string;               (* trading_api.get_trading_pairs *)
  required_time_frames : list string;
    (* trading_api.get_exchange_available_required_time_frames, by value *)
  get_pair_future_contract : option (string → Q);
    (* current_leverage of the contract of a pair; None when the exchange
       has no such attribute *)
  backtesting : Backtesting
}.

Definition set_exchange_personal_data (d : ExchangePersonalData)
    (em : ExchangeManager) : ExchangeManager :=
  {| em_id := em_id em; bot_id := bot_id em;
     exchange_name := exchange_name em;
     is_backtesting := is_backtesting em; is_future := is_future em;
     exchange_personal_data := d;
     trading_pairs := trading_pairs em;
     required_time_frames := required_time_frames em;
     get_pair_future_contract := get_pair_future_contract em;
     backtesting := backtesting em |}.

(** ** A trading mode instance *)

Record TradingMode := {
  name : string;                               (* get_name() *)
  exchange_manager : option ExchangeManager;   (* None once stopped *)
  trading_config : option (gmap string pyval); (* None until loaded *)
  producers : list string;
  consumers : list string;
  start_time : F;
  are_metadata_saved : bool
}.

Definition set_exchange_manager (em : option ExchangeManager)
    (m : TradingMode) : TradingMode :=
  {| name := name m; exchange_manager := em;
     trading_config := trading_config m; producers := producers m;
     consumers := consumers m; start_time := start_time m;
     are_metadata_saved := are_metadata_saved m |}.

Definition set_are_metadata_saved (b : bool) (m : TradingMode) : TradingMode :=
  {| name := name m; exchange_manager := exchange_manager m;
     trading_config := trading_config m; producers := producers m;
     consumers := consumers m; start_time := start_time m;
     are_metadata_saved := b |}.

(** ** Signals *)

(** The object yielded by the signal publisher for one symbol. *)
Record SignalBundleBuilder := {
  builder_symbol : string;
  builder_identifier : pyval;
  builder_timeout : Z;
  builder_args : list string
}.

Inductive SignalRecord :=
| CreatedOrder (created : Order) (em : option ExchangeManager)
    (target_amount : string)
| CancelledOrder (o : Order) (em : option ExchangeManager)
| EditedOrder (o : Order) (em : option ExchangeManager)
    (updated_target_amount updated_limit_price
     updated_stop_price updated_current_price : option Q).

(** ** Run databases *)

Record RunDatabasesIdentifier := {
  optimization_campaign_name : string;
  backtesting_id : Z;
  backtesting_metadata_identifier : string
    (* get_backtesting_metadata_identifier() *)
}.

Record UserInput := {
  is_nested_config : bool;
  tentacle : string;
  input_name : string;
  input_value : pyval
}.

Definition Metadata : Type := gmap BacktestingMetadata pyval.

(** ** Collaborators

    What the objects outside this module answer during one call.  A
    collaborator that can fail either answers or raises.  The trader acts
    on the personal data of the exchange (orders, portfolio) and on
    nothing else. *)

Record Collaborators := {
  (* octobot_trading.personal_data.orders *)
  get_order_size_portfolio_percent :
    ExchangeManager → Q → TradeOrderSide → string → result Q;
  (* octobot_trading.personal_data.portfolios *)
  portfolio_to_float : Portfolio Q → Portfolio F;
  (* exchange_manager.trader *)
  trader_create_order :
    Order → bool → option Params → option Callback →
    ExchangePersonalData → result (option Order) * ExchangePersonalData;
  trader_cancel_order :
    Order → option Order →
    ExchangePersonalData → result bool * ExchangePersonalData;
  trader_edit_order :
    Order → option Q → option Q → option Q → option Q → option Params →
    ExchangePersonalData → result bool * ExchangePersonalData;
  (* signals.SignalPublisher: opening a bundle for a symbol, and sending
     it when the scope is left *)
  bundle_open : string → option exn;
  bundle_send : string → option exn;
  (* databases.RunDatabasesProvider and the run database writers *)
  get_run_databases_identifier : string → RunDatabasesIdentifier;
  run_db_flush : option exn;
  get_user_inputs : result (list UserInput);
  store_transactions : option exn;
  store_trades : option exn;
  database_open : option exn;
  database_log : option exn;
  database_close : option exn;
  (* producers and consumers of the mode *)
  producer_stop : string → option exn;
  consumer_stop : string → option exn
}.

(** Calls made to collaborators, in the order they are made. *)
Inductive call :=
| RunDbFlush (bot : string)
| GetUserInputs (bot : string)
| StoreTransactions
| StoreTrades
| DatabaseOpen (target : string)
| DatabaseLog (target : string)
| DatabaseClose (target : string)
| ProducerStop (p : string)
| ConsumerStop (c : string)
| PortfolioPercent (o : Order)
| TraderCreateOrder (o : Order)
| TraderCancelOrder (o : Order)
| TraderEditOrder (o : Order)
| BundleOpen (b : SignalBundleBuilder)
| BundleSend (symbol : string).

(** Calls that stop a producer or a consumer. *)
Definition is_stop_call (c : call) : bool :=
  match c with
  | ProducerStop _ | ConsumerStop _ => true
  | _ => false
  end.

(** ** State

    [self] is the instance a method runs on; the other fields are shared
    by every instance of the process. *)

Record state := {
  self : TradingMode;
  SAVED_RUN_METADATA_DB_BY_BOT_ID : gmap string bool;
    (* class attribute of AbstractTradingMode *)
  metadata_db : list (string * Metadata);
    (* records persisted in backtesting metadata databases, by target *)
  pending : list (string * Metadata);
    (* rows cached by open database writers, by target *)
  signals : list (string * SignalRecord);
    (* records handed to the signal bundle builder of a symbol *)
  calls : list call;
  logged : list exn
    (* self.logger.exception *)
}.

Definition set_self (m : TradingMode) (s : state) : state :=
  {| self := m;
     SAVED_RUN_METADATA_DB_BY_BOT_ID := SAVED_RUN_METADATA_DB_BY_BOT_ID s;
     metadata_db := metadata_db s;
     pending := pending s;
     signals := signals s;
     calls := calls s;
     logged := logged s |}.

Definition set_saved (k : string) (b : bool) (s : state) : state :=
  {| self := self s;
     SAVED_RUN_METADATA_DB_BY_BOT_ID := <[k := b]> (SAVED_RUN_METADATA_DB_BY_BOT_ID s);
     metadata_db := metadata_db s;
     pending := pending s;
     signals := signals s;
     calls := calls s;
     logged := logged s |}.

Definition set_metadata_db (db : list (string * Metadata)) (s : state) : state :=
  {| self := self s;
     SAVED_RUN_METADATA_DB_BY_BOT_ID := SAVED_RUN_METADATA_DB_BY_BOT_ID s;
     metadata_db := db;
     pending := pending s;
     signals := signals s;
     calls := calls s;
     logged := logged s |}.

Definition set_pending (rows : list (string * Metadata)) (s : state) : state :=
  {| self := self s;
     SAVED_RUN_METADATA_DB_BY_BOT_ID := SAVED_RUN_METADATA_DB_BY_BOT_ID s;
     metadata_db := metadata_db s;
     pending := rows;
     signals := signals s;
     calls := calls s;
     logged := logged s |}.

Definition add_signal (symbol : string) (r : SignalRecord) (s : state) : state :=
  {| self := self s;
     SAVED_RUN_METADATA_DB_BY_BOT_ID := SAVED_RUN_METADATA_DB_BY_BOT_ID s;
     metadata_db := metadata_db s;
     pending := pending s;
     signals := signals s ++ [(symbol, r)];
     calls := calls s;
     logged := logged s |}.

Definition add_call (c : call) (s : state) : state :=
  {| self := self s;
     SAVED_RUN_METADATA_DB_BY_BOT_ID := SAVED_RUN_METADATA_DB_BY_BOT_ID s;
     metadata_db := metadata_db s;
     pending := pending s;
     signals := signals s;
     calls := calls s ++ [c];
     logged := logged s |}.

Definition add_logged (e : exn) (s : state) : state :=
  {| self := self s;
     SAVED_RUN_METADATA_DB_BY_BOT_ID := SAVED_RUN_METADATA_DB_BY_BOT_ID s;
     metadata_db := metadata_db s;
     pending := pending s;
     signals := signals s;
     calls := calls s;
     logged := logged s ++ [e] |}.

(** A call to a collaborator that answers nothing: it is made, then it
    returns or raises. *)
Definition invoke (c : call) (fault : option exn) : M state unit :=
  modify (add_call c) ;;; lift_fault fault.

(** [self.exchange_manager.<attr>]: fails on a stopped instance. *)
Definition exchange_manager_attr {A} (attr : string)
    (f : ExchangeManager → A) : M state A :=
  s <- get ;;
  match exchange_manager (self s) with
  | Some em => ret (f em)
  | None => raise (AttributeError attr)
  end.

(** ** Signal configuration *)

(** [self.trading_config[key]] *)
Definition trading_config_item (key : string) : M state pyval :=
  s <- get ;;
  match trading_config (self s) with
  | None => raise TypeError
  | Some d =>
      match d !! key with
      | Some v => ret v
      | None => raise (KeyError key)
      end
  end.

Definition is_trading_signal_emitter : M state pyval :=
  try_except
    (trading_config_item CONFIG_EMIT_TRADING_SIGNALS)
    is_KeyError
    (λ _, ret (VBool false)).

(** [not self.exchange_manager.is_backtesting and
     self.is_trading_signal_emitter()] *)
Definition should_emit_trading_signal : M state pyval :=
  b <- exchange_manager_attr "is_backtesting" is_backtesting ;;
  if negb b then is_trading_signal_emitter else ret (VBool false).

Definition get_trading_signal_identifier : M state pyval :=
  try_except
    (v <- trading_config_item CONFIG_TRADING_SIGNALS_STRATEGY ;;
     s <- get ;;
     ret (py_or v (VStr (name (self s)))))
    is_KeyError
    (λ _, s <- get ;; ret (VStr (name (self s)))).

(** ** Order mediation *)

(** Modelled from the spec: [add_created_order], [add_cancelled_order]
    and [add_edited_order] of the signal bundle builder of a symbol
    ([signals.SignalPublisher.instance().get_signal_bundle_builder(symbol)],
    not part of this file) append a record to the bundle. *)
Definition add_created_order (symbol : string) (created : Order)
    (em : option ExchangeManager) (target_amount : string) : M state unit :=
  modify (add_signal symbol (CreatedOrder created em target_amount)).

Definition add_cancelled_order (symbol : string) (o : Order)
    (em : option ExchangeManager) : M state unit :=
  modify (add_signal symbol (CancelledOrder o em)).

Definition add_edited_order (symbol : string) (o : Order)
    (em : option ExchangeManager)
    (updated_target_amount updated_limit_price
     updated_stop_price updated_current_price : option Q) : M state unit :=
  modify (add_signal symbol
            (EditedOrder o em updated_target_amount updated_limit_price
               updated_stop_price updated_current_price)).

(** [await self.exchange_manager.trader.<op>(...)]: the trader acts on
    the personal data of the exchange, then answers or raises. *)
Definition set_personal_data (d : ExchangePersonalData)
    (em : ExchangeManager) (s : state) : state :=
  set_self
    (set_exchange_manager (Some (set_exchange_personal_data d em)) (self s)) s.

Definition call_trader {A} (c : call)
    (op : ExchangePersonalData → result A * ExchangePersonalData)
    : M state A :=
  em <- exchange_manager_attr "trader" id ;;
  modify (add_call c) ;;;
  let '(r, d) := op (exchange_personal_data em) in
  modify (set_personal_data d em) ;;;
  lift_result r.

Definition create_order (env : Collaborators) (order : Order)
    (loaded : bool) (params : option Params)
    (pre_init_callback : option Callback) : M state (option Order) :=
  emit <- should_emit_trading_signal ;;
  order_pf_percent <-
    (if truthy emit then
       em <- exchange_manager_attr "exchange_personal_data" id ;;
       modify (add_call (PortfolioPercent order)) ;;;
       percent <- lift_result
         (get_order_size_portfolio_percent env em
            (origin_quantity order) (order_side order) (order_symbol order)) ;;
       ret (float_repr (float_of_decimal percent) ++ PERCENT)
     else ret ("0" ++ PERCENT)) ;;
  created_order <- call_trader (TraderCreateOrder order)
    (trader_create_order env order loaded params pre_init_callback) ;;
  match created_order with
  | Some created =>
      emit' <- should_emit_trading_signal ;;
      if truthy emit' then
        s <- get ;;
        add_created_order (order_symbol order) created
          (exchange_manager (self s)) order_pf_percent
      else ret tt
  | None => ret tt
  end ;;;
  ret created_order.

Definition cancel_order (env : Collaborators) (order : Order)
    (ignored_order : option Order) : M state bool :=
  cancelled <- call_trader (TraderCancelOrder order)
    (trader_cancel_order env order ignored_order) ;;
  emit <- should_emit_trading_signal ;;
  (if truthy emit && cancelled then
     s <- get ;;
     add_cancelled_order (order_symbol order) order (exchange_manager (self s))
   else ret tt) ;;;
  ret cancelled.

Definition edit_order (env : Collaborators) (order : Order)
    (edited_quantity edited_price edited_stop_price
     edited_current_price : option Q) (params : option Params)
    : M state bool :=
  changed <- call_trader (TraderEditOrder order)
    (trader_edit_order env order edited_quantity edited_price
       edited_stop_price edited_current_price params) ;;
  emit <- should_emit_trading_signal ;;
  (if truthy emit && changed then
     s <- get ;;
     add_edited_order (order_symbol order) order (exchange_manager (self s))
       edited_quantity edited_price edited_stop_price edited_current_price
   else ret tt) ;;;
  ret changed.

(** ** Scoped signal publication

    [contextlib.asynccontextmanager] turns an async generator function
    into a context manager.  A generator is run up to its [yield]; what
    follows the [yield] is resumed when the [async with] block is left,
    normally ([None]) or with the exception the block raised thrown in at
    the [yield]. *)

#[warnings="-register-all"]
Inductive generator (Y : Type) :=
| Returned
| Yielded (y : Y) (resume : option exn → M state (generator Y)).
Arguments Returned {Y}.
Arguments Yielded {Y} y resume.

(** [__aenter__]: the generator has to yield once. *)
Definition aenter {Y} (cm : M state (generator Y))
    : M state (Y * (option exn → M state (generator Y))) :=
  g <- cm ;;
  match g with
  | Returned => raise (RuntimeError "generator didn't yield")
  | Yielded y resume => ret (y, resume)
  end.

(** [__aexit__]: the generator has to finish.  When an exception was
    thrown in and the generator finishes without raising, the exception
    is suppressed; an exception raised by the generator propagates. *)
Definition aexit {Y} (resume : option exn → M state (generator Y))
    (thrown : option exn) : M state unit :=
  g <- resume thrown ;;
  match g with
  | Returned => ret tt
  | Yielded _ _ =>
      raise (RuntimeError
               match thrown with
               | None => "generator didn't stop"
               | Some _ => "generator didn't stop after athrow()"
               end)
  end.

(** [async with cm as y: body y].  The statement has a value only when
    the body completed. *)
Definition async_with {Y A} (cm : M state (generator Y))
    (body : Y → M state A) : M state (option A) :=
  entered <- aenter cm ;;
  let '(y, resume) := entered in
  r <- attempt (body y) ;;
  match r with
  | Ok a => aexit resume None ;;; ret (Some a)
  | Raise e => aexit resume (Some e) ;;; ret None
  end.

(** The records handed so far to the signal bundle builder of [symbol]. *)
Definition bundle_records (symbol : string) (s : state)
    : list SignalRecord :=
  (filter (λ r, r.1 = symbol) (signals s)).*2.

(** Modelled from the spec: the remote signal transport
    ([signals.SignalPublisher.instance().remote_signal_bundle_builder],
    not part of this file).  Opening a bundle answers a scoped handle or
    raises.  The bundle is released on every exit of the scope: it is
    sent as one operation, which may raise as well, or discarded when
    the scope is left by an exception before any record was added.  An
    exception the scope is left by goes on once the bundle is released. *)
Definition remote_signal_bundle_builder (env : Collaborators)
    (symbol : string) (identifier : pyval) (timeout : Z)
    (args : list string) : M state (generator SignalBundleBuilder) :=
  let signal_builder :=
    {| builder_symbol := symbol; builder_identifier := identifier;
       builder_timeout := timeout; builder_args := args |} in
  invoke (BundleOpen signal_builder) (bundle_open env symbol) ;;;
  opened <- get ;;
  ret (Yielded signal_builder
         (λ thrown,
            match thrown with
            | Some e =>
                s <- get ;;
                (if bool_decide (length (bundle_records symbol s)
                                 = length (bundle_records symbol opened))
                 then ret tt
                 else invoke (BundleSend symbol) (bundle_send env symbol)) ;;;
                raise e
            | None =>
                invoke (BundleSend symbol) (bundle_send env symbol) ;;;
                ret Returned
            end)).

(** maximum seconds before sending a trading signal if orders are slow
    to create on exchange *)
Definition TRADING_SIGNAL_TIMEOUT : Z := 10.

(** [except (authentication.AuthenticationRequired,
             authentication.UnavailableError) as e:
        self.logger.exception(e, True, ...)]
    after which the generator function reaches its end. *)
Definition except_authentication_failure {Y}
    (m : M state (generator Y)) : M state (generator Y) :=
  try_except m is_authentication_failure
    (λ e, modify (add_logged e) ;;; ret Returned).

Definition remote_signal_publisher (env : Collaborators) (symbol : string)
    : M state (generator (option SignalBundleBuilder)) :=
  emit <- should_emit_trading_signal ;;
  if truthy emit then
    except_authentication_failure
      (identifier <- get_trading_signal_identifier ;;
       s <- get ;;
       entered <- aenter
         (remote_signal_bundle_builder env symbol identifier
            TRADING_SIGNAL_TIMEOUT [name (self s)]) ;;
       let '(signal_builder, inner) := entered in
       ret (Yielded (Some signal_builder)
              (λ thrown,
                 except_authentication_failure
                   (aexit inner thrown ;;; ret Returned))))
  else
    ret (Yielded None
           (λ thrown,
              match thrown with
              | Some e => raise e
              | None => ret Returned
              end)).

(** ** Backtesting metadata *)

(** [str(d)] of a dict with string keys. *)
Definition str_dict {V} (str_value : V → string) (d : list (string * V))
    : string :=
  "{" ++ String.concat ", "
           (map (λ kv, "'" ++ kv.1 ++ "': " ++ str_value kv.2) d) ++ "}".

Definition str_portfolio (p : Portfolio F) : string :=
  str_dict (str_dict float_repr) p.

(** [for values in portfolio.values(): values.pop("available", None)] *)
Definition pop_available (p : Portfolio F) : Portfolio F :=
  map (λ cv, (cv.1, dict_pop "available" cv.2)) p.

(** [for position in positions:
       end_portfolio[position.get_currency()]["position"] =
         float(position.quantity)] *)
Fixpoint set_positions (ps : list Position) (end_portfolio : Portfolio F)
    : result (Portfolio F) :=
  match ps with
  | [] => Ok end_portfolio
  | position :: ps' =>
      let currency := position_currency position in
      match dict_get currency end_portfolio with
      | None => Raise (KeyError currency)
      | Some values =>
          set_positions ps'
            (dict_set currency
               (dict_set "position"
                  (float_of_decimal (position_quantity position)) values)
               end_portfolio)
      end
  end.

(** The loop building [formatted_user_inputs]. *)
Fixpoint format_user_inputs (user_inputs : list UserInput)
    (formatted : list (string * list (string * pyval)))
    : list (string * list (string * pyval)) :=
  match user_inputs with
  | [] => formatted
  | user_input :: rest =>
      format_user_inputs rest
        (if negb (is_nested_config user_input) then
           match dict_get (tentacle user_input) formatted with
           | Some inputs =>
               dict_set (tentacle user_input)
                 (dict_set (input_name user_input) (input_value user_input)
                    inputs)
                 formatted
           | None =>
               dict_set (tentacle user_input)
                 [(input_name user_input, input_value user_input)] formatted
           end
         else formatted)
  end.

Definition is_entry (trade : Trade) : bool :=
  bool_decide (trade_status trade = FILLED)
  && bool_decide (trade_side trade = BUY).

(** Override if necessary *)
Definition get_additional_backtesting_metadata : M state Metadata :=
  ret ∅.

Definition get_backtesting_metadata (env : Collaborators)
    (user_inputs : list UserInput)
    (run_dbs_identifier : RunDatabasesIdentifier) : M state Metadata :=
  em <- exchange_manager_attr "exchange_personal_data" id ;;
  s <- get ;;
  let data := exchange_personal_data em in
  let symbols := trading_pairs em in
  let origin_portfolio :=
    pop_available (portfolio_to_float env (origin_portfolio data)) in
  let end_portfolio :=
    pop_available (portfolio_to_float env (portfolio data)) in
  end_portfolio <-
    (if is_future em then lift_result (set_positions (positions data) end_portfolio)
     else ret end_portfolio) ;;
  let time_frames := required_time_frames em in
  let formatted_user_inputs := format_user_inputs user_inputs [] in
  leverage <-
    (if is_future em then
       match get_pair_future_contract em with
       | Some current_leverage =>
           match symbols with
           | symbol :: _ =>
               ret (VFloat (float_of_decimal (current_leverage symbol)))
           | [] => raise IndexError
           end
       | None => ret (VInt 0)
       end
     else ret (VInt 0)) ;;
  let trades := trade_history data in
  let entries := filter (λ trade, is_entry trade = true) trades in
  let win_rate :=
    float_round (float_of_decimal (win_rate data * 100)%Q) 3 in
  let wins :=
    float_round_int
      (float_div
         (float_mul win_rate (float_of_int (Z.of_nat (length entries))))
         (float_of_int 100)) in
  let draw_down := float_round (float_of_decimal (draw_down data)) 3 in
  let r_sq_end_balance := r_sq_end_balance data in
  let r_sq_max_balance := r_sq_max_balance data in
  additional <- get_additional_backtesting_metadata ;;
  ret (additional ∪
       list_to_map
         [ (OPTIMIZATION_CAMPAIGN,
            VStr (optimization_campaign_name run_dbs_identifier));
           (ID, VInt (backtesting_id run_dbs_identifier));
           (GAINS,
            VFloat (float_round (float_of_decimal (profitability data)) 8));
           (PERCENT_GAINS,
            VFloat
              (float_round (float_of_decimal (profitability_percent data)) 3));
           (END_PORTFOLIO, VStr (str_portfolio end_portfolio));
           (START_PORTFOLIO, VStr (str_portfolio origin_portfolio));
           (WIN_RATE, VFloat win_rate);
           (DRAW_DOWN, py_or (VFloat draw_down) (VInt 0));
           (COEFFICIENT_OF_DETERMINATION_MAX_BALANCE,
            py_or r_sq_max_balance (VInt 0));
           (COEFFICIENT_OF_DETERMINATION_END_BALANCE,
            py_or r_sq_end_balance (VInt 0));
           (SYMBOLS, VList (VStr <$> symbols));
           (TIME_FRAMES, VList (VStr <$> time_frames));
           (START_TIME, VFloat (backtesting_starting_time (backtesting em)));
           (END_TIME, VFloat (backtesting_ending_time (backtesting em)));
           (DURATION,
            VFloat (float_round (backtesting_duration (backtesting em)) 3));
           (ENTRIES, VInt (Z.of_nat (length entries)));
           (WINS, VInt wins);
           (LOSES, VInt (Z.of_nat (length entries) - wins));
           (TRADES, VInt (Z.of_nat (length trades)));
           (TIMESTAMP, VFloat (start_time (self s)));
           (NAME, VStr (name (self s)));
           (LEVERAGE, leverage);
           (USER_INPUTS,
            VDict ((λ kv, (kv.1, VDict kv.2)) <$> formatted_user_inputs));
           (BACKTESTING_FILES,
            VList (VStr <$> backtesting_data_files (backtesting em)));
           (EXCHANGE, VStr (exchange_name em)) ]).

(** ** Saving the metadata of a backtesting run *)

Record DBWriter := { writer_target : string }.

(** Modelled from the spec: the metadata store
    ([databases.DBWriter.database(target, with_lock=True)], not part of
    this file): [open_writer(target, exclusive=true) -> scoped Writer].
    Opening may raise.  Rows written through the writer are cached; they
    reach the database when the scope is left and closing the writer
    succeeds.  Closing runs on both exits of the scope and may raise. *)
Definition database (env : Collaborators) (target : string)
    : M state (generator DBWriter) :=
  invoke (DatabaseOpen target) (database_open env) ;;;
  ret (Yielded {| writer_target := target |}
         (λ thrown,
            s <- get ;;
            modify (set_pending []) ;;;
            invoke (DatabaseClose target) (database_close env) ;;;
            modify (set_metadata_db (metadata_db s ++ pending s)) ;;;
            match thrown with
            | Some e => raise e
            | None => ret Returned
            end)).

(** Modelled from the spec: [write(record)] of the metadata store
    ([basic_keywords.save_metadata(writer, metadata)], not part of this
    file). *)
Definition save_metadata (env : Collaborators) (writer : DBWriter)
    (metadata : Metadata) : M state unit :=
  invoke (DatabaseLog (writer_target writer)) (database_log env) ;;;
  s <- get ;;
  modify (set_pending (pending s ++ [(writer_target writer, metadata)])).

Definition save_transactions (env : Collaborators) : M state unit :=
  exchange_manager_attr "exchange_personal_data" id ;;;
  invoke StoreTransactions (store_transactions env).

Definition save_trades (env : Collaborators) : M state unit :=
  exchange_manager_attr "exchange_personal_data" id ;;;
  invoke StoreTrades (store_trades env).

(** [cls.SAVED_RUN_METADATA_DB_BY_BOT_ID.get(bot_id, False)] *)
Definition saved_run_metadata (bot : string) (s : state) : bool :=
  default false (SAVED_RUN_METADATA_DB_BY_BOT_ID s !! bot).

Definition save_backtesting_data (env : Collaborators) : M state unit :=
  s <- get ;;
  if negb (are_metadata_saved (self s))
     && bool_decide (exchange_manager (self s) ≠ None) then
    bot <- exchange_manager_attr "bot_id" bot_id ;;
    let run_dbs_identifier := get_run_databases_identifier env bot in
    invoke (RunDbFlush bot) (run_db_flush env) ;;;
    modify (add_call (GetUserInputs bot)) ;;;
    user_inputs <- lift_result (get_user_inputs env) ;;
    save_transactions env ;;;
    save_trades env ;;;
    bot <- exchange_manager_attr "bot_id" bot_id ;;
    s <- get ;;
    if negb (saved_run_metadata bot s) then
      try_except
        (bot <- exchange_manager_attr "bot_id" bot_id ;;
         modify (set_saved bot true) ;;;
         async_with
           (database env (backtesting_metadata_identifier run_dbs_identifier))
           (λ writer,
              metadata <- get_backtesting_metadata env user_inputs
                            run_dbs_identifier ;;
              save_metadata env writer metadata ;;;
              modify (λ s, set_self (set_are_metadata_saved true (self s)) s)) ;;;
         ret tt)
        is_Exception
        (λ e,
           bot <- exchange_manager_attr "bot_id" bot_id ;;
           modify (set_saved bot false) ;;;
           raise e)
    else ret tt
  else ret tt.

(** Stops all producers and consumers *)
Definition stop (env : Collaborators) : M state unit :=
  backtesting <- exchange_manager_attr "is_backtesting" is_backtesting ;;
  (if backtesting then save_backtesting_data env else ret tt) ;;;
  s <- get ;;
  for_each (λ producer, invoke (ProducerStop producer) (producer_stop env producer))
    (producers (self s)) ;;;
  s <- get ;;
  for_each (λ consumer, invoke (ConsumerStop consumer) (consumer_stop env consumer))
    (consumers (self s)) ;;;
  modify (λ s, set_self (set_exchange_manager None (self s)) s).

(** ** Several instances in one process

    [stop()] called on the [i]-th instance of a process.  Whatever the
    call raises, the caller goes on with the state the call left. *)

Definition stop_instance (env : Collaborators) (i : nat)
    (p : list TradingMode * state) : list TradingMode * state :=
  match p.1 !! i with
  | Some m =>
      let s' := (stop env (set_self m p.2)).2 in
      (<[i := self s']> p.1, s')
  | None => p
  end.

(** An instance of the backtesting run [b]: while it has an exchange
    manager, it is a backtesting one of that run. *)
Definition of_run (b : string) (m : TradingMode) : bool :=
  match exchange_manager m with
  | Some em => bool_decide (bot_id em = b) && is_backtesting em
  | None => true
  end.

(** A sequence of [stop()] calls, each with what the collaborators
    answer during it. *)
Definition stop_sequence (script : list (Collaborators * nat))
    (p : list TradingMode * state) : list TradingMode * state :=
  foldl (λ p call, stop_instance call.1 call.2 p) p script.

End TradingMode.

Arguments Returned {F Y}.
Arguments Yielded {F Y} y resume.

(** ** An instance of the float interface

    Exact decimal arithmetic over the rationals, with the round-half-even
    rule of [round].  It is not the binary floating point of Python, from
    which it differs on values that have no exact binary representation
    (decimal ties, long fractions), and no theorem below is about it.
    It only serves to run the model on the examples, whose values the two
    treat alike. *)

Definition round_half_even (x : Q) : Z :=
  let a := Qnum x in
  let b := Z.pos (Qden x) in
  let f := a / b in
  let r := a mod b in
  match (2 * r ?= b) with
  | Lt => f
  | Gt => f + 1
  | Eq => if Z.even f then f else f + 1
  end.

Definition round_digits (x : Q) (ndigits : Z) : Q :=
  let scale := inject_Z (10 ^ ndigits) in
  Qred (inject_Z (round_half_even (x * scale)) / scale).

Fixpoint fraction_digits (fuel : nat) (r b : Z) : string :=
  match fuel with
  | O => ""
  | S fuel' =>
      if (r =? 0)%Z then ""
      else pretty (r * 10 / b) ++ fraction_digits fuel' (r * 10 mod b) b
  end.

Definition repr_decimal (x : Q) : string :=
  let a := Qnum (Qred x) in
  let b := Z.pos (Qden (Qred x)) in
  let digits := fraction_digits 17 (Z.abs a mod b) b in
  (if (a <? 0)%Z then "-" else "") ++ pretty (Z.abs a / b) ++ "."
  ++ (if bool_decide (digits = "") then "0" else digits).

#[global] Instance exact_float : PyFloat Q := {
  float_of_decimal := Qred;
  float_of_int := inject_Z;
  float_mul x y := Qred (x * y);
  float_div x y := Qred (x / y);
  float_round := round_digits;
  float_round_int := round_half_even;
  float_is_zero x := (Qnum x =? 0)%Z;
  float_repr := repr_decimal
}.

#[global] Instance example_constants : Constants := {
  CONFIG_EMIT_TRADING_SIGNALS := "emit_trading_signals";
  CONFIG_TRADING_SIGNALS_STRATEGY := "trading_signals_strategy";
  PERCENT := "%"
}.

(** ** A concrete process

    One exchange with 1000 USDT, a mode with one producer and one
    consumer, and collaborators that answer without failing unless told
    otherwise.  The trader fills every order and takes 250 USDT out of the
    portfolio. *)

Definition example_personal_data : @ExchangePersonalData Q := {|
  origin_portfolio := [("USDT", [("available", 1000); ("total", 1000)])];
  portfolio := [("USDT", [("available", 1000); ("total", 1000)])];
  positions := [];
  trade_history :=
    replicate 10 {| trade_status := FILLED; trade_side := BUY |}
    ++ replicate 8 {| trade_status := FILLED; trade_side := SELL |}
    ++ [{| trade_status := CANCELED; trade_side := BUY |}];
  profitability := 123456789 # 10000000000;
  profitability_percent := 12345 # 10000;
  win_rate := 6 # 10;
  draw_down := 4 # 10000;
  r_sq_end_balance := VNone;
  r_sq_max_balance := VFloat (1 # 2)
|}%Q.

Definition example_exchange_manager (backtesting : bool)
    : @ExchangeManager Q := {|
  em_id := "exchange-1";
  bot_id := "X";
  exchange_name := "binance";
  is_backtesting := backtesting;
  is_future := false;
  exchange_personal_data := example_personal_data;
  trading_pairs := ["BTC/USDT"];
  required_time_frames := ["1h"];
  get_pair_future_contract := None;
  backtesting :=
    {| backtesting_starting_time := 1600000000%Q;
       backtesting_ending_time := 1600086400%Q;
       backtesting_duration := (1234567 # 1000000)%Q;
       backtesting_data_files := ["binance_BTC_USDT.data"] |}
|}.

Definition example_mode (backtesting : bool)
    (config : gmap string (@pyval Q)) : @TradingMode Q := {|
  name := "DailyTradingMode";
  exchange_manager := Some (example_exchange_manager backtesting);
  trading_config := Some config;
  producers := ["producer"];
  consumers := ["consumer"];
  start_time := 1700000000%Q;
  are_metadata_saved := false
|}.

Definition emitting_config : gmap string (@pyval Q) :=
  {[ "emit_trading_signals" := VBool true ]}.

Definition example_state (m : @TradingMode Q) : @state Q := {|
  self := m;
  SAVED_RUN_METADATA_DB_BY_BOT_ID := ∅;
  metadata_db := [];
  pending := [];
  signals := [];
  calls := [];
  logged := []
|}.

Definition example_order : Order := {|
  order_id := "order-1";
  order_symbol := "BTC/USDT";
  order_side := BUY;
  origin_quantity := 250
|}.

Definition after_purchase (d : @ExchangePersonalData Q)
    : @ExchangePersonalData Q := {|
  origin_portfolio := origin_portfolio d;
  portfolio := [("USDT", [("available", 750); ("total", 750)])]%Q;
  positions := positions d;
  trade_history := trade_history d;
  profitability := profitability d;
  profitability_percent := profitability_percent d;
  win_rate := win_rate d;
  draw_down := draw_down d;
  r_sq_end_balance := r_sq_end_balance d;
  r_sq_max_balance := r_sq_max_balance d
|}.

Definition example_user_inputs : list (@UserInput Q) :=
  [ {| is_nested_config := false; tentacle := "DailyTradingMode";
       input_name := "risk"; input_value := VInt 1 |};
    {| is_nested_config := true; tentacle := "DailyTradingMode";
       input_name := "nested"; input_value := VNone |} ].

(** The collaborators; [open_fault] and [send_fault] are what the signal
    transport raises, [log_fault] what writing a metadata row raises. *)
Definition example_env (open_fault send_fault log_fault : option exn)
    : @Collaborators Q := {|
  get_order_size_portfolio_percent em quantity side symbol :=
    match dict_get "USDT" (portfolio (exchange_personal_data em))
          ≫= dict_get "total" with
    | Some total => Ok (Qred (quantity / total * 100))
    | None => Raise (KeyError "USDT")
    end;
  portfolio_to_float p :=
    map (λ cv : string * list (string * Q),
           (cv.1, map (λ kv : string * Q, (kv.1, Qred kv.2)) cv.2)) p;
  trader_create_order o loaded params callback d :=
    (Ok (Some o), after_purchase d);
  trader_cancel_order o ignored d := (Ok true, d);
  trader_edit_order o quantity price stop_price current_price params d :=
    (Ok true, d);
  bundle_open symbol := open_fault;
  bundle_send symbol := send_fault;
  get_run_databases_identifier bot :=
    {| optimization_campaign_name := "campaign";
       backtesting_id := 1;
       backtesting_metadata_identifier := bot ++ "/metadata" |};
  run_db_flush := None;
  get_user_inputs := Ok example_user_inputs;
  store_transactions := None;
  store_trades := None;
  database_open := None;
  database_log := log_fault;
  database_close := None;
  producer_stop p := None;
  consumer_stop c := None
|}.

(** A live mode that emits signals, the same mode on a backtesting
    exchange, and a live mode whose configuration has no signal key. *)
Definition live_state : @state Q :=
  example_state (example_mode false emitting_config).

Definition backtesting_state : @state Q :=
  example_state (example_mode true emitting_config).

Definition unconfigured_state : @state Q :=
  example_state (example_mode false ∅).

Definition example_builder : @SignalBundleBuilder Q := {|
  builder_symbol := "BTC/USDT";
  builder_identifier := VStr "DailyTradingMode";
  builder_timeout := 10;
  builder_args := ["DailyTradingMode"]
|}.

(** The record of the backtesting run. *)
Definition example_metadata : gmap BacktestingMetadata (@pyval Q) :=
  match
    (get_backtesting_metadata (example_env None None None)
       example_user_inputs
       (get_run_databases_identifier (example_env None None None) "X")
       backtesting_state).1
  with
  | Ok metadata => metadata
  | Raise _ => ∅
  end.

(** Two instances of the backtesting run ["X"], and four [stop()] calls
    on them; writing the metadata row fails during the first call. *)
Definition example_instances : list (@TradingMode Q) :=
  [example_mode true emitting_config; example_mode true ∅].

Definition example_script : list (@Collaborators Q * nat) :=
  [ (example_env None None (Some (OtherException "disk full")), 0%nat);
    (example_env None None None, 1%nat);
    (example_env None None None, 0%nat);
    (example_env None None None, 1%nat) ].

(** * Strategies required by a mode

    The class methods that read the tentacle configuration of a mode.
    [stored] is what [tentacles_manager_api.get_tentacle_config] answers
    for the class. *)

(** Keys and values of [octobot_trading.constants] and
    [octobot_commons.constants] defined elsewhere. *)
Class StrategyConstants := {
  TRADING_MODE_REQUIRED_STRATEGIES : string;
  TRADING_MODE_REQUIRED_STRATEGIES_MIN_COUNT : string;
  TENTACLE_DEFAULT_CONFIG : string;
  CONFIG_CANDLES_HISTORY_SIZE_KEY : string;
  DEFAULT_IGNORED_VALUE : Z
}.

Section Strategies.

Context {F : Type} `{PyFloat F} `{StrategyConstants}.

(** [trading_mode_config or
     tentacles_manager_api.get_tentacle_config(tentacles_config, cls)]:
    [None] is false, and so is an empty dictionary. *)
Definition config_or_stored
    (trading_mode_config : option (gmap string (@pyval F)))
    (stored : gmap string (@pyval F)) : gmap string (@pyval F) :=
  match trading_mode_config with
  | Some config => if bool_decide (config = ∅) then stored else config
  | None => stored
  end.

Definition get_required_strategies_count (config : gmap string (@pyval F))
    : @pyval F :=
  let min_strategies_count := VInt 1 in
  match config !! TRADING_MODE_REQUIRED_STRATEGIES_MIN_COUNT with
  | Some count => count
  | None => min_strategies_count
  end.

Definition get_required_strategies_names_and_count
    (stored : gmap string (@pyval F))
    (trading_mode_config : option (gmap string (@pyval F)))
    : result (@pyval F * @pyval F) :=
  let config := config_or_stored trading_mode_config stored in
  match config !! TRADING_MODE_REQUIRED_STRATEGIES with
  | Some strategies => Ok (strategies, get_required_strategies_count config)
  | None =>
      Raise (OtherException
               ("'" ++ TRADING_MODE_REQUIRED_STRATEGIES
                ++ "' is missing in configuration file"))
  end.

Definition get_default_strategies (stored : gmap string (@pyval F))
    (trading_mode_config : option (gmap string (@pyval F)))
    : result (@pyval F) :=
  let config := config_or_stored trading_mode_config stored in
  match config !! TENTACLE_DEFAULT_CONFIG with
  | Some default_config => Ok default_config
  | None =>
      match get_required_strategies_names_and_count stored (Some config) with
      | Ok (strategies_classes, _) => Ok strategies_classes
      | Raise e => Raise e
      end
  end.

Definition get_required_candles_count (stored : gmap string (@pyval F))
    : @pyval F :=
  default (VInt DEFAULT_IGNORED_VALUE)
    (stored !! CONFIG_CANDLES_HISTORY_SIZE_KEY).

End Strategies.

(** * Start-up of a mode

    [initialize()] and what it calls: the configuration is loaded, the
    portfolio and the live metadata are stored, then producers and
    consumers are created. *)

(** Names of [octobot_trading.constants], [octobot_commons] and
    [async_channel.constants] defined elsewhere. *)
Class StartupConstants := {
  MODE_CHANNEL : string;
  TRADES_CHANNEL : string;
  CHANNEL_WILDCARD : string;
  CONFIG_EXCHANGES : string;
  CONFIG_ENABLED_OPTION : string
}.

Section Startup.

Context {F : Type} `{PyFloat F} `{Constants} `{StartupConstants}.

(** What a subclass declares, and the attributes of an instance that
    [stop()] and the order methods do not read. *)
Record ModeAttributes := {
  MODE_PRODUCER_CLASSES : list string;
  MODE_CONSUMER_CLASSES : list string;
  cryptocurrency : option string;      (* None if wildcard *)
  symbol : option string;              (* None if wildcard *)
  time_frame : option string           (* None if wildcard *)
}.

(** A future contract of [exchange.pair_contracts], with the values of
    its enumerations. *)
Record Contract := {
  contract_type : string;
  position_mode : string;
  margin_type : string
}.

(** What [get_live_metadata] reads besides the exchange manager. *)
Record LiveData := {
  config_exchanges : option (list (string * gmap string (@pyval F)));
    (* self.config[CONFIG_EXCHANGES]; None when the key is missing *)
  reference_market : string;
    (* trading_api.get_reference_market(self.config) *)
  exchange_current_time : F;
    (* trading_api.get_exchange_current_time *)
  pair_contracts : option (list (string * Contract));
    (* exchange.pair_contracts; None when the exchange has no such
       attribute *)
  traded_symbol_pairs : list string
    (* exchange_config.traded_symbol_pairs *)
}.

(** The dictionary answered by [get_live_metadata], by key of
    [common_enums.DBRows]. *)
Record LiveMetadata := {
  row_reference_market : string;
  row_start_time : @pyval F;
  row_end_time : @pyval F;
  row_trading_type : string;
  row_exchanges : list string;
  row_future_contracts : list (string * list (string * Contract));
  row_symbols : list string
}.

(** [config.get(CONFIG_ENABLED_OPTION, True)] *)
Definition is_enabled (config : gmap string (@pyval F)) : bool :=
  truthy (default (VBool true) (config !! CONFIG_ENABLED_OPTION)).

(** [trading_api.get_is_backtesting] reads [is_backtesting] of the
    exchange manager it is given.  The base class adds no metadata of its
    own: [get_additional_backtesting_metadata] answers an empty
    dictionary, which is merged last. *)
Definition get_live_metadata (live : LiveData) : M (@state F) LiveMetadata :=
  em <- exchange_manager_attr "is_backtesting" id ;;
  let start_time :=
    if is_backtesting em
    then VFloat (backtesting_starting_time (backtesting em))
    else VFloat (exchange_current_time live) in
  let end_time :=
    if is_backtesting em
    then VFloat (backtesting_ending_time (backtesting em))
    else VInt (-1) in
  let exchange_type := "spot" in
  exchanges <-
    match config_exchanges live with
    | Some exchanges => ret exchanges
    | None => raise (KeyError CONFIG_EXCHANGES)
    end ;;
  let exchange_names :=
    (filter (λ exchange_config, is_enabled exchange_config.2 = true)
       exchanges).*1 in
  let future_contracts_by_exchange := [] in
  let '(exchange_type, future_contracts_by_exchange) :=
    match is_future em, pair_contracts live with
    | true, Some contracts =>
        ("future",
         [(exchange_name em,
           filter (λ contract, contract.1 ∈ traded_symbol_pairs live)
             contracts)])
    | _, _ => (exchange_type, future_contracts_by_exchange)
    end in
  _ <- get_additional_backtesting_metadata ;;
  ret {| row_reference_market := reference_market live;
         row_start_time := start_time;
         row_end_time := end_time;
         row_trading_type := exchange_type;
         row_exchanges := exchange_names;
         row_future_contracts := future_contracts_by_exchange;
         row_symbols := traded_symbol_pairs live |}.

(** ** Collaborators of the start-up *)

Record StartupCollaborators := {
  (* tentacles_manager_api.get_tentacle_config(tentacles_setup_config,
     self.__class__) *)
  get_tentacle_config : option (gmap string (@pyval F));
  (* AbstractTentacle.load_and_save_user_inputs *)
  load_and_save_user_inputs : option exn;
  (* isinstance(element, (AbstractTradingModeConsumer,
                          AbstractTradingModeProducer)) *)
  is_mode_element : string → bool;
  element_reload_config : string → option exn;
  (* run databases identifier, and basic_keywords *)
  run_databases_initialize : option exn;
  store_portfolio : option exn;
  save_live_metadata_row : option exn;
  (* exchanges_channel.get_chan(name, exchange id) *)
  get_chan : string → string → option exn;
  (* constructors of the producer and consumer classes, and run() *)
  producer_new : string → option exn;
  producer_run : string → option exn;
  consumer_new : string → option exn;
  (* new_consumer of a channel, by the consumer it registers; the trades
     channel builds the consumer it answers *)
  new_consumer : string → option exn;
  trades_consumer : string
}.

Inductive startup_call :=
| LoadAndSaveUserInputs (bot : string)
| ElementReloadConfig (element : string)
| RunDatabasesInitialize (bot exchange : string)
| StorePortfolio
| SaveLiveMetadata (bot : string) (metadata : LiveMetadata)
| ProducerNew (class exchange : string)
| ProducerRun (producer : string)
| ConsumerNew (class : string)
| NewModeConsumer (exchange consumer trading_mode_name
                   cryptocurrency symbol time_frame : string)
| NewTradesConsumer (exchange : string) (symbol : option string).

(** The instance with the attributes the start-up reads, and the calls
    the start-up makes. *)
Record startup_state := {
  mode_state : @state F;
  attributes : ModeAttributes;
  startup_calls : list startup_call
}.

Definition set_mode_state (s : @state F) (st : startup_state)
    : startup_state :=
  {| mode_state := s; attributes := attributes st;
     startup_calls := startup_calls st |}.

Definition add_startup_call (c : startup_call) (st : startup_state)
    : startup_state :=
  {| mode_state := mode_state st; attributes := attributes st;
     startup_calls := startup_calls st ++ [c] |}.

Definition set_trading_config (config : option (gmap string (@pyval F)))
    (m : @TradingMode F) : @TradingMode F :=
  {| name := name m; exchange_manager := exchange_manager m;
     trading_config := config; producers := producers m;
     consumers := consumers m; start_time := start_time m;
     are_metadata_saved := are_metadata_saved m |}.

Definition set_producers (created : list string) (m : @TradingMode F)
    : @TradingMode F :=
  {| name := name m; exchange_manager := exchange_manager m;
     trading_config := trading_config m; producers := created;
     consumers := consumers m; start_time := start_time m;
     are_metadata_saved := are_metadata_saved m |}.

Definition set_consumers (created : list string) (m : @TradingMode F)
    : @TradingMode F :=
  {| name := name m; exchange_manager := exchange_manager m;
     trading_config := trading_config m; producers := producers m;
     consumers := created; start_time := start_time m;
     are_metadata_saved := are_metadata_saved m |}.

(** A method of the instance, run during the start-up. *)
Definition lift_mode {A} (m : M (@state F) A) : M startup_state A :=
  λ st, let '(r, s') := m (mode_state st) in (r, set_mode_state s' st).

Definition update_self (f : @TradingMode F → @TradingMode F)
    : M startup_state unit :=
  lift_mode (modify (λ s, set_self (f (self s)) s)).

(** A call to a collaborator that answers nothing. *)
Definition call_out (c : startup_call) (fault : option exn)
    : M startup_state unit :=
  modify (add_startup_call c) ;;; lift_fault fault.

(** [[await f(x) for x in xs]] *)
Fixpoint list_comprehension {S A B} (f : A → M S B) (xs : list A)
    : M S (list B) :=
  match xs with
  | [] => ret []
  | x :: xs' =>
      y <- f x ;;
      ys <- list_comprehension f xs' ;;
      ret (y :: ys)
  end.

(** ** Configuration *)

(** to implement in subclasses if config is necessary *)
Definition set_default_config : M startup_state unit := ret tt.

(** [not self.trading_config] *)
Definition config_is_empty (config : option (gmap string (@pyval F)))
    : bool :=
  match config with
  | Some d => bool_decide (d = ∅)
  | None => true
  end.

Definition load_config (env : StartupCollaborators) : M startup_state unit :=
  lift_mode (exchange_manager_attr "tentacles_setup_config" id) ;;;
  update_self (set_trading_config (get_tentacle_config env)) ;;;
  st <- get ;;
  if config_is_empty (trading_config (self (mode_state st)))
  then set_default_config
  else ret tt.

Definition reload_config (env : StartupCollaborators) (bot_id : string)
    : M startup_state unit :=
  lift_mode (exchange_manager_attr "tentacles_setup_config" id) ;;;
  update_self (set_trading_config (get_tentacle_config env)) ;;;
  st <- get ;;
  (if config_is_empty (trading_config (self (mode_state st)))
   then set_default_config
   else ret tt) ;;;
  call_out (LoadAndSaveUserInputs bot_id) (load_and_save_user_inputs env) ;;;
  st <- get ;;
  for_each
    (λ element,
       if is_mode_element env element
       then call_out (ElementReloadConfig element)
              (element_reload_config env element)
       else ret tt)
    (consumers (self (mode_state st))
     ++ producers (self (mode_state st)))%list.

(** ** Producers and consumers *)

(** [x if x else channel_constants.CHANNEL_WILDCARD] *)
Definition or_wildcard (x : option string) : string :=
  match x with
  | Some value => if bool_decide (value = "") then CHANNEL_WILDCARD else value
  | None => CHANNEL_WILDCARD
  end.

Definition _create_mode_producer (env : StartupCollaborators)
    (mode_producer_class : string) : M startup_state string :=
  exchange <- lift_mode (exchange_manager_attr "id" em_id) ;;
  lift_fault (get_chan env MODE_CHANNEL exchange) ;;;
  call_out (ProducerNew mode_producer_class exchange)
    (producer_new env mode_producer_class) ;;;
  let mode_producer := mode_producer_class in
  call_out (ProducerRun mode_producer) (producer_run env mode_producer) ;;;
  ret mode_producer.

Definition create_producers (env : StartupCollaborators)
    : M startup_state (list string) :=
  st <- get ;;
  list_comprehension (_create_mode_producer env)
    (MODE_PRODUCER_CLASSES (attributes st)).

Definition _create_mode_consumer (env : StartupCollaborators)
    (mode_consumer_class : string) : M startup_state string :=
  call_out (ConsumerNew mode_consumer_class)
    (consumer_new env mode_consumer_class) ;;;
  let mode_consumer := mode_consumer_class in
  exchange <- lift_mode (exchange_manager_attr "id" em_id) ;;
  lift_fault (get_chan env MODE_CHANNEL exchange) ;;;
  st <- get ;;
  call_out
    (NewModeConsumer exchange mode_consumer (name (self (mode_state st)))
       (or_wildcard (cryptocurrency (attributes st)))
       (or_wildcard (symbol (attributes st)))
       (or_wildcard (time_frame (attributes st))))
    (new_consumer env mode_consumer) ;;;
  ret mode_consumer.

Definition _add_temp_consumers (env : StartupCollaborators)
    : M startup_state (list string) :=
  let consumers : list string := [] in
  backtesting <-
    lift_mode (exchange_manager_attr "is_backtesting" is_backtesting) ;;
  if negb backtesting then
    exchange <- lift_mode (exchange_manager_attr "id" em_id) ;;
    lift_fault (get_chan env TRADES_CHANNEL exchange) ;;;
    st <- get ;;
    call_out (NewTradesConsumer exchange (symbol (attributes st)))
      (new_consumer env (trades_consumer env)) ;;;
    ret (consumers ++ [trades_consumer env])%list
  else ret consumers.

Definition create_consumers (env : StartupCollaborators)
    : M startup_state (list string) :=
  st <- get ;;
  base_consumers <-
    list_comprehension (_create_mode_consumer env)
      (MODE_CONSUMER_CLASSES (attributes st)) ;;
  temp_consumers <- _add_temp_consumers env ;;
  ret (base_consumers ++ temp_consumers)%list.

(** ** Data stored at start-up *)

Definition save_portfolio (env : StartupCollaborators)
    : M startup_state unit :=
  call_out StorePortfolio (store_portfolio env).

Definition save_live_metadata (env : StartupCollaborators) (live : LiveData)
    : M startup_state unit :=
  bot <- lift_mode (exchange_manager_attr "bot_id" bot_id) ;;
  metadata <- lift_mode (get_live_metadata live) ;;
  call_out (SaveLiveMetadata bot metadata) (save_live_metadata_row env).

Definition save_exchange_init_data (env : StartupCollaborators)
    (live : LiveData) : M startup_state unit :=
  save_portfolio env ;;;
  save_live_metadata env live.

(** Triggers producers and consumers creation *)
Definition initialize (env : StartupCollaborators) (live : LiveData)
    : M startup_state unit :=
  bot <- lift_mode (exchange_manager_attr "bot_id" bot_id) ;;
  reload_config env bot ;;;
  bot <- lift_mode (exchange_manager_attr "bot_id" bot_id) ;;
  exchange <- lift_mode (exchange_manager_attr "exchange_name" exchange_name) ;;
  call_out (RunDatabasesInitialize bot exchange)
    (run_databases_initialize env) ;;;
  save_exchange_init_data env live ;;;
  created <- create_producers env ;;
  update_self (set_producers created) ;;;
  created <- create_consumers env ;;
  update_self (set_consumers created).

End Startup.

(** * ccxt client utilities

    The functions of [ccxt_client_util] on a ccxt client, as far as they
    read and write it. *)

(** Values of [octobot_trading.constants] and of the enumerations of
    [octobot_trading.enums] defined elsewhere. *)
Class CcxtConstants := {
  ENABLE_CCXT_VERBOSE : bool;
  ENABLE_CCXT_RATE_LIMIT : bool;
  DEFAULT_REQUEST_TIMEOUT : Z;
  ENABLE_EXCHANGE_HTTP_PROXY_FROM_ENV : bool;
  ACTIVE : string  (* ExchangeConstantsMarketStatusColumns.ACTIVE.value *)
}.

Section CcxtClientUtil.

Context {F : Type} `{PyFloat F} `{CcxtConstants}.

(** ** The client *)

Record Client := {
  symbols : option (list string);
    (* None until the markets are loaded *)
  markets : option (gmap string (gmap string (@pyval F)));
    (* None until the markets are loaded *)
  market : string → result (gmap string (@pyval F));
    (* client.market(pair) *)
  headers : gmap string (@pyval F);
  options : gmap string (@pyval F);
  checkRequiredCredentials : option exn;
    (* what client.checkRequiredCredentials() raises *)
  close : option exn;
    (* what client.close() raises *)
  logger_level : option string;
  aiohttp_trust_env : option bool
}.

Definition set_headers (d : gmap string (@pyval F)) (client : Client)
    : Client :=
  {| symbols := symbols client; markets := markets client;
     market := market client; headers := d; options := options client;
     checkRequiredCredentials := checkRequiredCredentials client;
     close := close client; logger_level := logger_level client;
     aiohttp_trust_env := aiohttp_trust_env client |}.

Definition set_options (d : gmap string (@pyval F)) (client : Client)
    : Client :=
  {| symbols := symbols client; markets := markets client;
     market := market client; headers := headers client; options := d;
     checkRequiredCredentials := checkRequiredCredentials client;
     close := close client; logger_level := logger_level client;
     aiohttp_trust_env := aiohttp_trust_env client |}.

Definition set_logger_level (level : string) (client : Client) : Client :=
  {| symbols := symbols client; markets := markets client;
     market := market client; headers := headers client;
     options := options client;
     checkRequiredCredentials := checkRequiredCredentials client;
     close := close client; logger_level := Some level;
     aiohttp_trust_env := aiohttp_trust_env client |}.

Definition _use_http_proxy_if_necessary (client : Client) : Client :=
  {| symbols := symbols client; markets := markets client;
     market := market client; headers := headers client;
     options := options client;
     checkRequiredCredentials := checkRequiredCredentials client;
     close := close client; logger_level := logger_level client;
     aiohttp_trust_env := Some ENABLE_EXCHANGE_HTTP_PROXY_FROM_ENV |}.

(** The markets and symbols of the client are emptied once it is closed;
    so are caches of the client that this module does not read. *)
Definition close_client (client : Client) : result Client :=
  match close client with
  | Some e => Raise e
  | None =>
      Ok {| symbols := Some []; markets := Some ∅;
            market := market client; headers := headers client;
            options := options client;
            checkRequiredCredentials := checkRequiredCredentials client;
            close := close client; logger_level := logger_level client;
            aiohttp_trust_env := aiohttp_trust_env client |}
  end.

(** ** The configuration a client is built from *)

Definition set_if_not_none (key : string) (value : option string)
    (config : gmap string (@pyval F)) : gmap string (@pyval F) :=
  match value with
  | Some v => <[key := VStr v]> config
  | None => config
  end.

Definition _get_client_config (options headers : @pyval F)
    (additional_config : option (gmap string (@pyval F)))
    (api_key secret password : option string) : gmap string (@pyval F) :=
  let config : gmap string (@pyval F) :=
    list_to_map
      [ ("verbose", VBool ENABLE_CCXT_VERBOSE);
        ("enableRateLimit", VBool ENABLE_CCXT_RATE_LIMIT);
        ("timeout", VInt DEFAULT_REQUEST_TIMEOUT);
        ("options", options);
        ("headers", headers) ] in
  let config := set_if_not_none "apiKey" api_key config in
  let config := set_if_not_none "secret" secret config in
  let config := set_if_not_none "password" password config in
  (* config.update(additional_config or {}) *)
  default ∅ additional_config ∪ config.

(** ** Creating a client *)

(** The exchange manager, as read by [create_client]. *)
Record ExchangeAccess := {
  manager : @ExchangeManager F;
  exchange_only : bool;
  ignore_config : bool;
  check_config : bool;            (* check_config(exchange_name) *)
  get_exchange_credentials :
    result (option string * option string * option string);
  is_simulated : bool;
  check_credentials : bool;
  is_margin : bool
}.

Inductive client_log :=
| InfoCreating (exchange : string)
| WarningNoApiKey (exchange : string)
| ErrorMissingLogin.

(** [key and secret], as a truth value *)
Definition is_set (value : option string) : bool :=
  match value with
  | Some v => negb (bool_decide (v = ""))
  | None => false
  end.

Definition get_unauthenticated_exchange
    (exchange_class : gmap string (@pyval F) → result Client)
    (options headers : @pyval F)
    (additional_config : option (gmap string (@pyval F)))
    : result Client :=
  match exchange_class
          (_get_client_config options headers additional_config
             None None None) with
  | Ok client => Ok (_use_http_proxy_if_necessary client)
  | Raise e => Raise e
  end.

Definition create_client
    (exchange_class : gmap string (@pyval F) → result Client)
    (exchange_manager : ExchangeAccess)
    (options headers : @pyval F)
    (additional_config : option (gmap string (@pyval F)))
    (should_authenticate : bool)
    (unauthenticated_exchange_fallback : option (exn → result Client))
    (keys_adapter :
       option (option string → option string → option string →
               result (option string * option string * option string)))
    : M (list client_log) (Client * bool) :=
  let exchange := exchange_name (manager exchange_manager) in
  let log entry : M (list client_log) unit :=
    modify (λ entries, entries ++ [entry])%list in
  let finish (client : Client) (is_authenticated : bool)
      : M (list client_log) (Client * bool) :=
    ret (_use_http_proxy_if_necessary (set_logger_level "INFO" client),
         is_authenticated) in
  (if negb (exchange_only exchange_manager)
   then log (InfoCreating exchange) else ret tt) ;;;
  if ignore_config exchange_manager || check_config exchange_manager then
    created <-
      attempt
        (credentials <-
           lift_result (get_exchange_credentials exchange_manager) ;;
         credentials <-
           match keys_adapter with
           | Some adapt =>
               lift_result
                 (adapt credentials.1.1 credentials.1.2 credentials.2)
           | None => ret credentials
           end ;;
         let '(key, secret, password) := credentials in
         (if negb (is_set key && is_set secret)
             && negb (is_simulated exchange_manager)
             && negb (ignore_config exchange_manager)
          then log (WarningNoApiKey exchange) else ret tt) ;;;
         if should_authenticate
            && negb (is_backtesting (manager exchange_manager))
         then
           client <-
             lift_result
               (exchange_class
                  (_get_client_config options headers additional_config
                     key secret password)) ;;
           (if check_credentials exchange_manager
            then lift_fault (checkRequiredCredentials client)
            else ret tt) ;;;
           ret (client, true)
         else
           client <-
             lift_result
               (exchange_class
                  (_get_client_config options headers additional_config
                     None None None)) ;;
           ret (client, false)) ;;
    match created with
    | Ok (client, is_authenticated) => finish client is_authenticated
    | Raise e =>
        if is_Exception e then
          match unauthenticated_exchange_fallback with
          | None =>
              client <-
                lift_result
                  (get_unauthenticated_exchange exchange_class options
                     headers additional_config) ;;
              ret (client, false)
          | Some fallback =>
              client <- lift_result (fallback e) ;;
              ret (client, false)
          end
        else raise e
    end
  else
    client <-
      lift_result
        (get_unauthenticated_exchange exchange_class options headers
           additional_config) ;;
    log ErrorMissingLogin ;;;
    finish client false.

(** :return: ccxt client login option dict *)
Definition get_ccxt_client_login_options (exchange_manager : ExchangeAccess)
    : list (string * string) :=
  if is_future (manager exchange_manager) then [("defaultType", "future")]
  else if is_margin exchange_manager then [("defaultType", "margin")]
  else [("defaultType", "spot")].

(** ** Symbols and pairs *)

(** [client.markets.get(symbol, {}).get(ACTIVE, True)] *)
Definition market_is_active (client : Client) (symbol : string)
    : result bool :=
  match markets client with
  | None => Raise (AttributeError "get")
  | Some markets =>
      Ok (truthy (default (VBool true)
                    (default ∅ (markets !! symbol) !! ACTIVE)))
  end.

(** [symbol for symbol in symbols if <active>] *)
Fixpoint active_symbols (client : Client) (symbols : list string)
    : result (list string) :=
  match symbols with
  | [] => Ok []
  | symbol :: rest =>
      match market_is_active client symbol with
      | Raise e => Raise e
      | Ok active =>
          match active_symbols client rest with
          | Raise e => Raise e
          | Ok kept => Ok (if active then symbol :: kept else kept)
          end
      end
  end.

Definition is_AttributeError_or_TypeError (e : exn) : bool :=
  match e with
  | AttributeError _ | TypeError => true
  | _ => false
  end.

Definition get_symbols (client : Client) (active_only : bool)
    : result (gset string) :=
  let attempted : result (gset string) :=
    match symbols client with
    | None => Raise TypeError
    | Some symbols =>
        if active_only then
          match active_symbols client symbols with
          | Ok kept => Ok (list_to_set kept)
          | Raise e => Raise e
          end
        else Ok (list_to_set symbols)
    end in
  match attempted with
  | Raise e =>
      (* ccxt exchange load_markets failed *)
      if is_AttributeError_or_TypeError e then Ok ∅ else Raise e
  | Ok found => Ok found
  end.

(** What looking a pair up raises: [ValueError], or what the client
    raised. *)
Inductive pair_error :=
| ValueError (msg : string)
| Uncaught (e : exn).

Definition get_exchange_pair (client : Client) (pair : string)
    : pair_error + @pyval F :=
  match symbols client with
  | None => inl (Uncaught TypeError)
  | Some symbols =>
      let not_supported := inl (ValueError (pair ++ " is not supported")) in
      if bool_decide (pair ∈ symbols) then
        match market client pair with
        | Ok found =>
            match found !! "id" with
            | Some id => inr id
            | None => not_supported
            end
        | Raise e => if is_KeyError e then not_supported else inl (Uncaught e)
        end
      else not_supported
  end.

Definition get_pair_cryptocurrency (client : Client) (pair : string)
    : pair_error + @pyval F :=
  match symbols client with
  | None => inl (Uncaught TypeError)
  | Some symbols =>
      let not_supported := inl (ValueError (pair ++ " is not supported")) in
      if bool_decide (pair ∈ symbols) then
        match market client pair with
        | Ok found =>
            match found !! "base" with
            | Some base => inr base
            | None => not_supported
            end
        | Raise e => if is_KeyError e then not_supported else inl (Uncaught e)
        end
      else not_supported
  end.

(** ** Headers and options *)

(** Add new headers to ccxt client *)
Definition add_headers (client : Client)
    (headers_dict : gmap string (@pyval F)) : Client :=
  map_fold
    (λ header_key header_value client,
       set_headers (<[header_key := header_value]> (headers client)) client)
    client headers_dict.

(** Add new options to ccxt client *)
Definition add_options (client : Client)
    (options_dict : gmap string (@pyval F)) : Client :=
  map_fold
    (λ option_key option_value client,
       set_options (<[option_key := option_value]> (options client)) client)
    client options_dict.

End CcxtClientUtil.

(** ** More of the concrete process

    Collaborators that fail, a futures account, the start-up of the mode
    and a ccxt client. *)

(** The storage of the run fails with [e] when the run database is
    flushed. *)
Definition failing_storage_env (e : exn) : @Collaborators Q :=
  let env := example_env None None None in
  {| get_order_size_portfolio_percent := get_order_size_portfolio_percent env;
     portfolio_to_float := portfolio_to_float env;
     trader_create_order := trader_create_order env;
     trader_cancel_order := trader_cancel_order env;
     trader_edit_order := trader_edit_order env;
     bundle_open := bundle_open env;
     bundle_send := bundle_send env;
     get_run_databases_identifier := get_run_databases_identifier env;
     run_db_flush := Some e;
     get_user_inputs := get_user_inputs env;
     store_transactions := store_transactions env;
     store_trades := store_trades env;
     database_open := database_open env;
     database_log := database_log env;
     database_close := database_close env;
     producer_stop := producer_stop env;
     consumer_stop := consumer_stop env |}.

(** Releasing the writer of the metadata fails with [e]; everything
    before it succeeds. *)
Definition failing_release_env (e : exn) : @Collaborators Q :=
  let env := example_env None None None in
  {| get_order_size_portfolio_percent := get_order_size_portfolio_percent env;
     portfolio_to_float := portfolio_to_float env;
     trader_create_order := trader_create_order env;
     trader_cancel_order := trader_cancel_order env;
     trader_edit_order := trader_edit_order env;
     bundle_open := bundle_open env;
     bundle_send := bundle_send env;
     get_run_databases_identifier := get_run_databases_identifier env;
     run_db_flush := run_db_flush env;
     get_user_inputs := get_user_inputs env;
     store_transactions := store_transactions env;
     store_trades := store_trades env;
     database_open := database_open env;
     database_log := database_log env;
     database_close := Some e;
     producer_stop := producer_stop env;
     consumer_stop := consumer_stop env |}.

(** The trader raises [e] whatever it is asked. *)
Definition failing_trader_env (e : exn) : @Collaborators Q :=
  let env := example_env None None None in
  {| get_order_size_portfolio_percent := get_order_size_portfolio_percent env;
     portfolio_to_float := portfolio_to_float env;
     trader_create_order o loaded params callback d := (Raise e, d);
     trader_cancel_order o ignored d := (Raise e, d);
     trader_edit_order o quantity price stop_price current_price params d :=
       (Raise e, d);
     bundle_open := bundle_open env;
     bundle_send := bundle_send env;
     get_run_databases_identifier := get_run_databases_identifier env;
     run_db_flush := run_db_flush env;
     get_user_inputs := get_user_inputs env;
     store_transactions := store_transactions env;
     store_trades := store_trades env;
     database_open := database_open env;
     database_log := database_log env;
     database_close := database_close env;
     producer_stop := producer_stop env;
     consumer_stop := consumer_stop env |}.

(** A futures account: two positions in BTC, held besides USDT. *)
Definition example_positions : list Position :=
  [ {| position_currency := "BTC"; position_quantity := 2 |};
    {| position_currency := "BTC"; position_quantity := 3 |} ]%Q.

Definition example_futures_portfolio : Portfolio Q :=
  [ ("USDT", [("available", 750); ("total", 1000)]);
    ("BTC", [("available", 0); ("total", 0)]) ]%Q.

Definition example_futures_data : @ExchangePersonalData Q := {|
  origin_portfolio := example_futures_portfolio;
  portfolio := example_futures_portfolio;
  positions := example_positions;
  trade_history := trade_history example_personal_data;
  profitability := profitability example_personal_data;
  profitability_percent := profitability_percent example_personal_data;
  win_rate := win_rate example_personal_data;
  draw_down := draw_down example_personal_data;
  r_sq_end_balance := r_sq_end_balance example_personal_data;
  r_sq_max_balance := r_sq_max_balance example_personal_data
|}.

(** A backtesting futures exchange with contracts of leverage 5, which
    trades [pairs]. *)
Definition example_futures_manager (pairs : list string)
    : @ExchangeManager Q := {|
  em_id := "exchange-2";
  bot_id := "Y";
  exchange_name := "binance";
  is_backtesting := true;
  is_future := true;
  exchange_personal_data := example_futures_data;
  trading_pairs := pairs;
  required_time_frames := ["1h"];
  get_pair_future_contract := Some (λ _, 5%Q);
  backtesting := backtesting (example_exchange_manager true)
|}.

Definition example_futures_state (pairs : list string) : @state Q :=
  example_state
    {| name := "DailyTradingMode";
       exchange_manager := Some (example_futures_manager pairs);
       trading_config := Some emitting_config;
       producers := ["producer"];
       consumers := ["consumer"];
       start_time := 1700000000%Q;
       are_metadata_saved := false |}.

#[global] Instance example_strategy_constants : StrategyConstants := {
  TRADING_MODE_REQUIRED_STRATEGIES := "required_strategies";
  TRADING_MODE_REQUIRED_STRATEGIES_MIN_COUNT := "required_strategies_min_count";
  TENTACLE_DEFAULT_CONFIG := "default_config";
  CONFIG_CANDLES_HISTORY_SIZE_KEY := "candles_history_size";
  DEFAULT_IGNORED_VALUE := -1
}.

#[global] Instance example_startup_constants : StartupConstants := {
  MODE_CHANNEL := "Mode";
  TRADES_CHANNEL := "Trades";
  CHANNEL_WILDCARD := "*";
  CONFIG_EXCHANGES := "exchanges";
  CONFIG_ENABLED_OPTION := "enabled"
}.

(** A mode with one producer class and two consumer classes, bound to a
    symbol; nothing fails at start-up but the constructors of the
    consumer classes for which [consumer_fault] answers an exception. *)
Definition example_attributes : ModeAttributes := {|
  MODE_PRODUCER_CLASSES := ["DailyTradingModeProducer"];
  MODE_CONSUMER_CLASSES :=
    ["DailyTradingModeConsumer"; "DailyTradingModeExtraConsumer"];
  cryptocurrency := None;
  symbol := Some "BTC/USDT";
  time_frame := Some ""
|}.

Definition example_startup_env (consumer_fault : string → option exn)
    : @StartupCollaborators Q := {|
  get_tentacle_config := Some emitting_config;
  load_and_save_user_inputs := None;
  is_mode_element element :=
    negb (bool_decide (element = "trades consumer"));
  element_reload_config element := None;
  run_databases_initialize := None;
  store_portfolio := None;
  save_live_metadata_row := None;
  get_chan channel exchange := None;
  producer_new class := None;
  producer_run producer := None;
  consumer_new := consumer_fault;
  new_consumer consumer := None;
  trades_consumer := "trades consumer"
|}.

(** The mode before [initialize()]: no configuration, no producer and
    no consumer yet. *)
Definition example_new_mode (backtesting : bool) : @TradingMode Q := {|
  name := "DailyTradingMode";
  exchange_manager := Some (example_exchange_manager backtesting);
  trading_config := None;
  producers := [];
  consumers := [];
  start_time := 1700000000%Q;
  are_metadata_saved := false
|}.

Definition example_startup_state (m : @TradingMode Q) : @startup_state Q := {|
  mode_state := example_state m;
  attributes := example_attributes;
  startup_calls := []
|}.

Definition example_live_data : @LiveData Q := {|
  config_exchanges :=
    Some [ ("binance", {[ "enabled" := VBool true ]});
           ("kraken", {[ "enabled" := VBool false ]});
           ("okx", ∅) ];
  reference_market := "USDT";
  exchange_current_time := 1700000000%Q;
  pair_contracts :=
    Some [ ("BTC/USDT",
            {| contract_type := "linear_perpetual";
               position_mode := "one_way"; margin_type := "isolated" |});
           ("ETH/USDT",
            {| contract_type := "linear_perpetual";
               position_mode := "one_way"; margin_type := "cross" |}) ];
  traded_symbol_pairs := ["BTC/USDT"]
|}.

#[global] Instance example_ccxt_constants : CcxtConstants := {
  ENABLE_CCXT_VERBOSE := false;
  ENABLE_CCXT_RATE_LIMIT := true;
  DEFAULT_REQUEST_TIMEOUT := 20000;
  ENABLE_EXCHANGE_HTTP_PROXY_FROM_ENV := false;
  ACTIVE := "active"
}.

(** A client before its markets are loaded, and the exchange class that
    builds it; the class refuses a configuration with an empty API
    key. *)
Definition example_client : @Client Q := {|
  symbols := None;
  markets := None;
  market pair := Raise (OtherException "markets not loaded");
  headers := ∅;
  options := ∅;
  checkRequiredCredentials := None;
  close := None;
  logger_level := None;
  aiohttp_trust_env := None
|}.

Definition example_exchange_class (config : gmap string (@pyval Q))
    : result (@Client Q) :=
  match config !! "apiKey" with
  | Some (VStr "") => Raise (OtherException "AuthenticationError")
  | _ => Ok example_client
  end.

(** The client once its markets are loaded: one active market, one that
    is not, one whose activity is not known and one listed symbol with no
    market. *)
Definition example_loaded_client : @Client Q := {|
  symbols := Some ["BTC/USDT"; "ETH/USDT"; "XRP/USDT"; "ADA/USDT"];
  markets :=
    Some {[ "BTC/USDT" := {[ "id" := VStr "BTCUSDT"; "base" := VStr "BTC";
                             "active" := VBool true ]};
            "ETH/USDT" := {[ "id" := VStr "ETHUSDT"; "base" := VStr "ETH";
                             "active" := VBool false ]};
            "XRP/USDT" := {[ "id" := VStr "XRPUSDT"; "base" := VStr "XRP";
                             "active" := VNone ]} ]};
  market pair :=
    if bool_decide (pair = "BTC/USDT")
    then Ok {[ "id" := VStr "BTCUSDT"; "base" := VStr "BTC";
               "active" := VBool true ]}
    else Raise (KeyError pair);
  headers := ∅;
  options := ∅;
  checkRequiredCredentials := None;
  close := None;
  logger_level := None;
  aiohttp_trust_env := None
|}.

(** The exchange manager of a live exchange whose credentials are
    [credentials]. *)
Definition example_access (backtesting : bool)
    (credentials : result (option string * option string * option string))
    : @ExchangeAccess Q := {|
  manager := example_exchange_manager backtesting;
  exchange_only := false;
  ignore_config := false;
  check_config := true;
  get_exchange_credentials := credentials;
  is_simulated := false;
  check_credentials := true;
  is_margin := false
|}.

(** * Properties *)

Section Properties.

Context {F : Type} `{PyFloat F} `{Constants}.

Implicit Types (s : @state F) (env : @Collaborators F)
  (em : @ExchangeManager F) (m : @TradingMode F) (v : @pyval F).

(** ** The signal configuration is read, never written *)

Lemma is_trading_signal_emitter_pure s :
  ∃ r, is_trading_signal_emitter s = (r, s).
Proof.
  unfold is_trading_signal_emitter, try_except, trading_config_item, bind, get.
  destruct (trading_config (self s)) as [d|]; simpl; eauto.
  destruct (d !! CONFIG_EMIT_TRADING_SIGNALS); simpl; eauto.
Qed.

Lemma should_emit_trading_signal_pure s :
  ∃ r, should_emit_trading_signal s = (r, s).
Proof.
  unfold should_emit_trading_signal, exchange_manager_attr, bind, get.
  destruct (exchange_manager (self s)) as [em|]; simpl; eauto.
  destruct (is_backtesting em); simpl; eauto.
  apply is_trading_signal_emitter_pure.
Qed.

(** The answer only depends on the configuration and on whether the
    exchange is a backtesting one. *)
Lemma should_emit_trading_signal_frame s s' :
  trading_config (self s') = trading_config (self s) →
  is_backtesting <$> exchange_manager (self s')
    = is_backtesting <$> exchange_manager (self s) →
  (should_emit_trading_signal s').1 = (should_emit_trading_signal s).1.
Proof.
  intros Hc He.
  unfold should_emit_trading_signal, exchange_manager_attr, bind, get.
  destruct (exchange_manager (self s)) as [em|],
    (exchange_manager (self s')) as [em'|]; simpl in *; try congruence.
  injection He as ->.
  destruct (is_backtesting em); simpl; [done|].
  unfold is_trading_signal_emitter, try_except, trading_config_item, bind, get.
  rewrite Hc. destruct (trading_config (self s)) as [d|]; simpl; [|done].
  destruct (d !! CONFIG_EMIT_TRADING_SIGNALS); done.
Qed.

Lemma should_emit_trading_signal_transfer s s' r :
  trading_config (self s') = trading_config (self s) →
  is_backtesting <$> exchange_manager (self s')
    = is_backtesting <$> exchange_manager (self s) →
  should_emit_trading_signal s = (r, s) →
  should_emit_trading_signal s' = (r, s').
Proof.
  intros Hc He Hr.
  destruct (should_emit_trading_signal_pure s') as [r' Hr'].
  rewrite Hr'. f_equal.
  change r' with (r', s').1. change r with (r, s).1.
  rewrite <- Hr', <- Hr.
  by apply should_emit_trading_signal_frame.
Qed.

Lemma call_trader_run {A} (c : call)
    (op : ExchangePersonalData → result A * ExchangePersonalData)
    s em r d :
  exchange_manager (self s) = Some em →
  op (exchange_personal_data em) = (r, d) →
  call_trader c op s = (r, set_personal_data d em (add_call c s)).
Proof.
  intros Hem Hop.
  unfold call_trader, exchange_manager_attr, bind, get. rewrite Hem. simpl.
  rewrite Hop. simpl. by destruct r.
Qed.

(** ** Orders *)

(** C3. [create_order] hands the trader's answer back unchanged.  When the
    trader answers [None], no record is handed to the signal bundle
    builder.  When it answers an order and the mode emits signals,
    exactly one created-order record is appended for the symbol of the
    order; its target amount is the percent of portfolio computed on the
    exchange manager as it was before the trader was called, and that
    computation is called before the trader.  When the mode does not emit,
    nothing is appended. *)
Theorem create_order_signal env s order loaded params pre_init_callback
    em v r d percent :
  exchange_manager (self s) = Some em →
  should_emit_trading_signal s = (Ok v, s) →
  (truthy v = true →
   get_order_size_portfolio_percent env em (origin_quantity order)
     (order_side order) (order_symbol order) = Ok percent) →
  trader_create_order env order loaded params pre_init_callback
    (exchange_personal_data em) = (Ok r, d) →
  ∃ s',
    create_order env order loaded params pre_init_callback s = (Ok r, s')
    ∧ exchange_manager (self s') = Some (set_exchange_personal_data d em)
    ∧ calls s' = (calls s
        ++ (if truthy v then [PortfolioPercent order] else [])
        ++ [TraderCreateOrder order])%list
    ∧ signals s' = (signals s
        ++ match r with
           | None => []
           | Some created =>
               if truthy v then
                 [(order_symbol order,
                   CreatedOrder created
                     (Some (set_exchange_personal_data d em))
                     (float_repr (float_of_decimal percent) ++ PERCENT)%string)]
               else []
           end)%list.
Proof.
  intros Hem Hemit Hpercent Htrader.
  unfold create_order. cbv [bind]. rewrite Hemit.
  destruct (truthy v) eqn:Hv.
  - unfold exchange_manager_attr at 1. cbv [bind get ret modify]. rewrite Hem.
    simpl. rewrite (Hpercent eq_refl). simpl.
    erewrite call_trader_run by (simpl; eauto).
    destruct r as [created|]; simpl.
    + erewrite (should_emit_trading_signal_transfer s) by (simpl; by rewrite ?Hem).
      cbn beta iota. rewrite Hv. eexists. split; [reflexivity|]. simpl.
      by rewrite <- !app_assoc.
    + eexists. split; [reflexivity|]. simpl.
      by rewrite <- !app_assoc, app_nil_r.
  - cbv [ret]. erewrite call_trader_run by eauto.
    destruct r as [created|]; simpl.
    + erewrite (should_emit_trading_signal_transfer s) by (simpl; by rewrite ?Hem).
      cbn beta iota. rewrite Hv. eexists. split; [reflexivity|]. simpl.
      by rewrite app_nil_r.
    + eexists. split; [reflexivity|]. simpl. by rewrite app_nil_r.
Qed.


(** ** Unconfigured modes *)

Lemma is_trading_signal_emitter_missing_key s d :
  trading_config (self s) = Some d →
  d !! CONFIG_EMIT_TRADING_SIGNALS = None →
  is_trading_signal_emitter s = (Ok (VBool false), s).
Proof.
  intros Hc Hd.
  unfold is_trading_signal_emitter, try_except, trading_config_item, bind, get.
  by rewrite Hc, Hd.
Qed.

Lemma should_emit_missing_key s d em :
  trading_config (self s) = Some d →
  d !! CONFIG_EMIT_TRADING_SIGNALS = None →
  exchange_manager (self s) = Some em →
  should_emit_trading_signal s = (Ok (VBool false), s).
Proof.
  intros Hc Hd Hem.
  unfold should_emit_trading_signal, exchange_manager_attr, bind, get.
  rewrite Hem. cbn. destruct (is_backtesting em); cbn; [done|].
  eauto using is_trading_signal_emitter_missing_key.
Qed.

Lemma call_trader_signals {A} (c : call)
    (op : ExchangePersonalData → result A * ExchangePersonalData) s :
  signals (call_trader c op s).2 = signals s.
Proof.
  unfold call_trader, exchange_manager_attr, bind, get.
  destruct (exchange_manager (self s)) as [em|]; cbn; [|done].
  destruct (op (exchange_personal_data em)) as [[a|e] d]; done.
Qed.

(** C10. When the key enabling trading signals is absent from the loaded
    configuration, [is_trading_signal_emitter] answers [False] without
    raising, [should_emit_trading_signal] answers [False] on a running
    instance, and none of [create_order], [cancel_order] and [edit_order]
    hands a record to a signal bundle builder, whatever the trader does. *)
Theorem missing_signal_key_disables_emission env s d :
  trading_config (self s) = Some d →
  d !! CONFIG_EMIT_TRADING_SIGNALS = None →
  is_trading_signal_emitter s = (Ok (VBool false), s)
  ∧ (∀ em, exchange_manager (self s) = Some em →
       should_emit_trading_signal s = (Ok (VBool false), s))
  ∧ (∀ order loaded params pre_init_callback,
       signals (create_order env order loaded params pre_init_callback s).2
         = signals s)
  ∧ (∀ order ignored_order,
       signals (cancel_order env order ignored_order s).2 = signals s)
  ∧ (∀ order edited_quantity edited_price edited_stop_price
       edited_current_price params,
       signals (edit_order env order edited_quantity edited_price
                  edited_stop_price edited_current_price params s).2
         = signals s).
Proof.
  intros Hc Hd.
  split; [eauto using is_trading_signal_emitter_missing_key|].
  split; [eauto using should_emit_missing_key|].
  destruct (exchange_manager (self s)) as [em|] eqn:Hem.
  - pose proof (should_emit_missing_key s d em Hc Hd Hem) as Hemit.
    split; [|split].
    + intros order loaded params cb.
      unfold create_order. cbv [bind]. rewrite Hemit. cbn.
      destruct (trader_create_order env order loaded params cb
                  (exchange_personal_data em)) as [r d'] eqn:Htrader.
      erewrite call_trader_run by eauto.
      destruct r as [[created|]|e]; cbn beta iota; [|done..].
      erewrite (should_emit_trading_signal_transfer s)
        by (simpl; by rewrite ?Hem).
      cbn. by destruct_and?; rewrite ?andb_false_l.
    + intros order ignored.
      unfold cancel_order. cbv [bind].
      destruct (trader_cancel_order env order ignored
                  (exchange_personal_data em)) as [r d'] eqn:Htrader.
      erewrite call_trader_run by eauto.
      destruct r as [cancelled|e]; cbn beta iota; [|done].
      erewrite (should_emit_trading_signal_transfer s)
        by (simpl; by rewrite ?Hem).
      cbn. by destruct_and?; rewrite ?andb_false_l.
    + intros order q p sp cp params.
      unfold edit_order. cbv [bind].
      destruct (trader_edit_order env order q p sp cp params
                  (exchange_personal_data em)) as [r d'] eqn:Htrader.
      erewrite call_trader_run by eauto.
      destruct r as [changed|e]; cbn beta iota; [|done].
      erewrite (should_emit_trading_signal_transfer s)
        by (simpl; by rewrite ?Hem).
      cbn. by destruct_and?; rewrite ?andb_false_l.
  - split; [|split]; intros.
    + unfold create_order, should_emit_trading_signal, exchange_manager_attr.
      cbv [bind get]. by rewrite Hem.
    + unfold cancel_order, call_trader, exchange_manager_attr.
      cbv [bind get]. by rewrite Hem.
    + unfold edit_order, call_trader, exchange_manager_attr.
      cbv [bind get]. by rewrite Hem.
Qed.

(** ** The remote signal scope *)

Lemma get_trading_signal_identifier_pure s :
  ∃ r, get_trading_signal_identifier s = (r, s).
Proof.
  unfold get_trading_signal_identifier, try_except, trading_config_item.
  cbv [bind get].
  destruct (trading_config (self s)) as [d|]; cbn; eauto.
  destruct (d !! CONFIG_TRADING_SIGNALS_STRATEGY); cbn; eauto.
Qed.

(** The emission decision and the identifier of a mode whose
    configuration is loaded. *)
Lemma should_emit_trading_signal_loaded s em d :
  exchange_manager (self s) = Some em →
  trading_config (self s) = Some d →
  should_emit_trading_signal s
  = (Ok (if is_backtesting em then VBool false
         else default (VBool false) (d !! CONFIG_EMIT_TRADING_SIGNALS)), s).
Proof.
  intros Hem Hd.
  unfold should_emit_trading_signal, exchange_manager_attr,
    is_trading_signal_emitter, try_except, trading_config_item.
  cbv [bind get ret raise]. rewrite Hem. cbn beta iota.
  destruct (is_backtesting em); cbn [negb]; [done|].
  rewrite Hd. by destruct (d !! CONFIG_EMIT_TRADING_SIGNALS).
Qed.

Lemma get_trading_signal_identifier_loaded s d :
  trading_config (self s) = Some d →
  get_trading_signal_identifier s
  = (Ok match d !! CONFIG_TRADING_SIGNALS_STRATEGY with
        | Some configured => py_or configured (VStr (name (self s)))
        | None => VStr (name (self s))
        end, s).
Proof.
  intros Hd.
  unfold get_trading_signal_identifier, try_except, trading_config_item.
  cbv [bind get ret raise]. rewrite Hd.
  by destruct (d !! CONFIG_TRADING_SIGNALS_STRATEGY).
Qed.

(** What the scope yields on a mode that emits signals, once the
    transport has opened a bundle, and what leaving the scope normally
    does. *)
Lemma remote_signal_publisher_active env symbol s v identifier :
  should_emit_trading_signal s = (Ok v, s) →
  truthy v = true →
  get_trading_signal_identifier s = (Ok identifier, s) →
  bundle_open env symbol = None →
  let signal_builder :=
    {| builder_symbol := symbol; builder_identifier := identifier;
       builder_timeout := TRADING_SIGNAL_TIMEOUT;
       builder_args := [name (self s)] |} in
  ∃ resume,
    remote_signal_publisher env symbol s
    = (Ok (Yielded (Some signal_builder) resume),
       add_call (BundleOpen signal_builder) s)
    ∧ (∀ s1, resume None s1
         = match bundle_send env symbol with
           | None => (Ok Returned, add_call (BundleSend symbol) s1)
           | Some e =>
               if is_authentication_failure e then
                 (Ok Returned, add_logged e (add_call (BundleSend symbol) s1))
               else (Raise e, add_call (BundleSend symbol) s1)
           end).
Proof.
  intros Hemit Hv Hid Hopen signal_builder.
  unfold remote_signal_publisher. cbv [bind]. rewrite Hemit. cbn beta iota.
  rewrite Hv. unfold except_authentication_failure at 1, try_except at 1.
  cbv [bind]. rewrite Hid. cbn beta iota. unfold get at 1. cbn beta iota.
  unfold aenter, remote_signal_bundle_builder, invoke.
  cbv [bind modify get]. rewrite Hopen. cbn -[bundle_records].
  eexists. split; [reflexivity|].
  intros s1. unfold except_authentication_failure, try_except, aexit.
  cbv [bind]. cbn. destruct (bundle_send env symbol) as [e|]; cbn; [|done].
  by destruct (is_authentication_failure e).
Qed.

(** C4. Take a mode with an exchange manager and a loaded
    configuration.  It emits signals when its exchange is not a
    backtesting one and the value configured under the emission key is
    true; a missing key counts as false.  On a mode that does not emit,
    the scope yields the placeholder [None] without touching anything,
    and an [async with] block run in it behaves as the block alone.  On a
    mode that emits, once the transport has opened the bundle, the scope
    yields the signal bundle builder of the symbol, with the identifier
    of the mode and the timeout of the class, and the same block runs to
    the same answer, the bundle being sent when it is left.  The scope
    never yields a builder on a mode that does not emit, nor the
    placeholder on a mode that emits. *)
Theorem remote_signal_publisher_yield env symbol s em d :
  exchange_manager (self s) = Some em →
  trading_config (self s) = Some d →
  let emits :=
    negb (is_backtesting em)
    && truthy (default (VBool false) (d !! CONFIG_EMIT_TRADING_SIGNALS)) in
  let identifier :=
    match d !! CONFIG_TRADING_SIGNALS_STRATEGY with
    | Some configured => py_or configured (VStr (name (self s)))
    | None => VStr (name (self s))
    end in
  let signal_builder :=
    {| builder_symbol := symbol; builder_identifier := identifier;
       builder_timeout := 10; builder_args := [name (self s)] |} in
  (emits = false →
   (∃ resume,
      remote_signal_publisher env symbol s = (Ok (Yielded None resume), s))
   ∧ ∀ A (body : option SignalBundleBuilder → M state A),
       async_with (remote_signal_publisher env symbol) body s
       = match body None s with
         | (Ok a, s') => (Ok (Some a), s')
         | (Raise e, s') => (Raise e, s')
         end)
  ∧ (emits = true →
     bundle_open env symbol = None →
     (∃ resume,
        remote_signal_publisher env symbol s
        = (Ok (Yielded (Some signal_builder) resume),
           add_call (BundleOpen signal_builder) s))
     ∧ ∀ A (body : option SignalBundleBuilder → M state A) a s',
         body (Some signal_builder) (add_call (BundleOpen signal_builder) s)
           = (Ok a, s') →
         bundle_send env symbol = None →
         async_with (remote_signal_publisher env symbol) body s
         = (Ok (Some a), add_call (BundleSend symbol) s'))
  ∧ (∀ y resume s',
       remote_signal_publisher env symbol s = (Ok (Yielded y resume), s') →
       is_Some y ↔ emits = true).
Proof.
  intros Hem Hd emits identifier signal_builder.
  pose proof (should_emit_trading_signal_loaded s em d Hem Hd) as Hemit.
  pose proof (get_trading_signal_identifier_loaded s d Hd) as Hid.
  fold identifier in Hid.
  set (v := if is_backtesting em then VBool false
            else default (VBool false) (d !! CONFIG_EMIT_TRADING_SIGNALS))
    in Hemit.
  assert (Hemits : truthy v = emits)
    by (subst v emits; by destruct (is_backtesting em)).
  clearbody v emits. subst emits.
  split; [|split].
  - intros Hv.
    assert (Hrun : remote_signal_publisher env symbol s
      = (Ok (Yielded None
               (λ thrown, match thrown with
                          | Some e => raise e
                          | None => ret Returned
                          end)), s)).
    { unfold remote_signal_publisher. cbv [bind]. rewrite Hemit.
      cbn beta iota. by rewrite Hv. }
    split; [eauto|].
    intros A body. unfold async_with, aenter. cbv [bind].
    rewrite Hrun. cbv [ret attempt]. cbn beta iota.
    destruct (body None s) as [[a|e] s']; reflexivity.
  - intros Hv Hopen.
    destruct (remote_signal_publisher_active env symbol s v identifier
                Hemit Hv Hid Hopen) as (resume & Hrun & Hleave).
    unfold TRADING_SIGNAL_TIMEOUT in Hrun. subst signal_builder.
    split; [eauto|].
    intros A body a s' Hbody Hsend.
    unfold async_with, aenter. cbv [bind]. rewrite Hrun.
    cbv [ret attempt]. cbn beta iota. rewrite Hbody. cbn beta iota.
    unfold aexit. cbv [bind]. rewrite Hleave, Hsend. reflexivity.
  - intros y resume s' Hrun.
    unfold remote_signal_publisher in Hrun. cbv [bind] in Hrun.
    rewrite Hemit in Hrun. cbn beta iota in Hrun.
    destruct (truthy v) eqn:Hv.
    + unfold except_authentication_failure, try_except in Hrun.
      cbv [bind] in Hrun. rewrite Hid in Hrun. cbn beta iota in Hrun.
      unfold get at 1 in Hrun. cbn beta iota in Hrun.
      unfold aenter, remote_signal_bundle_builder, invoke in Hrun.
      cbv [bind modify get ret raise] in Hrun.
      destruct (bundle_open env symbol) as [e|]; cbn -[bundle_records] in Hrun.
      * destruct (is_authentication_failure e); cbn in Hrun; congruence.
      * injection Hrun as <- _ _. split; [done|eauto].
    + injection Hrun as <- _ _. split; [by intros []|done].
Qed.

(** X28. A failure of the transport when the bundle is sent, as the
    scope is left normally: an authentication-required or
    transport-unavailable failure raised then is caught inside the scope
    and logged; it does not reach the caller, and the answer and the
    effects of the order block are kept. *)
Theorem remote_signal_send_failure_is_absorbed env symbol s v identifier
    {A} (body : option SignalBundleBuilder → M state A) a s' e :
  should_emit_trading_signal s = (Ok v, s) →
  truthy v = true →
  get_trading_signal_identifier s = (Ok identifier, s) →
  bundle_open env symbol = None →
  let signal_builder :=
    {| builder_symbol := symbol; builder_identifier := identifier;
       builder_timeout := 10; builder_args := [name (self s)] |} in
  body (Some signal_builder) (add_call (BundleOpen signal_builder) s)
    = (Ok a, s') →
  bundle_send env symbol = Some e →
  is_authentication_failure e = true →
  async_with (remote_signal_publisher env symbol) body s
  = (Ok (Some a), add_logged e (add_call (BundleSend symbol) s')).
Proof.
  intros Hemit Hv Hid Hopen signal_builder Hbody Hsend He.
  destruct (remote_signal_publisher_active env symbol s v identifier
              Hemit Hv Hid Hopen) as (resume & Hrun & Hleave).
  unfold TRADING_SIGNAL_TIMEOUT in Hrun. subst signal_builder.
  unfold async_with, aenter. cbv [bind]. rewrite Hrun.
  cbv [ret attempt]. cbn beta iota. rewrite Hbody. cbn beta iota.
  unfold aexit. cbv [bind]. rewrite Hleave, Hsend, He. reflexivity.
Qed.

(** ** Saving and stopping *)

Lemma get_backtesting_metadata_pure env user_inputs run_dbs_identifier s :
  (get_backtesting_metadata env user_inputs run_dbs_identifier s).2 = s.
Proof.
  unfold get_backtesting_metadata, exchange_manager_attr,
    get_additional_backtesting_metadata.
  cbv [bind get ret raise lift_result].
  destruct (exchange_manager (self s)) as [em|]; cbn; [|done].
  destruct (is_future em); cbn; [|done].
  destruct (set_positions _ _); cbn; [|done].
  destruct (get_pair_future_contract em); cbn; [|done].
  by destruct (trading_pairs em).
Qed.


Ltac run_monad_in H :=
  cbv [bind ret raise get modify invoke lift_fault lift_result attempt
       try_except exchange_manager_attr async_with aenter aexit database
       save_metadata save_transactions save_trades] in H.

Ltac simplify_run H Hem :=
  repeat (progress
            (rewrite ?Hem in H;
             cbn -[saved_run_metadata get_backtesting_metadata] in H)).

Ltac split_metadata H :=
  match type of H with
  | context [get_backtesting_metadata ?e ?u ?i ?X] =>
      let Hp := fresh "Hp" in
      let rm := fresh "rm" in
      let sm := fresh "sm" in
      pose proof (get_backtesting_metadata_pure e u i X) as Hp;
      destruct (get_backtesting_metadata e u i X) as [rm sm] eqn:Hmetadata;
      cbn in Hp; subst sm
  end.

(** One run of [save_backtesting_data] on a running instance. *)
Lemma save_backtesting_data_step env s em r s' :
  exchange_manager (self s) = Some em →
  save_backtesting_data env s = (r, s') →
  exchange_manager (self s') = Some em
  ∧ producers (self s') = producers (self s)
  ∧ consumers (self s') = consumers (self s)
  ∧ (∃ saving,
       calls s' = (calls s ++ saving)%list
       ∧ Forall (λ c, is_stop_call c = false) saving)
  ∧ (saved_run_metadata (bot_id em) s = true →
     SAVED_RUN_METADATA_DB_BY_BOT_ID s' = SAVED_RUN_METADATA_DB_BY_BOT_ID s)
  ∧ (pending s = [] →
     pending s' = []
     ∧ (metadata_db s' = metadata_db s
        ∨ (saved_run_metadata (bot_id em) s = false
           ∧ r = Ok tt
           ∧ saved_run_metadata (bot_id em) s' = true
           ∧ are_metadata_saved (self s') = true
           ∧ ∃ metadata,
               metadata_db s' = (metadata_db s ++
                 [(backtesting_metadata_identifier
                     (get_run_databases_identifier env (bot_id em)),
                   metadata)])%list))).
Proof.
  assert (Hcalls : ∀ (l saving : list (@call F)),
            Forall (λ c, is_stop_call c = false) saving →
            ∃ saving', (l ++ saving)%list = (l ++ saving')%list
                       ∧ Forall (λ c, is_stop_call c = false) saving') by eauto.
  intros Hem Hrun. unfold save_backtesting_data in Hrun.
  run_monad_in Hrun.
  destruct (are_metadata_saved (self s)) eqn:Hsaved,
    (run_db_flush env), (get_user_inputs env) as [user_inputs|],
    (store_transactions env), (store_trades env);
    simplify_run Hrun Hem;
    try (injection Hrun as <- <-; cbn; rewrite <- ?app_assoc;
         repeat split; auto;
         first [ by exists []; rewrite app_nil_r
               | by apply Hcalls; repeat constructor; auto ]).
  change (saved_run_metadata (bot_id em) _)
    with (saved_run_metadata (bot_id em) s) in Hrun.
  destruct (saved_run_metadata (bot_id em) s) eqn:Hflag;
    simplify_run Hrun Hem.
  { injection Hrun as <- <-; cbn; rewrite <- ?app_assoc; repeat split; auto.
    by apply Hcalls; repeat constructor; auto. }
  destruct (database_open env) as [e0|]; simplify_run Hrun Hem.
  { destruct (is_Exception e0); simplify_run Hrun Hem;
      injection Hrun as <- <-; cbn; rewrite <- ?app_assoc;
      repeat split; auto; try done;
      by apply Hcalls; repeat constructor; auto. }
  split_metadata Hrun.
  destruct rm as [metadata|e], (database_log env) as [e1|],
    (database_close env) as [e2|]; simplify_run Hrun Hem;
    repeat match type of Hrun with
    | context [is_Exception ?e] => destruct (is_Exception e)
    end; simplify_run Hrun Hem;
    injection Hrun as <- <-; cbn; rewrite <- ?app_assoc.
  all: repeat split; try done;
    try (by apply Hcalls; repeat constructor; auto).
  all: match goal with
       | Hp : pending _ = [] |- _ => rewrite ?Hp, ?app_nil_r; cbn
       end.
  all: try (left; done).
  right. repeat split; try done; [|eauto].
  unfold saved_run_metadata. cbn. by rewrite lookup_insert_eq.
Qed.

(** A loop that stops producers (or consumers) one after the other: it
    stops a prefix of them, all of them when it returns, and changes
    nothing but the list of calls. *)
Lemma for_each_invoke (mk : string → call) (fault : string → option exn)
    xs s r s' :
  for_each (λ x, invoke (mk x) (fault x)) xs s = (r, s') →
  ∃ stopped,
    stopped `prefix_of` xs
    ∧ (r = Ok tt → stopped = xs)
    ∧ calls s' = (calls s ++ (mk <$> stopped))%list
    ∧ self s' = self s
    ∧ SAVED_RUN_METADATA_DB_BY_BOT_ID s' = SAVED_RUN_METADATA_DB_BY_BOT_ID s
    ∧ metadata_db s' = metadata_db s
    ∧ pending s' = pending s.
Proof.
  revert s. induction xs as [|x xs IH]; intros s Hrun; cbn in Hrun.
  - injection Hrun as <- <-. exists []. rewrite app_nil_r. by repeat split.
  - unfold invoke in Hrun. cbv [bind modify lift_fault ret raise] in Hrun.
    destruct (fault x) as [e|].
    + injection Hrun as <- <-. exists [x]. cbn.
      repeat split; try done. by apply prefix_cons, prefix_nil.
    + apply IH in Hrun as (stopped & Hp & Hall & Hc & Hs & Hf & Hd & Hq).
      exists (x :: stopped). cbn in *. rewrite Hc, <- app_assoc.
      repeat split; try done; [by apply prefix_cons|].
      intros Hok. by rewrite Hall.
Qed.

(** C9. A [stop()] that returns leaves the instance without exchange
    manager.  A call to [save_backtesting_data] made while the instance is
    marked saved, or has no exchange manager, returns at once and leaves
    the whole state as it was: nothing is flushed, computed or written,
    no collaborator is called. *)
Theorem save_backtesting_data_skips env s :
  (∀ s', stop env s = (Ok tt, s') → exchange_manager (self s') = None)
  ∧ (are_metadata_saved (self s) = true ∨ exchange_manager (self s) = None →
     save_backtesting_data env s = (Ok tt, s)).
Proof.
  split.
  - intros s' Hrun. unfold stop in Hrun. cbv [bind] in Hrun.
    destruct (exchange_manager_attr _ _ s) as [[backtesting|] s1]; [|done].
    destruct ((if backtesting then save_backtesting_data env else ret tt) s1)
      as [[|] s2]; [|done].
    cbv [get] in Hrun.
    destruct (for_each _ (producers _) s2) as [[|] s3]; [|done].
    destruct (for_each _ (consumers _) s3) as [[|] s4]; [|done].
    cbv [modify] in Hrun. by injection Hrun as <-.
  - intros Hskip. unfold save_backtesting_data. cbv [bind get].
    destruct Hskip as [-> | ->]; [done|].
    by rewrite andb_false_r.
Qed.

(** C7. The calls made by a [stop()] on a running instance come in this
    order: first those of the metadata save, made only on a backtesting
    exchange; then the stops of producers, in order; then the stops of
    consumers, in order.  A producer is stopped only once the save has
    returned, a consumer only once every producer has been stopped, and
    the exchange manager is released exactly when [stop()] returns, every
    producer and consumer having been stopped. *)
Theorem stop_teardown_order env s em r s' :
  exchange_manager (self s) = Some em →
  stop env s = (r, s') →
  ∃ saving ps cs,
    calls s' = (calls s ++ saving ++ (ProducerStop <$> ps)
                ++ (ConsumerStop <$> cs))%list
    ∧ Forall (λ c, is_stop_call c = false) saving
    ∧ (if is_backtesting em
       then calls (save_backtesting_data env s).2 = (calls s ++ saving)%list
       else saving = [])
    ∧ ps `prefix_of` producers (self s)
    ∧ cs `prefix_of` consumers (self s)
    ∧ (ps ≠ [] → is_backtesting em = true →
       (save_backtesting_data env s).1 = Ok tt)
    ∧ (cs ≠ [] → ps = producers (self s))
    ∧ (r = Ok tt → ps = producers (self s) ∧ cs = consumers (self s))
    ∧ (exchange_manager (self s') = None ↔ r = Ok tt).
Proof.
  intros Hem Hrun. unfold stop in Hrun. cbv [bind] in Hrun.
  unfold exchange_manager_attr at 1 in Hrun. cbv [bind get ret] in Hrun.
  rewrite Hem in Hrun.
  assert (Hsave : ∃ rs s1 saving,
    (if is_backtesting em then save_backtesting_data env else ret tt) s
      = (rs, s1)
    ∧ exchange_manager (self s1) = Some em
    ∧ producers (self s1) = producers (self s)
    ∧ consumers (self s1) = consumers (self s)
    ∧ calls s1 = (calls s ++ saving)%list
    ∧ Forall (λ c, is_stop_call c = false) saving
    ∧ (if is_backtesting em
       then save_backtesting_data env s = (rs, s1)
       else saving = [] ∧ rs = Ok tt)).
  { destruct (is_backtesting em).
    - destruct (save_backtesting_data env s) as [rs s1] eqn:Hs.
      destruct (save_backtesting_data_step env s em rs s1 Hem Hs)
        as (? & ? & ? & (saving & ? & ?) & _).
      exists rs, s1, saving. by repeat split.
    - exists (Ok tt), s, []. rewrite app_nil_r. by repeat split. }
  destruct Hsave as (rs & s1 & saving & Hs & Hem1 & Hp1 & Hc1 & Hcalls1
                     & Hsaving & Hbt).
  cbn beta iota in Hrun. unfold ret in Hs. rewrite Hs in Hrun.
  assert (Hsave_calls : if is_backtesting em
            then calls (save_backtesting_data env s).2
                 = (calls s ++ saving)%list
            else saving = []).
  { destruct (is_backtesting em); [by rewrite Hbt|by destruct Hbt]. }
  assert (Hsave_ok : rs = Ok tt → is_backtesting em = true →
            (save_backtesting_data env s).1 = Ok tt).
  { intros -> Hb. rewrite Hb in Hbt. by rewrite Hbt. }
  destruct rs as [[]|e].
  2:{ injection Hrun as <- <-. exists saving, [], []. cbn.
      rewrite app_nil_r, Hem1.
      repeat split; try done; by apply prefix_nil. }
  destruct (for_each _ (producers (self s1)) s1) as [rp s2] eqn:Hps.
  apply for_each_invoke in Hps
    as (ps & Hpp & Hpall & Hpc & Hpself & _).
  rewrite Hp1 in Hpp, Hpall.
  destruct rp as [[]|e].
  2:{ injection Hrun as <- <-. exists saving, ps, []. cbn.
      rewrite app_nil_r, Hpc, Hcalls1, <- app_assoc, Hpself, Hem1.
      repeat split; try done; eauto using prefix_nil. }
  destruct (for_each _ (consumers (self s2)) s2) as [rc s3] eqn:Hcs.
  apply for_each_invoke in Hcs
    as (cs & Hcp & Hcall & Hcc & Hcself & _).
  rewrite Hpself, Hc1 in Hcp, Hcall.
  specialize (Hpall eq_refl).
  destruct rc as [[]|e].
  2:{ injection Hrun as <- <-. exists saving, ps, cs.
      rewrite Hcc, Hpc, Hcalls1, <- !app_assoc, Hcself, Hpself, Hem1.
      repeat split; try done; eauto. }
  cbv [modify] in Hrun. injection Hrun as <- <-.
  exists saving, ps, cs. cbn.
  rewrite Hcc, Hpc, Hcalls1, <- !app_assoc.
  repeat split; try done; eauto.
Qed.

(** ** Written at most once *)

Lemma of_run_spec b m :
  of_run b m = true ↔
  ∀ em, exchange_manager m = Some em →
        bot_id em = b ∧ is_backtesting em = true.
Proof.
  unfold of_run. destruct (exchange_manager m) as [em|].
  - rewrite andb_true_iff, bool_decide_eq_true. split.
    + by intros ? ? [= <-].
    + eauto.
  - by split.
Qed.

Lemma stop_step env s b :
  of_run b (self s) = true →
  pending s = [] →
  of_run b (self (stop env s).2) = true
  ∧ pending (stop env s).2 = []
  ∧ ∃ written,
      metadata_db (stop env s).2 = (metadata_db s ++ written)%list
      ∧ (length written ≤ 1)%nat
      ∧ (written ≠ [] → saved_run_metadata b (stop env s).2 = true)
      ∧ (saved_run_metadata b s = true →
         written = [] ∧ saved_run_metadata b (stop env s).2 = true).
Proof.
  intros Hrun Hpending.
  assert (Hsame : ∀ s', self s' = self s → pending s' = [] →
            SAVED_RUN_METADATA_DB_BY_BOT_ID s'
              = SAVED_RUN_METADATA_DB_BY_BOT_ID s →
            metadata_db s' = metadata_db s →
            of_run b (self s') = true ∧ pending s' = []
            ∧ ∃ written,
                metadata_db s' = (metadata_db s ++ written)%list
                ∧ (length written ≤ 1)%nat
                ∧ (written ≠ [] → saved_run_metadata b s' = true)
                ∧ (saved_run_metadata b s = true →
                   written = [] ∧ saved_run_metadata b s' = true)).
  { intros s' Hs Hp Hf Hd. rewrite Hs. split; [done|]. split; [done|].
    exists []. rewrite app_nil_r. unfold saved_run_metadata. rewrite Hf.
    split; [done|]. split; [cbn; lia|]. by split. }
  destruct (exchange_manager (self s)) as [em|] eqn:Hem.
  2:{ unfold stop, exchange_manager_attr. cbv [bind get]. rewrite Hem.
      cbn. by apply Hsame. }
  destruct (proj1 (of_run_spec b _) Hrun em Hem) as [Hb Hbt].
  destruct (stop env s) as [r s'] eqn:Hstop. cbn.
  unfold stop in Hstop. cbv [bind] in Hstop.
  unfold exchange_manager_attr at 1 in Hstop. cbv [bind get ret] in Hstop.
  rewrite Hem, Hbt in Hstop. cbn beta iota in Hstop.
  destruct (save_backtesting_data env s) as [rs s1] eqn:Hs.
  destruct (save_backtesting_data_step env s em rs s1 Hem Hs)
    as (Hem1 & _ & _ & _ & Hkeep & Hdb).
  destruct (Hdb Hpending) as [Hp1 Hdb1]. rewrite Hb in *.
  assert (Hgoal : ∀ s2, pending s2 = [] →
            (exchange_manager (self s2) = None
             ∨ exchange_manager (self s2) = Some em) →
            SAVED_RUN_METADATA_DB_BY_BOT_ID s2
              = SAVED_RUN_METADATA_DB_BY_BOT_ID s1 →
            metadata_db s2 = metadata_db s1 →
            of_run b (self s2) = true ∧ pending s2 = []
            ∧ ∃ written,
                metadata_db s2 = (metadata_db s ++ written)%list
                ∧ (length written ≤ 1)%nat
                ∧ (written ≠ [] → saved_run_metadata b s2 = true)
                ∧ (saved_run_metadata b s = true →
                   written = [] ∧ saved_run_metadata b s2 = true)).
  { intros s2 Hp2 Hem2 Hf2 Hd2. split; [|split; [done|]].
    - apply of_run_spec. intros em2 Heq.
      destruct Hem2 as [Hn|Hs2]; [congruence|].
      rewrite Hs2 in Heq. by injection Heq as <-.
    - assert (Hflag2 : saved_run_metadata b s2 = saved_run_metadata b s1)
        by (unfold saved_run_metadata; by rewrite Hf2).
      rewrite Hd2, Hflag2.
      destruct Hdb1 as [Hsame1 | (Hno & _ & Hyes & _ & metadata & Hwritten)].
      + exists []. rewrite app_nil_r, Hsame1.
        split; [done|]. split; [cbn; lia|]. split; [done|].
        intros Ht. split; [done|].
        unfold saved_run_metadata. by rewrite (Hkeep Ht).
      + eexists [_]. split; [exact Hwritten|].
        split; [cbn; lia|]. split; [done|]. intros Ht. congruence. }
  destruct rs as [[]|e].
  2:{ injection Hstop as <- <-. apply Hgoal; auto. }
  destruct (for_each _ (producers (self s1)) s1) as [rp s2] eqn:Hps.
  apply for_each_invoke in Hps
    as (_ & _ & _ & _ & Hpself & Hpf & Hpd & Hpp).
  destruct rp as [[]|e].
  2:{ injection Hstop as <- <-. apply Hgoal; try congruence.
      right. by rewrite Hpself. }
  destruct (for_each _ (consumers (self s2)) s2) as [rc s3] eqn:Hcs.
  apply for_each_invoke in Hcs
    as (_ & _ & _ & _ & Hcself & Hcf & Hcd & Hcp).
  destruct rc as [[]|e].
  2:{ injection Hstop as <- <-. apply Hgoal; try congruence.
      right. by rewrite Hcself, Hpself. }
  cbv [modify] in Hstop. injection Hstop as <- <-.
  apply Hgoal; cbn; try congruence. by left.
Qed.

Lemma stop_instance_step env i ms s b :
  Forall (λ m, of_run b m = true) ms →
  pending s = [] →
  Forall (λ m, of_run b m = true) (stop_instance env i (ms, s)).1
  ∧ pending (stop_instance env i (ms, s)).2 = []
  ∧ ∃ written,
      metadata_db (stop_instance env i (ms, s)).2
        = (metadata_db s ++ written)%list
      ∧ (length written ≤ 1)%nat
      ∧ (written ≠ [] →
         saved_run_metadata b (stop_instance env i (ms, s)).2 = true)
      ∧ (saved_run_metadata b s = true →
         written = []
         ∧ saved_run_metadata b (stop_instance env i (ms, s)).2 = true).
Proof.
  intros Hms Hp. unfold stop_instance. cbn [fst snd].
  destruct (ms !! i) as [m|] eqn:Hi; cbn [fst snd].
  - destruct (stop_step env (set_self m s) b) as (Hm' & Hp' & Hw); [|done|].
    { cbn. by apply (Forall_lookup_1 (λ m, of_run b m = true) ms i m). }
    split; [by apply Forall_insert|]. split; [done|]. exact Hw.
  - split; [done|]. split; [done|]. exists []. rewrite app_nil_r.
    split; [done|]. split; [cbn; lia|]. by split.
Qed.

Lemma stop_sequence_cons env i script (p : list (@TradingMode F) * state) :
  stop_sequence ((env, i) :: script) p
  = stop_sequence script (stop_instance env i p).
Proof. reflexivity. Qed.

(** C1. Take instances of one backtesting run and any sequence of
    [stop()] calls on them, whatever the collaborators answer and
    whatever the calls raise.  The calls persist at most one backtesting
    metadata record; once a record has been persisted, the saved flag of
    the run reads true; and from a state where the flag reads true no
    record is persisted any more and the flag stays true. *)
Theorem backtesting_metadata_written_once b script ms s :
  Forall (λ m, of_run b m = true) ms →
  pending s = [] →
  Forall (λ m, of_run b m = true) (stop_sequence script (ms, s)).1
  ∧ pending (stop_sequence script (ms, s)).2 = []
  ∧ ∃ written,
      metadata_db (stop_sequence script (ms, s)).2
        = (metadata_db s ++ written)%list
      ∧ (length written ≤ 1)%nat
      ∧ (written ≠ [] →
         saved_run_metadata b (stop_sequence script (ms, s)).2 = true)
      ∧ (saved_run_metadata b s = true →
         written = []
         ∧ saved_run_metadata b (stop_sequence script (ms, s)).2 = true).
Proof.
  revert ms s. induction script as [|[env i] script IH]; intros ms s Hms Hp.
  - cbn. split; [done|]. split; [done|]. exists []. rewrite app_nil_r.
    split; [done|]. split; [cbn; lia|]. by split.
  - rewrite stop_sequence_cons.
    destruct (stop_instance_step env i ms s b Hms Hp)
      as (Hms1 & Hp1 & w1 & Hd1 & Hl1 & Hf1 & Hk1).
    destruct (stop_instance env i (ms, s)) as [ms1 s1]. cbn [fst snd] in *.
    destruct (IH ms1 s1 Hms1 Hp1) as (Hms2 & Hp2 & w2 & Hd2 & Hl2 & Hf2 & Hk2).
    split; [done|]. split; [done|].
    exists (w1 ++ w2)%list. rewrite Hd2, Hd1, <- app_assoc.
    split; [done|]. destruct w1 as [|x1 w1].
    + cbn. split; [done|]. split; [done|].
      intros Ht. destruct (Hk1 Ht) as [_ Ht1]. by apply Hk2.
    + destruct (Hk2 (Hf1 ltac:(done))) as [-> Ht2]. rewrite app_nil_r.
      split; [done|]. split; [done|]. intros Ht. by destruct (Hk1 Ht).
Qed.

(** ** Failure and retry *)




(** ** The metadata record *)

Lemma ok_pair_inv {A S} (a b : A) (s s' : S) :
  (Ok a, s) = (Ok b, s') → a = b ∧ s = s'.
Proof. by intros [= -> ->]. Qed.

Lemma metadata_lookup (l : list (BacktestingMetadata * @pyval F)) k v :
  bool_decide (NoDup l.*1) = true →
  (k, v) ∈ l →
  ((∅ : gmap BacktestingMetadata pyval) ∪ list_to_map l) !! k = Some v.
Proof.
  intros Hnodup Hin. rewrite lookup_union, lookup_empty, (left_id None _).
  apply elem_of_list_to_map_1; [|done].
  by apply bool_decide_eq_true in Hnodup.
Qed.

(** C8. In a record answered by [get_backtesting_metadata] the absolute
    gain is the profitability rounded to 8 decimal places, and the percent
    gain, the win rate (in percent), the draw-down and the duration are
    rounded to 3 decimal places; a draw-down that rounds to zero is stored
    as the integer 0. *)
Theorem backtesting_metadata_rounding env user_inputs run_dbs_identifier
    s em metadata s' :
  exchange_manager (self s) = Some em →
  get_backtesting_metadata env user_inputs run_dbs_identifier s
    = (Ok metadata, s') →
  let data := exchange_personal_data em in
  metadata !! GAINS
    = Some (VFloat (float_round (float_of_decimal (profitability data)) 8))
  ∧ metadata !! PERCENT_GAINS
    = Some (VFloat
              (float_round (float_of_decimal (profitability_percent data)) 3))
  ∧ metadata !! WIN_RATE
    = Some (VFloat
              (float_round (float_of_decimal (win_rate data * 100)%Q) 3))
  ∧ metadata !! DRAW_DOWN
    = Some (let rounded :=
              float_round (float_of_decimal (draw_down data)) 3 in
            if float_is_zero rounded then VInt 0 else VFloat rounded)
  ∧ metadata !! DURATION
    = Some (VFloat (float_round (backtesting_duration (backtesting em)) 3)).
Proof.
  intros Hem Hrun data.
  unfold get_backtesting_metadata, exchange_manager_attr,
    get_additional_backtesting_metadata in Hrun.
  cbv [bind get ret raise lift_result] in Hrun. rewrite Hem in Hrun.
  cbn beta iota in Hrun.
  change (id em) with em in Hrun.
  assert (Hdraw_down :
    py_or (VFloat (float_round (float_of_decimal (draw_down data)) 3))
      (VInt 0)
    = if float_is_zero (float_round (float_of_decimal (draw_down data)) 3)
      then VInt 0
      else VFloat (float_round (float_of_decimal (draw_down data)) 3)).
  { unfold py_or. cbn. by destruct (float_is_zero _). }
  cbv zeta. rewrite <- Hdraw_down. clear Hdraw_down.
  destruct (is_future em); cbn beta iota in Hrun;
    [ destruct (set_positions _ _) as [end_portfolio|]; [|done];
      destruct (get_pair_future_contract em) as [current_leverage|];
      [ destruct (trading_pairs em) as [|symbol symbols]; [done|] | ] | ];
    apply ok_pair_inv in Hrun as [<- _];
    repeat split; (apply metadata_lookup; [vm_compute; reflexivity|]);
    repeat first [ apply list_elem_of_here | apply list_elem_of_further ].
Qed.
End Properties.

(** * The properties on the concrete process *)

Lemma create_order_signal_witness :
  ∃ s',
    create_order (example_env None None None) example_order false None None
      live_state = (Ok (Some example_order), s')
    ∧ calls s' = [PortfolioPercent example_order;
                  TraderCreateOrder example_order]
    ∧ signals s'
      = [("BTC/USDT",
          CreatedOrder example_order
            (Some (set_exchange_personal_data
                     (after_purchase example_personal_data)
                     (example_exchange_manager false)))
            "25.0%")].
Proof.
  destruct (create_order_signal (example_env None None None) live_state
              example_order false None None (example_exchange_manager false)
              (VBool true) (Some example_order)
              (after_purchase example_personal_data) 25%Q)
    as (s' & Hrun & _ & Hcalls & Hsignals);
    [reflexivity | reflexivity | intros _; reflexivity | reflexivity |].
  exists s'. split; [exact Hrun|]. split; [exact Hcalls|exact Hsignals].
Defined.


Lemma missing_signal_key_disables_emission_witness :
  is_trading_signal_emitter unconfigured_state
    = (Ok (VBool false), unconfigured_state)
  ∧ should_emit_trading_signal unconfigured_state
    = (Ok (VBool false), unconfigured_state)
  ∧ signals (create_order (example_env None None None) example_order false
               None None unconfigured_state).2 = [].
Proof.
  destruct (missing_signal_key_disables_emission (example_env None None None)
              unconfigured_state ∅)
    as (Hemitter & Hemit & Hcreate & _); [reflexivity..|].
  split; [exact Hemitter|]. split.
  - apply (Hemit (example_exchange_manager false)). reflexivity.
  - exact (Hcreate example_order false None None).
Defined.

Lemma remote_signal_publisher_yield_witness :
  (∃ resume,
     remote_signal_publisher (example_env None None None) "BTC/USDT"
       backtesting_state = (Ok (Yielded None resume), backtesting_state))
  ∧ (∃ resume,
       remote_signal_publisher (example_env None None None) "BTC/USDT"
         (example_state
            (example_mode false {[ "emit_trading_signals" := VBool false ]}))
       = (Ok (Yielded None resume),
          example_state
            (example_mode false {[ "emit_trading_signals" := VBool false ]})))
  ∧ (∃ resume,
       remote_signal_publisher (example_env None None None) "BTC/USDT"
         live_state
       = (Ok (Yielded (Some example_builder) resume),
          add_call (BundleOpen example_builder) live_state)).
Proof.
  split; [|split].
  - destruct (remote_signal_publisher_yield (example_env None None None)
                "BTC/USDT" backtesting_state (example_exchange_manager true)
                emitting_config eq_refl eq_refl)
      as (Hplaceholder & _).
    apply Hplaceholder. vm_compute. reflexivity.
  - destruct (remote_signal_publisher_yield (example_env None None None)
                "BTC/USDT"
                (example_state
                   (example_mode false
                      {[ "emit_trading_signals" := VBool false ]}))
                (example_exchange_manager false)
                {[ "emit_trading_signals" := VBool false ]} eq_refl eq_refl)
      as (Hplaceholder & _).
    apply Hplaceholder. vm_compute. reflexivity.
  - destruct (remote_signal_publisher_yield (example_env None None None)
                "BTC/USDT" live_state (example_exchange_manager false)
                emitting_config eq_refl eq_refl)
      as (_ & Hactive & _).
    destruct Hactive as [Hyield _]; [vm_compute; reflexivity|reflexivity|].
    exact Hyield.
Defined.

Lemma remote_signal_send_failure_is_absorbed_witness :
  ∃ s',
    async_with
      (remote_signal_publisher (example_env None (Some UnavailableError) None)
         "BTC/USDT")
      (λ _, create_order (example_env None (Some UnavailableError) None)
              example_order false None None)
      live_state
    = (Ok (Some (Some example_order)), s')
    ∧ logged s' = [UnavailableError]
    ∧ calls s' = [BundleOpen example_builder; PortfolioPercent example_order;
                  TraderCreateOrder example_order; BundleSend "BTC/USDT"].
Proof.
  eexists. split.
  - apply (remote_signal_send_failure_is_absorbed
             (example_env None (Some UnavailableError) None) "BTC/USDT"
             live_state (VBool true) (VStr "DailyTradingMode")
             (λ _, create_order (example_env None (Some UnavailableError) None)
                     example_order false None None)
             (Some example_order)
             (create_order (example_env None (Some UnavailableError) None)
                example_order false None None
                (add_call (BundleOpen example_builder) live_state)).2
             UnavailableError); reflexivity.
  - split; reflexivity.
Defined.

Lemma stop_teardown_order_witness :
  ∃ saving,
    calls (stop (example_env None None None) backtesting_state).2
    = (saving ++ [ProducerStop "producer"; ConsumerStop "consumer"])%list
    ∧ Forall (λ c, is_stop_call c = false) saving
    ∧ exchange_manager
        (self (stop (example_env None None None) backtesting_state).2) = None.
Proof.
  destruct (stop_teardown_order (example_env None None None)
              backtesting_state (example_exchange_manager true) (Ok tt)
              (stop (example_env None None None) backtesting_state).2)
    as (saving & ps & cs & Hcalls & Hsaving & _ & _ & _ & _ & _ & Hall
        & Hreleased); [vm_compute; reflexivity..|].
  destruct (Hall eq_refl) as [-> ->].
  exists saving. split; [exact Hcalls|]. split; [exact Hsaving|].
  apply Hreleased. reflexivity.
Defined.

Lemma save_backtesting_data_skips_witness :
  exchange_manager
    (self (stop (example_env None None None) backtesting_state).2) = None
  ∧ save_backtesting_data (example_env None None None)
      (stop (example_env None None None) backtesting_state).2
    = (Ok tt, (stop (example_env None None None) backtesting_state).2).
Proof.
  split.
  - apply (proj1 (save_backtesting_data_skips (example_env None None None)
                    backtesting_state)).
    vm_compute. reflexivity.
  - apply (proj2 (save_backtesting_data_skips (example_env None None None)
                    (stop (example_env None None None) backtesting_state).2)).
    right. vm_compute. reflexivity.
Defined.

Lemma backtesting_metadata_written_once_witness :
  ∃ written,
    metadata_db
      (stop_sequence example_script (example_instances, backtesting_state)).2
    = written
    ∧ (length written ≤ 1)%nat
    ∧ (written ≠ [] →
       saved_run_metadata "X"
         (stop_sequence example_script
            (example_instances, backtesting_state)).2 = true).
Proof.
  destruct (backtesting_metadata_written_once "X" example_script
              example_instances backtesting_state)
    as (_ & _ & written & Hdb & Hlen & Hflag & _);
    [repeat constructor | reflexivity |].
  exists written. split; [exact Hdb|]. split; [exact Hlen|exact Hflag].
Defined.


Lemma backtesting_metadata_rounding_witness :
  get_backtesting_metadata (example_env None None None) example_user_inputs
    (get_run_databases_identifier (example_env None None None) "X")
    backtesting_state
  = (Ok example_metadata, backtesting_state)
  ∧ example_metadata !! GAINS = Some (VFloat (154321 # 12500000)%Q)
  ∧ example_metadata !! PERCENT_GAINS = Some (VFloat (617 # 500)%Q)
  ∧ example_metadata !! WIN_RATE = Some (VFloat 60%Q)
  ∧ example_metadata !! DRAW_DOWN = Some (VInt 0)
  ∧ example_metadata !! DURATION = Some (VFloat (247 # 200)%Q).
Proof.
  split; [vm_compute; reflexivity|].
  destruct (backtesting_metadata_rounding (example_env None None None)
              example_user_inputs
              (get_run_databases_identifier (example_env None None None) "X")
              backtesting_state (example_exchange_manager true)
              example_metadata backtesting_state)
    as (Hgains & Hpercent & Hwin & Hdraw & Hduration);
    [vm_compute; reflexivity..|].
  split; [|split; [|split; [|split]]];
    [ etrans; [exact Hgains|] | etrans; [exact Hpercent|]
    | etrans; [exact Hwin|] | etrans; [exact Hdraw|]
    | etrans; [exact Hduration|] ];
    vm_compute; reflexivity.
Defined.

(** C2. The metadata of run ["X"] is computed and written, and releasing
    the writer then fails with an [Exception].  The exception reaches the
    caller of [save_backtesting_data] and of [stop()], the flag of the
    run reads false again and nothing is persisted; but the instance was
    marked saved before the writer was released, so that the next call on
    it, on which nothing fails, skips every step: it calls no
    collaborator, computes and writes nothing, and the record of the run
    is still missing. *)
Lemma release_failure_is_not_retried :
  let failed :=
    (save_backtesting_data
       (failing_release_env (OtherException "disk full"))
       backtesting_state).2 in
  save_backtesting_data (failing_release_env (OtherException "disk full"))
    backtesting_state
  = (Raise (OtherException "disk full"), failed)
  ∧ stop (failing_release_env (OtherException "disk full")) backtesting_state
    = (Raise (OtherException "disk full"), failed)
  ∧ SAVED_RUN_METADATA_DB_BY_BOT_ID failed !! "X" = Some false
  ∧ metadata_db failed = []
  ∧ are_metadata_saved (self failed) = true
  ∧ save_backtesting_data (example_env None None None) failed
    = (Ok tt, failed)
  ∧ metadata_db (stop (example_env None None None) failed).2 = []
  ∧ calls (stop (example_env None None None) failed).2
    = (calls failed ++ [ProducerStop "producer"; ConsumerStop "consumer"]
      )%list.
Proof.
  intros failed.
  do 7 (split; [vm_compute; reflexivity|]). vm_compute. reflexivity.
Qed.

(** C6. The transport raises [AuthenticationRequired] while the bundle
    is opened, on a live mode that emits signals.  The failure is caught
    and logged inside the generator, which then ends without having
    yielded; the context manager answers this with a [RuntimeError] that
    reaches the caller, and the block placing the order is never run,
    although the order alone would have been placed. *)
Lemma remote_signal_open_failure_counterexample :
  (async_with
     (remote_signal_publisher (example_env (Some AuthenticationRequired)
                                 None None) "BTC/USDT")
     (λ _, create_order (example_env (Some AuthenticationRequired) None None)
             example_order false None None)
     live_state).1
  = Raise (RuntimeError "generator didn't yield")
  ∧ logged
      (async_with
         (remote_signal_publisher (example_env (Some AuthenticationRequired)
                                     None None) "BTC/USDT")
         (λ _, create_order
                 (example_env (Some AuthenticationRequired) None None)
                 example_order false None None)
         live_state).2
    = [AuthenticationRequired]
  ∧ calls
      (async_with
         (remote_signal_publisher (example_env (Some AuthenticationRequired)
                                     None None) "BTC/USDT")
         (λ _, create_order
                 (example_env (Some AuthenticationRequired) None None)
                 example_order false None None)
         live_state).2
    = [BundleOpen example_builder]
  ∧ (create_order (example_env (Some AuthenticationRequired) None None)
       example_order false None None live_state).1
    = Ok (Some example_order).
Proof. repeat split; vm_compute; reflexivity. Qed.

(** * More properties of the module *)


(** * Further properties of the module *)

Section MoreProperties.

Context {F : Type} `{PyFloat F} `{Constants}.

Implicit Types (s : @state F) (env : @Collaborators F)
  (em : @ExchangeManager F) (m : @TradingMode F) (v : @pyval F).

(** ** Signal configuration *)

(** X1. On a loaded configuration [get_trading_signal_identifier] never
    raises and changes nothing.  It answers the configured strategy name
    when there is one and it is truthy, and the name of the mode when the
    key is missing or its value is empty; so the identifier of a mode
    with a non-empty name is never empty. *)
Theorem trading_signal_identifier_fallback s d :
  trading_config (self s) = Some d →
  ∃ identifier,
    get_trading_signal_identifier s = (Ok identifier, s)
    ∧ (∀ configured,
         d !! CONFIG_TRADING_SIGNALS_STRATEGY = Some configured →
         truthy configured = true → identifier = configured)
    ∧ ((∀ configured,
          d !! CONFIG_TRADING_SIGNALS_STRATEGY = Some configured →
          truthy configured = false) →
       identifier = VStr (name (self s)))
    ∧ (name (self s) ≠ "" → truthy identifier = true).
Proof.
  intros Hc.
  unfold get_trading_signal_identifier, try_except, trading_config_item.
  cbv [bind get ret raise]. rewrite Hc.
  destruct (d !! CONFIG_TRADING_SIGNALS_STRATEGY) as [configured|] eqn:Hd;
    cbn.
  - unfold py_or. destruct (truthy configured) eqn:Hv.
    + eexists. split; [reflexivity|]. split; [|split].
      * by intros ? [= <-].
      * intros Hfalsy. specialize (Hfalsy configured eq_refl). congruence.
      * done.
    + eexists. split; [reflexivity|]. split; [|split].
      * intros ? [= <-]. congruence.
      * done.
      * intros Hname. cbn. by rewrite bool_decide_eq_false_2.
  - eexists. split; [reflexivity|]. split; [|split].
    + done.
    + done.
    + intros Hname. cbn. by rewrite bool_decide_eq_false_2.
Qed.

Lemma should_emit_backtesting s em :
  exchange_manager (self s) = Some em →
  is_backtesting em = true →
  should_emit_trading_signal s = (Ok (VBool false), s).
Proof.
  intros Hem Hbt.
  unfold should_emit_trading_signal, exchange_manager_attr.
  cbv [bind get ret]. by rewrite Hem, Hbt.
Qed.

Lemma should_emit_keeps_after_trader s em d c r :
  exchange_manager (self s) = Some em →
  should_emit_trading_signal s = (r, s) →
  should_emit_trading_signal (set_personal_data d em (add_call c s))
  = (r, set_personal_data d em (add_call c s)).
Proof.
  intros Hem Hr.
  unfold should_emit_trading_signal, exchange_manager_attr in *.
  cbv [bind get ret] in *. rewrite Hem in Hr. cbn.
  destruct (is_backtesting em); cbn in *.
  - by injection Hr as <-.
  - unfold is_trading_signal_emitter, try_except, trading_config_item in *.
    cbv [bind get ret raise] in *. cbn.
    destruct (trading_config (self s)) as [cfg|]; cbn in *.
    + destruct (cfg !! CONFIG_EMIT_TRADING_SIGNALS); cbn in *;
        by injection Hr as <-.
    + by injection Hr as <-.
Qed.

Lemma call_trader_outcome {A} (c : call)
    (op : ExchangePersonalData → result A * ExchangePersonalData) s em :
  exchange_manager (self s) = Some em →
  call_trader c op s
  = ((op (exchange_personal_data em)).1,
     set_personal_data (op (exchange_personal_data em)).2 em (add_call c s)).
Proof.
  intros Hem. unfold call_trader, exchange_manager_attr.
  cbv [bind get ret modify]. rewrite Hem. cbn.
  by destruct (op (exchange_personal_data em)) as [[a|e] d].
Qed.

(** X2. On a backtesting exchange nothing is emitted, whatever the
    configuration holds and even when none is loaded:
    [should_emit_trading_signal] answers [False] without reading the
    configuration, the remote signal scope yields the placeholder, and
    [create_order], [cancel_order] and [edit_order] hand no record to a
    signal bundle builder; [create_order] does not compute the percent of
    portfolio at all. *)
Theorem backtesting_never_emits env s em :
  exchange_manager (self s) = Some em →
  is_backtesting em = true →
  should_emit_trading_signal s = (Ok (VBool false), s)
  ∧ (∀ symbol, ∃ resume,
       remote_signal_publisher env symbol s = (Ok (Yielded None resume), s))
  ∧ (∀ order loaded params pre_init_callback,
       signals (create_order env order loaded params pre_init_callback s).2
         = signals s
       ∧ calls (create_order env order loaded params pre_init_callback s).2
         = (calls s ++ [TraderCreateOrder order])%list)
  ∧ (∀ order ignored_order,
       signals (cancel_order env order ignored_order s).2 = signals s)
  ∧ (∀ order edited_quantity edited_price edited_stop_price
       edited_current_price params,
       signals (edit_order env order edited_quantity edited_price
                  edited_stop_price edited_current_price params s).2
         = signals s).
Proof.
  intros Hem Hbt.
  pose proof (should_emit_backtesting s em Hem Hbt) as Hemit.
  split; [done|]. split; [|split; [|split]].
  - intros symbol. unfold remote_signal_publisher. cbv [bind].
    rewrite Hemit. cbn. eauto.
  - intros order loaded params cb.
    unfold create_order. cbv [bind]. rewrite Hemit. cbn.
    rewrite (call_trader_outcome _ _ s em Hem).
    destruct (trader_create_order env order loaded params cb _)
      as [[[created|]|e] d];
      cbn -[should_emit_trading_signal set_personal_data add_call]; try done.
    rewrite (should_emit_keeps_after_trader s em _ _ _ Hem Hemit). done.
  - intros order ignored.
    unfold cancel_order. cbv [bind].
    rewrite (call_trader_outcome _ _ s em Hem).
    destruct (trader_cancel_order env order ignored _) as [[cancelled|e] d];
      cbn -[should_emit_trading_signal set_personal_data add_call]; try done.
    rewrite (should_emit_keeps_after_trader s em _ _ _ Hem Hemit). done.
  - intros order q p sp cp params.
    unfold edit_order. cbv [bind].
    rewrite (call_trader_outcome _ _ s em Hem).
    destruct (trader_edit_order env order q p sp cp params _)
      as [[changed|e] d];
      cbn -[should_emit_trading_signal set_personal_data add_call]; try done.
    rewrite (should_emit_keeps_after_trader s em _ _ _ Hem Hemit). done.
Qed.

(** X3. An exception raised by the trader reaches the caller of
    [create_order], [cancel_order] or [edit_order] unchanged, and no
    record is handed to a signal bundle builder.  When the mode emits and
    computing the percent of portfolio raises, [create_order] raises
    without the trader having been called: the order is not sent. *)
Theorem failed_order_emits_nothing env s order em v e :
  exchange_manager (self s) = Some em →
  should_emit_trading_signal s = (Ok v, s) →
  (∀ loaded params pre_init_callback d,
     trader_create_order env order loaded params pre_init_callback
       (exchange_personal_data em) = (Raise e, d) →
     (truthy v = true →
      is_Ok (get_order_size_portfolio_percent env em (origin_quantity order)
               (order_side order) (order_symbol order)) = true) →
     ∃ s',
       create_order env order loaded params pre_init_callback s
         = (Raise e, s')
       ∧ signals s' = signals s)
  ∧ (∀ loaded params pre_init_callback,
       truthy v = true →
       get_order_size_portfolio_percent env em (origin_quantity order)
         (order_side order) (order_symbol order) = Raise e →
       ∃ s',
         create_order env order loaded params pre_init_callback s
           = (Raise e, s')
         ∧ calls s' = (calls s ++ [PortfolioPercent order])%list
         ∧ exchange_manager (self s') = Some em
         ∧ signals s' = signals s)
  ∧ (∀ ignored_order d,
       trader_cancel_order env order ignored_order
         (exchange_personal_data em) = (Raise e, d) →
       ∃ s',
         cancel_order env order ignored_order s = (Raise e, s')
         ∧ signals s' = signals s)
  ∧ (∀ edited_quantity edited_price edited_stop_price edited_current_price
       params d,
       trader_edit_order env order edited_quantity edited_price
         edited_stop_price edited_current_price params
         (exchange_personal_data em) = (Raise e, d) →
       ∃ s',
         edit_order env order edited_quantity edited_price
           edited_stop_price edited_current_price params s = (Raise e, s')
         ∧ signals s' = signals s).
Proof.
  intros Hem Hemit. split; [|split; [|split]].
  - intros loaded params cb d Htrader Hpercent.
    unfold create_order. cbv [bind]. rewrite Hemit.
    destruct (truthy v) eqn:Hv.
    + unfold exchange_manager_attr at 1. cbv [bind get ret modify].
      rewrite Hem. cbn.
      destruct (get_order_size_portfolio_percent env em _ _ _)
        as [percent|e0]; [|by specialize (Hpercent eq_refl)].
      cbn. erewrite call_trader_outcome by (cbn; eauto).
      rewrite Htrader. cbn. eauto.
    + cbv [ret]. erewrite call_trader_outcome by eauto.
      rewrite Htrader. cbn. eauto.
  - intros loaded params cb Hv Hpercent.
    unfold create_order. cbv [bind]. rewrite Hemit, Hv.
    unfold exchange_manager_attr at 1. cbv [bind get ret modify].
    rewrite Hem. cbn. rewrite Hpercent. cbn. eauto.
  - intros ignored d Htrader.
    unfold cancel_order. cbv [bind].
    rewrite (call_trader_outcome _ _ s em Hem), Htrader. cbn. eauto.
  - intros q p sp cp params d Htrader.
    unfold edit_order. cbv [bind].
    rewrite (call_trader_outcome _ _ s em Hem), Htrader. cbn. eauto.
Qed.

(** X4. Once [stop()] has returned, the instance cannot be used any
    more: a second [stop()], [create_order], [cancel_order], [edit_order]
    and entering the remote signal scope all raise [AttributeError] (the
    exchange manager is [None]) and leave the whole state as it is; no
    collaborator is called. *)
Theorem stopped_instance_is_unusable env env' s s' :
  stop env s = (Ok tt, s') →
  stop env' s' = (Raise (AttributeError "is_backtesting"), s')
  ∧ (∀ order loaded params pre_init_callback,
       create_order env' order loaded params pre_init_callback s'
       = (Raise (AttributeError "is_backtesting"), s'))
  ∧ (∀ order ignored_order,
       cancel_order env' order ignored_order s'
       = (Raise (AttributeError "trader"), s'))
  ∧ (∀ order edited_quantity edited_price edited_stop_price
       edited_current_price params,
       edit_order env' order edited_quantity edited_price edited_stop_price
         edited_current_price params s'
       = (Raise (AttributeError "trader"), s'))
  ∧ (∀ symbol A (body : option SignalBundleBuilder → M state A),
       async_with (remote_signal_publisher env' symbol) body s'
       = (Raise (AttributeError "is_backtesting"), s')).
Proof.
  intros Hstop.
  assert (Hem : exchange_manager (self s') = None).
  { unfold stop in Hstop. cbv [bind] in Hstop.
    destruct (exchange_manager_attr _ _ s) as [[backtesting|] s1]; [|done].
    destruct ((if backtesting then save_backtesting_data env else ret tt) s1)
      as [[|] s2]; [|done].
    cbv [get] in Hstop.
    destruct (for_each _ (producers _) s2) as [[|] s3]; [|done].
    destruct (for_each _ (consumers _) s3) as [[|] s4]; [|done].
    cbv [modify] in Hstop. by injection Hstop as <-. }
  assert (Hemit : should_emit_trading_signal s'
                  = (Raise (AttributeError "is_backtesting"), s')).
  { unfold should_emit_trading_signal, exchange_manager_attr.
    cbv [bind get]. by rewrite Hem. }
  split; [|split; [|split; [|split]]].
  - unfold stop, exchange_manager_attr. cbv [bind get]. by rewrite Hem.
  - intros. unfold create_order. cbv [bind]. by rewrite Hemit.
  - intros. unfold cancel_order, call_trader, exchange_manager_attr.
    cbv [bind get]. by rewrite Hem.
  - intros. unfold edit_order, call_trader, exchange_manager_attr.
    cbv [bind get]. by rewrite Hem.
  - intros. unfold async_with, aenter, remote_signal_publisher.
    cbv [bind]. by rewrite Hemit.
Qed.

(** ** Failures inside the remote signal scope *)

Lemma remote_signal_publisher_opened env symbol s v identifier :
  should_emit_trading_signal s = (Ok v, s) →
  truthy v = true →
  get_trading_signal_identifier s = (Ok identifier, s) →
  bundle_open env symbol = None →
  ∃ resume,
    remote_signal_publisher env symbol s
    = (Ok (Yielded
             (Some {| builder_symbol := symbol;
                      builder_identifier := identifier;
                      builder_timeout := 10;
                      builder_args := [name (self s)] |}) resume),
       add_call
         (BundleOpen {| builder_symbol := symbol;
                        builder_identifier := identifier;
                        builder_timeout := 10;
                        builder_args := [name (self s)] |}) s)
    ∧ (∀ s1, resume None s1
         = match bundle_send env symbol with
           | None => (Ok Returned, add_call (BundleSend symbol) s1)
           | Some e =>
               if is_authentication_failure e then
                 (Ok Returned, add_logged e (add_call (BundleSend symbol) s1))
               else (Raise e, add_call (BundleSend symbol) s1)
           end)
    ∧ (∀ e s1, resume (Some e) s1
         = if bool_decide (length (bundle_records symbol s1)
                           = length (bundle_records symbol s))
           then
             if is_authentication_failure e
             then (Ok Returned, add_logged e s1)
             else (Raise e, s1)
           else
             let raised := default e (bundle_send env symbol) in
             if is_authentication_failure raised
             then (Ok Returned,
                   add_logged raised (add_call (BundleSend symbol) s1))
             else (Raise raised, add_call (BundleSend symbol) s1)).
Proof.
  intros Hemit Hv Hid Hopen.
  unfold remote_signal_publisher. cbv [bind]. rewrite Hemit. cbn beta iota.
  rewrite Hv. unfold except_authentication_failure at 1, try_except at 1.
  cbv [bind]. rewrite Hid. cbn beta iota. unfold get at 1. cbn beta iota.
  unfold aenter, remote_signal_bundle_builder, invoke.
  cbv [bind modify get]. rewrite Hopen. cbn -[bundle_records].
  eexists. split; [reflexivity|]. split.
  - intros s1. unfold except_authentication_failure, try_except, aexit.
    cbv [bind]. cbn. destruct (bundle_send env symbol) as [e|]; cbn; [|done].
    by destruct (is_authentication_failure e).
  - intros e s1. unfold except_authentication_failure, try_except, aexit.
    cbv [bind]. cbn -[bundle_records].
    change (bundle_records symbol (add_call _ s))
      with (bundle_records symbol s).
    destruct (bool_decide _); cbn.
    + by destruct (is_authentication_failure e).
    + destruct (bundle_send env symbol) as [e2|]; cbn.
      * by destruct (is_authentication_failure e2).
      * by destruct (is_authentication_failure e).
Qed.

(** X5. When the block run inside an active remote signal scope raises,
    the bundle is released before the exception goes on: it is discarded
    when the block added no record for the symbol, and sent otherwise.
    The exception that then leaves the scope (the one of the block, or
    the one sending the bundle raised in its place) reaches the caller
    unchanged unless it is an [AuthenticationRequired] or an
    [UnavailableError], also when the block itself raised it: such an
    exception is caught by the scope and logged like a failure of the
    transport, the [async with] statement completes without a value and
    the caller sees no exception. *)
Theorem remote_signal_scope_block_failure env symbol s v identifier
    {A} (body : option SignalBundleBuilder → M state A) e s' :
  should_emit_trading_signal s = (Ok v, s) →
  truthy v = true →
  get_trading_signal_identifier s = (Ok identifier, s) →
  bundle_open env symbol = None →
  body (Some {| builder_symbol := symbol; builder_identifier := identifier;
                builder_timeout := 10; builder_args := [name (self s)] |})
    (add_call
       (BundleOpen {| builder_symbol := symbol;
                      builder_identifier := identifier;
                      builder_timeout := 10;
                      builder_args := [name (self s)] |}) s)
    = (Raise e, s') →
  async_with (remote_signal_publisher env symbol) body s
  = if bool_decide (length (bundle_records symbol s')
                    = length (bundle_records symbol s))
    then
      if is_authentication_failure e then (Ok None, add_logged e s')
      else (Raise e, s')
    else
      let raised := default e (bundle_send env symbol) in
      if is_authentication_failure raised
      then (Ok None, add_logged raised (add_call (BundleSend symbol) s'))
      else (Raise raised, add_call (BundleSend symbol) s').
Proof.
  intros Hemit Hv Hid Hopen Hbody.
  destruct (remote_signal_publisher_opened env symbol s v identifier
              Hemit Hv Hid Hopen) as (resume & Hrun & _ & Hthrow).
  unfold async_with, aenter. cbv [bind]. rewrite Hrun.
  cbv [ret attempt]. cbn beta iota. rewrite Hbody. cbn beta iota.
  unfold aexit. cbv [bind]. rewrite Hthrow.
  destruct (bool_decide _); cbv zeta.
  - by destruct (is_authentication_failure e).
  - by destruct (is_authentication_failure (default e _)).
Qed.

(** X6. A failure of the transport that is neither
    [AuthenticationRequired] nor [UnavailableError] is not absorbed by
    the scope.  Raised while the bundle is opened, it reaches the caller
    and the block is not run; raised while the bundle is sent, it reaches
    the caller after the block has run, and the effects of the block
    stay. *)
Theorem remote_signal_other_failure_propagates env symbol s v identifier
    {A} (body : option SignalBundleBuilder → M state A) e :
  should_emit_trading_signal s = (Ok v, s) →
  truthy v = true →
  get_trading_signal_identifier s = (Ok identifier, s) →
  is_authentication_failure e = false →
  (bundle_open env symbol = Some e →
   async_with (remote_signal_publisher env symbol) body s
   = (Raise e,
      add_call
        (BundleOpen {| builder_symbol := symbol;
                       builder_identifier := identifier;
                       builder_timeout := 10;
                       builder_args := [name (self s)] |}) s))
  ∧ (bundle_open env symbol = None →
     bundle_send env symbol = Some e →
     ∀ a s',
       body (Some {| builder_symbol := symbol;
                     builder_identifier := identifier;
                     builder_timeout := 10;
                     builder_args := [name (self s)] |})
         (add_call
            (BundleOpen {| builder_symbol := symbol;
                           builder_identifier := identifier;
                           builder_timeout := 10;
                           builder_args := [name (self s)] |}) s)
         = (Ok a, s') →
       async_with (remote_signal_publisher env symbol) body s
       = (Raise e, add_call (BundleSend symbol) s')).
Proof.
  intros Hemit Hv Hid He. split.
  - intros Hopen. unfold async_with, aenter, remote_signal_publisher.
    cbv [bind]. rewrite Hemit. cbn beta iota. rewrite Hv.
    unfold except_authentication_failure at 1, try_except at 1.
    cbv [bind]. rewrite Hid. cbn beta iota. unfold get at 1. cbn beta iota.
    unfold aenter, remote_signal_bundle_builder, invoke.
    cbv [bind modify lift_fault raise]. rewrite Hopen. cbn. by rewrite He.
  - intros Hopen Hsend a s' Hbody.
    destruct (remote_signal_publisher_opened env symbol s v identifier
                Hemit Hv Hid Hopen) as (resume & Hrun & Hleave & _).
    unfold async_with, aenter. cbv [bind]. rewrite Hrun.
    cbv [ret attempt]. cbn beta iota. rewrite Hbody. cbn beta iota.
    unfold aexit. cbv [bind]. by rewrite Hleave, Hsend, He.
Qed.

(** ** Saving on other paths *)

Ltac unfold_save_in H :=
  cbv [bind ret raise get modify invoke lift_fault lift_result attempt
       try_except exchange_manager_attr async_with aenter aexit database
       save_metadata save_transactions save_trades] in H.

Ltac reduce_save H Hem :=
  repeat (progress
            (rewrite ?Hem in H;
             cbn -[saved_run_metadata get_backtesting_metadata] in H)).

(** A save on a run whose flag already reads true. *)
Lemma save_with_flag_set env s em user_inputs :
  exchange_manager (self s) = Some em →
  are_metadata_saved (self s) = false →
  saved_run_metadata (bot_id em) s = true →
  run_db_flush env = None →
  get_user_inputs env = Ok user_inputs →
  store_transactions env = None →
  store_trades env = None →
  ∃ s',
    save_backtesting_data env s = (Ok tt, s')
    ∧ calls s' = (calls s ++
        [RunDbFlush (bot_id em); GetUserInputs (bot_id em);
         StoreTransactions; StoreTrades])%list
    ∧ self s' = self s
    ∧ metadata_db s' = metadata_db s
    ∧ pending s' = pending s
    ∧ SAVED_RUN_METADATA_DB_BY_BOT_ID s' = SAVED_RUN_METADATA_DB_BY_BOT_ID s.
Proof.
  intros Hem Hsaved Hflag Hflush Hinputs Htx Htrades.
  destruct (save_backtesting_data env s) as [r s'] eqn:Hrun.
  unfold save_backtesting_data in Hrun. unfold_save_in Hrun.
  rewrite Hsaved, Hflush, Hinputs, Htx, Htrades in Hrun.
  reduce_save Hrun Hem.
  change (saved_run_metadata (bot_id em) _)
    with (saved_run_metadata (bot_id em) s) in Hrun.
  rewrite Hflag in Hrun. reduce_save Hrun Hem.
  injection Hrun as <- <-. eexists. split; [reflexivity|]. cbn.
  rewrite <- !app_assoc. by repeat split.
Qed.

(** X7. The flag of the run suppresses the metadata write only.  On an
    instance that is not marked saved, after another instance of the run
    has written the record, [save_backtesting_data] still flushes the run
    database, reads the user inputs and stores transactions and trades;
    it opens no metadata writer, persists nothing and does not mark the
    instance saved, so the next call on that instance does the same
    again. *)
Theorem saved_flag_skips_only_the_write env env2 s em user_inputs
    user_inputs2 :
  exchange_manager (self s) = Some em →
  are_metadata_saved (self s) = false →
  saved_run_metadata (bot_id em) s = true →
  run_db_flush env = None →
  get_user_inputs env = Ok user_inputs →
  store_transactions env = None →
  store_trades env = None →
  run_db_flush env2 = None →
  get_user_inputs env2 = Ok user_inputs2 →
  store_transactions env2 = None →
  store_trades env2 = None →
  ∃ s' s'',
    save_backtesting_data env s = (Ok tt, s')
    ∧ save_backtesting_data env2 s' = (Ok tt, s'')
    ∧ calls s' = (calls s ++
        [RunDbFlush (bot_id em); GetUserInputs (bot_id em);
         StoreTransactions; StoreTrades])%list
    ∧ calls s'' = (calls s' ++
        [RunDbFlush (bot_id em); GetUserInputs (bot_id em);
         StoreTransactions; StoreTrades])%list
    ∧ are_metadata_saved (self s'') = false
    ∧ metadata_db s'' = metadata_db s.
Proof.
  intros Hem Hsaved Hflag Hflush Hinputs Htx Htrades Hflush2 Hinputs2 Htx2
    Htrades2.
  destruct (save_with_flag_set env s em user_inputs)
    as (s' & Hrun & Hcalls & Hself & Hdb & _ & Hf); try done.
  destruct (save_with_flag_set env2 s' em user_inputs2)
    as (s'' & Hrun2 & Hcalls2 & Hself2 & Hdb2 & _ & _); try done.
  - by rewrite Hself.
  - by rewrite Hself.
  - unfold saved_run_metadata in *. by rewrite Hf.
  - exists s', s''. repeat split; try done.
    + by rewrite Hself2, Hself.
    + by rewrite Hdb2.
Qed.

(** X8. When the flush of the run database, reading the user inputs, or
    storing transactions or trades raises, [save_backtesting_data] raises
    that exception at once: the flag of the run is not touched, no
    metadata writer is opened, nothing is persisted and the instance is
    left as it was. *)
Theorem save_failure_before_write env s em e :
  exchange_manager (self s) = Some em →
  are_metadata_saved (self s) = false →
  (run_db_flush env = Some e
   ∨ (run_db_flush env = None ∧ get_user_inputs env = Raise e)
   ∨ (run_db_flush env = None ∧ is_Ok (get_user_inputs env) = true
      ∧ store_transactions env = Some e)
   ∨ (run_db_flush env = None ∧ is_Ok (get_user_inputs env) = true
      ∧ store_transactions env = None ∧ store_trades env = Some e)) →
  ∃ s' made,
    save_backtesting_data env s = (Raise e, s')
    ∧ SAVED_RUN_METADATA_DB_BY_BOT_ID s' = SAVED_RUN_METADATA_DB_BY_BOT_ID s
    ∧ metadata_db s' = metadata_db s
    ∧ self s' = self s
    ∧ calls s' = (calls s ++ made)%list
    ∧ made `prefix_of`
        [RunDbFlush (bot_id em); GetUserInputs (bot_id em);
         StoreTransactions; StoreTrades].
Proof.
  intros Hem Hsaved Hfail.
  destruct (save_backtesting_data env s) as [r s'] eqn:Hrun.
  unfold save_backtesting_data in Hrun. unfold_save_in Hrun.
  rewrite Hsaved in Hrun.
  destruct Hfail as [Hf | [[Hf Hi] | [(Hf & Hi & Ht) | (Hf & Hi & Ht & Hr)]]];
    rewrite ?Hf in Hrun;
    try (destruct (get_user_inputs env) as [user_inputs|]; [|done]);
    rewrite ?Hi, ?Ht, ?Hr in Hrun; reduce_save Hrun Hem;
    injection Hrun as <- <-; eexists _, _; (split; [reflexivity|]); cbn;
    rewrite <- ?app_assoc; cbn;
    (do 4 (split; [reflexivity|])).
  - by exists [GetUserInputs (bot_id em); StoreTransactions; StoreTrades].
  - by exists [StoreTransactions; StoreTrades].
  - by exists [StoreTrades].
  - by exists [].
Qed.


(** X10. On an exchange that is not a backtesting one, [stop()] saves
    nothing: whatever the storage collaborators would answer, it calls
    none of them, persists no record and leaves the flags of all runs
    and the saved mark of the instance as they were; its calls are the
    stops of producers, then of consumers. *)
Theorem live_stop_saves_nothing env s em r s' :
  exchange_manager (self s) = Some em →
  is_backtesting em = false →
  stop env s = (r, s') →
  metadata_db s' = metadata_db s
  ∧ SAVED_RUN_METADATA_DB_BY_BOT_ID s' = SAVED_RUN_METADATA_DB_BY_BOT_ID s
  ∧ are_metadata_saved (self s') = are_metadata_saved (self s)
  ∧ ∃ ps cs,
      calls s' = (calls s ++ (ProducerStop <$> ps)
                  ++ (ConsumerStop <$> cs))%list
      ∧ ps `prefix_of` producers (self s)
      ∧ cs `prefix_of` consumers (self s).
Proof.
  intros Hem Hbt Hrun. unfold stop in Hrun. cbv [bind] in Hrun.
  unfold exchange_manager_attr at 1 in Hrun. cbv [bind get ret] in Hrun.
  rewrite Hem, Hbt in Hrun. cbn beta iota in Hrun.
  destruct (for_each _ (producers (self s)) s) as [rp s2] eqn:Hps.
  apply for_each_invoke in Hps
    as (ps & Hpp & _ & Hpc & Hpself & Hpf & Hpd & _).
  destruct rp as [[]|e].
  2:{ injection Hrun as <- <-. rewrite Hpself.
      repeat split; try done. exists ps, []. cbn. rewrite app_nil_r.
      repeat split; try done. apply prefix_nil. }
  destruct (for_each _ (consumers (self s2)) s2) as [rc s3] eqn:Hcs.
  apply for_each_invoke in Hcs
    as (cs & Hcp & _ & Hcc & Hcself & Hcf & Hcd & _).
  rewrite Hpself in Hcp.
  assert (Hcalls : calls s3 = (calls s ++ (ProducerStop <$> ps)
                               ++ (ConsumerStop <$> cs))%list)
    by (by rewrite Hcc, Hpc, <- app_assoc).
  destruct rc as [[]|e]; [cbv [modify] in Hrun|];
    injection Hrun as <- <-; cbn; rewrite ?Hcself, ?Hpself;
    (split; [congruence|]); (split; [congruence|]); (split; [done|]);
    exists ps, cs; by repeat split.
Qed.

End MoreProperties.

Section MetadataProperties.
Context {F : Type} `{PyFloat F} `{Constants}.
Implicit Types (s : @state F) (env : @Collaborators F) (em : @ExchangeManager F).

(** ** Dictionaries *)

Lemma dict_get_set {V} (k k' : string) (v : V) (d : list (string * V)) :
  dict_get k' (dict_set k v d)
  = if bool_decide (k' = k) then Some v else dict_get k' d.
Proof.
  unfold dict_get. induction d as [|[k0 v0] d IH]; cbn.
  - repeat case_bool_decide; subst; cbn; congruence.
  - destruct (bool_decide (k0 = k)) eqn:Hk0; cbn.
    + apply bool_decide_eq_true in Hk0 as ->.
      repeat case_bool_decide; subst; cbn; congruence.
    + apply bool_decide_eq_false in Hk0.
      destruct (bool_decide (k0 = k')) eqn:Hk0'; cbn.
      * apply bool_decide_eq_true in Hk0' as ->.
        by rewrite bool_decide_false by congruence.
      * apply IH.
Qed.

Lemma dict_get_pop {V} (k k' : string) (d : list (string * V)) :
  dict_get k' (dict_pop k d)
  = if bool_decide (k' = k) then None else dict_get k' d.
Proof.
  unfold dict_get, dict_pop. induction d as [|[k0 v0] d IH].
  - cbn. by case_bool_decide.
  - rewrite filter_cons. destruct (decide _) as [Hne|Heq]; cbn in *.
    + destruct (bool_decide (k0 = k')) eqn:Hk0; cbn.
      * apply bool_decide_eq_true in Hk0 as ->.
        by rewrite bool_decide_false.
      * apply IH.
    + apply dec_stable in Heq as ->. rewrite IH.
      repeat case_bool_decide; subst; cbn; congruence.
Qed.

Lemma dict_get_pop_available (p : Portfolio F) c :
  dict_get c (pop_available p) = dict_pop "available" <$> dict_get c p.
Proof.
  unfold dict_get, pop_available. induction p as [|[c0 v0] p IH]; cbn; [done|].
  case_bool_decide; cbn; [done|]. apply IH.
Qed.

Lemma set_positions_lookup ps (p p' : Portfolio F) c k :
  set_positions ps p = Ok p' →
  dict_get c p' ≫= dict_get k
  = match (if bool_decide (k = "position")
           then last (filter (λ position, position_currency position = c) ps)
           else None) with
    | Some position => Some (float_of_decimal (position_quantity position))
    | None => dict_get c p ≫= dict_get k
    end.
Proof.
  revert p. induction ps as [|position ps IH]; intros p Hrun; cbn in Hrun.
  - injection Hrun as <-. cbn. by case_bool_decide.
  - destruct (dict_get (position_currency position) p) as [values|] eqn:Hheld;
      [|done].
    rewrite (IH _ Hrun). rewrite filter_cons.
    destruct (bool_decide (k = "position")) eqn:Hk.
    + apply bool_decide_eq_true in Hk as ->.
      destruct (decide (position_currency position = c)) as [<-|Hother].
      * rewrite last_cons.
        destruct (last (filter _ ps)); [done|].
        rewrite dict_get_set, bool_decide_true by done. cbn.
        by rewrite dict_get_set, bool_decide_true.
      * destruct (last (filter _ ps)); [done|].
        by rewrite dict_get_set, bool_decide_false.
    + apply bool_decide_eq_false in Hk.
      rewrite dict_get_set. case_bool_decide as Hc; [|done].
      subst c. cbn. rewrite dict_get_set, bool_decide_false by done.
      by rewrite Hheld.
Qed.

Lemma set_positions_keys ps (p p' : Portfolio F) c :
  set_positions ps p = Ok p' →
  is_Some (dict_get c p') ↔ is_Some (dict_get c p).
Proof.
  revert p. induction ps as [|position ps IH]; intros p Hrun; cbn in Hrun.
  - by injection Hrun as <-.
  - destruct (dict_get (position_currency position) p) as [values|] eqn:Hheld;
      [|done].
    rewrite (IH _ Hrun), dict_get_set. case_bool_decide; [|done].
    subst. by rewrite Hheld.
Qed.

Lemma set_positions_outcome ps (p : Portfolio F) :
  match set_positions ps p with
  | Ok _ =>
      Forall (λ position, is_Some (dict_get (position_currency position) p))
        ps
  | Raise e =>
      ∃ held position rest,
        ps = (held ++ position :: rest)%list
        ∧ Forall (λ position,
                    is_Some (dict_get (position_currency position) p)) held
        ∧ dict_get (position_currency position) p = None
        ∧ e = KeyError (position_currency position)
  end.
Proof.
  revert p. induction ps as [|position ps IH]; intros p; cbn; [done|].
  destruct (dict_get (position_currency position) p) as [values|] eqn:Hheld.
  - specialize (IH (dict_set (position_currency position)
                      (dict_set "position"
                         (float_of_decimal (position_quantity position))
                         values) p)).
    assert (Hkeys : ∀ c,
      is_Some (dict_get c (dict_set (position_currency position)
                 (dict_set "position"
                    (float_of_decimal (position_quantity position)) values)
                 p))
      ↔ is_Some (dict_get c p)).
    { intros c. rewrite dict_get_set. case_bool_decide; [|done].
      subst. by rewrite Hheld. }
    destruct (set_positions ps _) as [p'|e].
    + constructor; [by rewrite Hheld|].
      eapply Forall_impl; [exact IH|]. intros x. apply Hkeys.
    + destruct IH as (held & missing & rest & -> & Hheld' & Hmissing & ->).
      exists (position :: held), missing, rest. repeat split.
      * constructor; [by rewrite Hheld|].
        eapply Forall_impl; [exact Hheld'|]. intros x. apply Hkeys.
      * destruct (dict_get (position_currency missing) p) eqn:Hm; [|done].
        assert (is_Some (dict_get (position_currency missing)
          (dict_set (position_currency position)
             (dict_set "position"
                (float_of_decimal (position_quantity position)) values) p)))
          as [? Hsome] by (apply Hkeys; by rewrite Hm).
        congruence.
  - exists [], position, ps. by repeat split.
Qed.

(** X11. The portfolio written as the end portfolio of a futures run:
    when every position is in a currency the portfolio holds, each
    holding has lost its ["available"] entry, has as ["position"] the
    quantity of the last position in its currency (what the portfolio
    had there when there is none) and keeps every other entry. *)
Theorem end_portfolio_holdings ps (p p' : Portfolio F) c k :
  set_positions ps (pop_available p) = Ok p' →
  dict_get c p' ≫= dict_get k
  = if bool_decide (k = "position") then
      match last (filter (λ position, position_currency position = c) ps)
      with
      | Some position => Some (float_of_decimal (position_quantity position))
      | None => dict_get c p ≫= dict_get "position"
      end
    else if bool_decide (k = "available") then None
    else dict_get c p ≫= dict_get k.
Proof.
  intros Hrun. rewrite (set_positions_lookup _ _ _ _ _ Hrun).
  rewrite dict_get_pop_available.
  assert (Hpop : (dict_pop "available" <$> dict_get c p) ≫= dict_get k
                 = if bool_decide (k = "available") then None
                   else dict_get c p ≫= dict_get k).
  { destruct (dict_get c p) as [values|]; cbn; [apply dict_get_pop|].
    by case_bool_decide. }
  rewrite Hpop. destruct (bool_decide (k = "position")) eqn:Hk; [|done].
  apply bool_decide_eq_true in Hk as ->. by destruct (last _).
Qed.

(** X12. The loop over the user inputs: the value kept for an input name
    of a tentacle is the value of the last user input of that tentacle and
    name that is not a nested configuration, and a tentacle has an entry
    exactly when it has such an input. *)
Theorem format_user_inputs_lookup (user_inputs : list (@UserInput F)) t n :
  dict_get t (format_user_inputs user_inputs []) ≫= dict_get n
  = input_value
    <$> last (filter (λ user_input,
                        is_nested_config user_input = false
                        ∧ tentacle user_input = t
                        ∧ input_name user_input = n) user_inputs)
  ∧ (is_Some (dict_get t (format_user_inputs user_inputs []))
     ↔ Exists (λ user_input,
                 is_nested_config user_input = false
                 ∧ tentacle user_input = t) user_inputs).
Proof.
  assert (Hvalues : ∀ formatted,
    dict_get t (format_user_inputs user_inputs formatted) ≫= dict_get n
    = match last (filter (λ user_input,
                            is_nested_config user_input = false
                            ∧ tentacle user_input = t
                            ∧ input_name user_input = n) user_inputs) with
      | Some user_input => Some (input_value user_input)
      | None => dict_get t formatted ≫= dict_get n
      end).
  { induction user_inputs as [|u us IH]; intros formatted;
      cbn [format_user_inputs]; [done|].
    rewrite IH, filter_cons.
    destruct (decide _) as [(Hnested & Ht & Hn)|Hother].
    - rewrite last_cons. destruct (last (filter _ us)); [done|].
      rewrite Hnested. cbn [negb]. subst t n.
      destruct (dict_get (tentacle u) formatted);
        rewrite dict_get_set, bool_decide_true by done; cbn [mbind option_bind];
        [by rewrite dict_get_set, bool_decide_true|].
      unfold dict_get. cbn. by rewrite bool_decide_true.
    - destruct (last (filter _ us)); [done|].
      destruct (is_nested_config u) eqn:Hnested; cbn [negb]; [done|].
      destruct (dict_get (tentacle u) formatted) as [inputs|] eqn:Hinputs;
        rewrite dict_get_set;
        destruct (bool_decide (t = tentacle u)) eqn:Ht; try done;
        apply bool_decide_eq_true in Ht as ->; cbn [mbind option_bind].
      + rewrite dict_get_set, Hinputs. cbn [mbind option_bind].
        destruct (bool_decide (n = input_name u)) eqn:Hn; [|done].
        apply bool_decide_eq_true in Hn as ->. by destruct Hother.
      + rewrite Hinputs. unfold dict_get. cbn.
        destruct (bool_decide (input_name u = n)) eqn:Hn; [|done].
        apply bool_decide_eq_true in Hn as <-. by destruct Hother. }
  assert (Hkeys : ∀ formatted,
    is_Some (dict_get t (format_user_inputs user_inputs formatted))
    ↔ is_Some (dict_get t formatted)
      ∨ Exists (λ user_input,
                  is_nested_config user_input = false
                  ∧ tentacle user_input = t) user_inputs).
  { clear Hvalues.
    induction user_inputs as [|u us IH]; intros formatted;
      cbn [format_user_inputs].
    - rewrite Exists_nil. tauto.
    - rewrite IH, Exists_cons.
      destruct (is_nested_config u) eqn:Hnested; cbn [negb].
      + split; [intros [?|?]; auto|intros [?|[[? _]|?]]; auto; done].
      + destruct (dict_get (tentacle u) formatted) as [inputs|] eqn:Hinputs;
          rewrite dict_get_set;
          destruct (bool_decide (t = tentacle u)) eqn:Ht;
          [apply bool_decide_eq_true in Ht as ->
          |apply bool_decide_eq_false in Ht
          |apply bool_decide_eq_true in Ht as ->
          |apply bool_decide_eq_false in Ht].
        * rewrite Hinputs. split; intros; left; by eexists.
        * split; [intros [?|?]; auto|intros [?|[[_ ?]|?]]; auto; congruence].
        * rewrite Hinputs.
          split; [intros _; auto|intros _; left; by eexists].
        * split; [intros [?|?]; auto|intros [?|[[_ ?]|?]]; auto; congruence]. }
  split.
  - rewrite Hvalues. by destruct (last _).
  - rewrite Hkeys. cbn. split; [intros [[? [=]]|?]; done|auto].
Qed.

Ltac lookup_metadata :=
  apply metadata_lookup; [vm_compute; reflexivity|];
  repeat first [ apply list_elem_of_here | apply list_elem_of_further ].

(** X13. When [get_backtesting_metadata] answers and when it raises.  On
    a spot exchange it always answers, with leverage 0.  On a futures
    exchange it raises [KeyError] for the first position whose currency
    the end portfolio does not hold, otherwise [IndexError] when the
    exchange gives contracts and there is no trading pair, and otherwise
    answers with the leverage of the contract of the first pair (0 when
    the exchange gives no contracts).  It never changes the instance. *)
Theorem backtesting_metadata_outcome env user_inputs run_dbs_identifier
    s em :
  exchange_manager (self s) = Some em →
  let data := exchange_personal_data em in
  let held := pop_available (portfolio_to_float env (portfolio data)) in
  let is_held position :=
    is_Some (dict_get (position_currency position) held) in
  let run :=
    get_backtesting_metadata env user_inputs run_dbs_identifier s in
  run.2 = s
  ∧ (is_future em = false →
     ∃ metadata,
       run.1 = Ok metadata
       ∧ metadata !! LEVERAGE = Some (VInt 0)
       ∧ metadata !! END_PORTFOLIO = Some (VStr (str_portfolio held)))
  ∧ (is_future em = true →
     match run.1 with
     | Ok metadata =>
         Forall is_held (positions data)
         ∧ metadata !! LEVERAGE
           = match get_pair_future_contract em, trading_pairs em with
             | Some current_leverage, symbol :: _ =>
                 Some (VFloat (float_of_decimal (current_leverage symbol)))
             | Some _, [] => None
             | None, _ => Some (VInt 0)
             end
     | Raise e =>
         (∃ before position rest,
            positions data = (before ++ position :: rest)%list
            ∧ Forall is_held before
            ∧ ¬ is_held position
            ∧ e = KeyError (position_currency position))
         ∨ (Forall is_held (positions data)
            ∧ is_Some (get_pair_future_contract em)
            ∧ trading_pairs em = []
            ∧ e = IndexError)
     end).
Proof.
  intros Hem data held is_held run. split.
  { apply get_backtesting_metadata_pure. }
  subst run.
  unfold get_backtesting_metadata, exchange_manager_attr,
    get_additional_backtesting_metadata.
  cbv [bind get ret raise lift_result]. rewrite Hem. cbn beta iota.
  change (id em) with em. fold data. fold held.
  split; intros Hfuture; rewrite Hfuture; cbn beta iota.
  - eexists. split; [reflexivity|]. split; lookup_metadata.
  - pose proof (set_positions_outcome (positions data) held) as Hpositions.
    destruct (set_positions (positions data) held) as [end_portfolio|e];
      cbn beta iota.
    + destruct (get_pair_future_contract em) as [current_leverage|];
        cbn beta iota.
      * destruct (trading_pairs em) as [|symbol symbols]; cbn beta iota.
        -- right. by repeat split.
        -- split; [done|]. lookup_metadata.
      * split; [done|]. lookup_metadata.
    + left. destruct Hpositions
        as (before & position & rest & Hsplit & Hbefore & Hmissing & ->).
      exists before, position, rest. repeat split; try done.
      unfold is_held. rewrite Hmissing. by intros [? ?].
Qed.

Lemma backtesting_metadata_counter_values env user_inputs
    run_dbs_identifier s em metadata s' :
  exchange_manager (self s) = Some em →
  get_backtesting_metadata env user_inputs run_dbs_identifier s
    = (Ok metadata, s') →
  let data := exchange_personal_data em in
  let entries :=
    Z.of_nat (length (filter (λ trade, trade_status trade = FILLED
                                       ∧ trade_side trade = BUY)
                        (trade_history data))) in
  let wins :=
    float_round_int
      (float_div
         (float_mul
            (float_round (float_of_decimal (win_rate data * 100)%Q) 3)
            (float_of_int entries))
         (float_of_int 100)) in
  metadata !! ENTRIES = Some (VInt entries)
  ∧ metadata !! WINS = Some (VInt wins)
  ∧ metadata !! LOSES = Some (VInt (entries - wins))
  ∧ metadata !! TRADES
    = Some (VInt (Z.of_nat (length (trade_history data)))).
Proof.
  intros Hem Hrun data.
  assert (Hentries :
    filter (λ trade, is_entry trade = true) (trade_history data)
    = filter (λ trade, trade_status trade = FILLED ∧ trade_side trade = BUY)
        (trade_history data)).
  { apply list_filter_iff. intros trade. unfold is_entry.
    rewrite andb_true_iff, !bool_decide_eq_true. done. }
  cbv zeta. rewrite <- Hentries.
  unfold get_backtesting_metadata, exchange_manager_attr,
    get_additional_backtesting_metadata in Hrun.
  cbv [bind get ret raise lift_result] in Hrun. rewrite Hem in Hrun.
  cbn beta iota in Hrun. change (id em) with em in Hrun.
  fold data in Hrun.
  destruct (is_future em); cbn beta iota in Hrun;
    [ destruct (set_positions _ _) as [end_portfolio|]; [|done];
      destruct (get_pair_future_contract em) as [current_leverage|];
      [ destruct (trading_pairs em) as [|symbol symbols]; [done|] | ] | ];
    apply ok_pair_inv in Hrun as [<- _];
    repeat split; lookup_metadata.
Qed.

(** X14. The counters of the record: the entries are the trades that are
    filled and bought, the trades are all the trades of the history, the
    wins and the losses add up to the entries, and there are no more
    entries than trades. *)
Theorem backtesting_metadata_counters env user_inputs run_dbs_identifier
    s em metadata s' :
  exchange_manager (self s) = Some em →
  get_backtesting_metadata env user_inputs run_dbs_identifier s
    = (Ok metadata, s') →
  let trades := trade_history (exchange_personal_data em) in
  ∃ entries wins loses : Z,
    metadata !! ENTRIES = Some (VInt entries)
    ∧ metadata !! WINS = Some (VInt wins)
    ∧ metadata !! LOSES = Some (VInt loses)
    ∧ metadata !! TRADES = Some (VInt (Z.of_nat (length trades)))
    ∧ entries
      = Z.of_nat (length (filter (λ trade, trade_status trade = FILLED
                                           ∧ trade_side trade = BUY) trades))
    ∧ (wins + loses = entries)%Z
    ∧ (0 ≤ entries ≤ Z.of_nat (length trades))%Z.
Proof.
  intros Hem Hrun trades.
  destruct (backtesting_metadata_counter_values _ _ _ _ _ _ _ Hem Hrun)
    as (Hentries & Hwins & Hloses & Htrades).
  eexists _, _, _.
  split; [exact Hentries|]. split; [exact Hwins|]. split; [exact Hloses|].
  split; [exact Htrades|]. split; [reflexivity|]. subst trades.
  split; [lia|]. split; [lia|]. apply Nat2Z.inj_le, length_filter.
Qed.

End MetadataProperties.

Section StrategyProperties.
Context {F : Type} `{PyFloat F} `{StrategyConstants}.
Implicit Types (stored config : gmap string (@pyval F)).

Lemma config_or_stored_idemp
    (trading_mode_config : option (gmap string (@pyval F))) stored :
  config_or_stored (Some (config_or_stored trading_mode_config stored)) stored
  = config_or_stored trading_mode_config stored.
Proof.
  unfold config_or_stored. destruct trading_mode_config as [config|].
  - repeat case_bool_decide; congruence.
  - by case_bool_decide.
Qed.

(** X16. The default strategies of a mode.  The configuration read is the
    one passed when it is a non-empty dictionary, the stored one
    otherwise.  Its default configuration is answered when it has one,
    whether or not it lists required strategies; otherwise its required
    strategies are answered; with neither, an exception is raised. *)
Theorem default_strategies_resolution stored
    (trading_mode_config : option (gmap string (@pyval F))) :
  let config :=
    match trading_mode_config with
    | Some passed => if bool_decide (passed = ∅) then stored else passed
    | None => stored
    end in
  get_default_strategies stored trading_mode_config
  = match config !! TENTACLE_DEFAULT_CONFIG,
          config !! TRADING_MODE_REQUIRED_STRATEGIES with
    | Some default_config, _ => Ok default_config
    | None, Some strategies => Ok strategies
    | None, None =>
        Raise (OtherException
                 ("'" ++ TRADING_MODE_REQUIRED_STRATEGIES
                  ++ "' is missing in configuration file"))
    end.
Proof.
  intros config. unfold get_default_strategies.
  change config with (config_or_stored trading_mode_config stored).
  clear config. set (config := config_or_stored _ _).
  destruct (config !! TENTACLE_DEFAULT_CONFIG); [done|].
  unfold get_required_strategies_names_and_count.
  subst config. rewrite config_or_stored_idemp.
  by destruct (_ !! TRADING_MODE_REQUIRED_STRATEGIES).
Qed.

(** X17. The required strategies of a mode.  A non-empty configuration
    that is passed hides the stored one: when it does not list required
    strategies the call raises, whatever the stored configuration lists.
    An empty configuration that is passed is ignored.  When the
    strategies are listed, their minimal count is the configured one, and
    1 when none is configured. *)
Theorem required_strategies_resolution stored stored' passed :
  passed ≠ ∅ →
  get_required_strategies_names_and_count stored (Some passed)
  = get_required_strategies_names_and_count stored' (Some passed)
  ∧ (passed !! TRADING_MODE_REQUIRED_STRATEGIES = None →
     is_Ok (get_required_strategies_names_and_count stored (Some passed))
     = false)
  ∧ get_required_strategies_names_and_count stored (Some ∅)
    = get_required_strategies_names_and_count stored None
  ∧ (∀ strategies,
       stored !! TRADING_MODE_REQUIRED_STRATEGIES = Some strategies →
       get_required_strategies_names_and_count stored None
       = Ok (strategies,
             default (VInt 1)
               (stored !! TRADING_MODE_REQUIRED_STRATEGIES_MIN_COUNT))).
Proof.
  intros Hpassed.
  unfold get_required_strategies_names_and_count, config_or_stored.
  rewrite bool_decide_false by done.
  rewrite bool_decide_true by done.
  repeat split.
  - by intros ->.
  - intros strategies ->. unfold get_required_strategies_count.
    by destruct (stored !! TRADING_MODE_REQUIRED_STRATEGIES_MIN_COUNT).
Qed.

End StrategyProperties.

Section StartupProperties.
Context {F : Type} `{PyFloat F} `{Constants} `{StartupConstants}.
Implicit Types (st : @startup_state F) (env : @StartupCollaborators F)
  (em : @ExchangeManager F) (live : @LiveData F).

Lemma set_mode_state_id st : set_mode_state (mode_state st) st = st.
Proof. by destruct st. Qed.

Lemma set_self_id (s : @state F) : set_self (self s) s = s.
Proof. by destruct s. Qed.

Lemma lift_mode_attr {A} attr (f : ExchangeManager → A) st :
  lift_mode (exchange_manager_attr attr f) st
  = match exchange_manager (self (mode_state st)) with
    | Some em => (Ok (f em), st)
    | None => (Raise (AttributeError attr), st)
    end.
Proof.
  unfold lift_mode, exchange_manager_attr. cbv [bind get ret raise].
  destruct (exchange_manager (self (mode_state st)));
    by rewrite set_mode_state_id.
Qed.

Lemma call_out_run c fault st :
  call_out c fault st
  = (match fault with Some e => Raise e | None => Ok tt end,
     add_startup_call c st).
Proof. unfold call_out. cbv [bind modify lift_fault]. by destruct fault. Qed.

Ltac reduce_in H :=
  cbv [lift_fault ret raise get] in H; cbn beta iota in H.

Lemma update_self_run (f : @TradingMode F → @TradingMode F) st :
  update_self f st
  = (Ok tt, set_mode_state (set_self (f (self (mode_state st)))
                              (mode_state st)) st).
Proof. reflexivity. Qed.

Lemma get_live_metadata_pure live (s : @state F) :
  (get_live_metadata live s).2 = s.
Proof.
  unfold get_live_metadata, exchange_manager_attr,
    get_additional_backtesting_metadata.
  cbv [bind get ret raise].
  destruct (exchange_manager (self s)) as [em|]; cbn; [|done].
  destruct (config_exchanges live); cbn; [|done].
  by destruct (is_future em), (pair_contracts live).
Qed.

(** ** Producers *)

Lemma create_mode_producer_step env class st em r st' :
  exchange_manager (self (mode_state st)) = Some em →
  _create_mode_producer env class st = (r, st') →
  mode_state st' = mode_state st
  ∧ attributes st' = attributes st
  ∧ ∃ made,
      startup_calls st' = (startup_calls st ++ made)%list
      ∧ made `prefix_of` [ProducerNew class (em_id em); ProducerRun class]
      ∧ (∀ producer, r = Ok producer →
           producer = class
           ∧ made = [ProducerNew class (em_id em); ProducerRun class]).
Proof.
  intros Hem Hrun. unfold _create_mode_producer in Hrun.
  cbv [bind] in Hrun. rewrite lift_mode_attr, Hem in Hrun.
  destruct (get_chan env MODE_CHANNEL (em_id em)); reduce_in Hrun.
  { injection Hrun as <- <-. repeat split. exists [].
    rewrite app_nil_r. repeat split; try done. apply prefix_nil. }
  rewrite call_out_run in Hrun.
  destruct (producer_new env class).
  { injection Hrun as <- <-. repeat split. eexists [_]. cbn.
    repeat split; try done. by apply prefix_cons, prefix_nil. }
  rewrite call_out_run in Hrun.
  destruct (producer_run env class); injection Hrun as <- <-;
    repeat split; eexists [_; _]; cbn; rewrite <- app_assoc;
    repeat split; try done; congruence.
Qed.

Lemma producers_comprehension env classes st em r st' :
  exchange_manager (self (mode_state st)) = Some em →
  list_comprehension (_create_mode_producer env) classes st = (r, st') →
  mode_state st' = mode_state st
  ∧ attributes st' = attributes st
  ∧ ∃ made,
      startup_calls st' = (startup_calls st ++ made)%list
      ∧ (∀ created, r = Ok created →
           created = classes
           ∧ made = classes ≫= λ class,
                      [ProducerNew class (em_id em); ProducerRun class]).
Proof.
  revert st r st'.
  induction classes as [|class classes IH]; intros st r st' Hem Hrun;
    cbn in Hrun.
  - injection Hrun as <- <-. repeat split. exists [].
    rewrite app_nil_r. split; [done|]. by intros ? [= <-].
  - cbv [bind] in Hrun.
    destruct (_create_mode_producer env class st) as [r1 st1] eqn:Hfirst.
    apply (create_mode_producer_step _ _ _ em) in Hfirst
      as (Hmode1 & Hattrs1 & made1 & Hcalls1 & _ & Hok1); [|done].
    destruct r1 as [producer|e].
    2:{ injection Hrun as <- <-. repeat split; try done.
        exists made1. by split. }
    destruct (Hok1 producer eq_refl) as [-> ->].
    destruct (list_comprehension _ classes st1) as [r2 st2] eqn:Hrest.
    apply IH in Hrest as (Hmode2 & Hattrs2 & made2 & Hcalls2 & Hok2);
      [|by rewrite Hmode1].
    assert (Hcalls : startup_calls st2
              = (startup_calls st
                 ++ [ProducerNew class (em_id em); ProducerRun class]
                 ++ made2)%list)
      by (by rewrite Hcalls2, Hcalls1, <- app_assoc).
    destruct r2 as [created|e]; injection Hrun as <- <-;
      (split; [congruence|]); (split; [congruence|]);
      eexists; (split; [exact Hcalls|]); [|done].
    intros ? [= <-]. destruct (Hok2 created eq_refl) as [-> ->]. done.
Qed.

(** ** Consumers *)

Lemma create_mode_consumer_step env class st em r st' :
  exchange_manager (self (mode_state st)) = Some em →
  _create_mode_consumer env class st = (r, st') →
  let subscribed :=
    [ConsumerNew class;
     NewModeConsumer (em_id em) class (name (self (mode_state st)))
       (or_wildcard (cryptocurrency (attributes st)))
       (or_wildcard (symbol (attributes st)))
       (or_wildcard (time_frame (attributes st)))] in
  mode_state st' = mode_state st
  ∧ attributes st' = attributes st
  ∧ ∃ made,
      startup_calls st' = (startup_calls st ++ made)%list
      ∧ made `prefix_of` subscribed
      ∧ (∀ consumer, r = Ok consumer →
           consumer = class ∧ made = subscribed).
Proof.
  intros Hem Hrun subscribed. unfold _create_mode_consumer in Hrun.
  cbv [bind] in Hrun. rewrite call_out_run in Hrun.
  destruct (consumer_new env class).
  { injection Hrun as <- <-. repeat split. eexists [_]. cbn.
    repeat split; try done. by apply prefix_cons, prefix_nil. }
  rewrite lift_mode_attr in Hrun.
  cbn [mode_state attributes add_startup_call] in Hrun. rewrite Hem in Hrun.
  destruct (get_chan env MODE_CHANNEL (em_id em)); reduce_in Hrun.
  { injection Hrun as <- <-. repeat split. eexists [_]. cbn.
    repeat split; try done. by apply prefix_cons, prefix_nil. }
  rewrite call_out_run in Hrun.
  destruct (new_consumer env class); injection Hrun as <- <-;
    repeat split; eexists [_; _]; cbn; rewrite <- app_assoc;
    repeat split; try done; congruence.
Qed.

Lemma consumers_comprehension env classes st em r st' :
  exchange_manager (self (mode_state st)) = Some em →
  list_comprehension (_create_mode_consumer env) classes st = (r, st') →
  mode_state st' = mode_state st
  ∧ attributes st' = attributes st
  ∧ ∃ made,
      startup_calls st' = (startup_calls st ++ made)%list
      ∧ (∀ created, r = Ok created →
           created = classes
           ∧ made = classes ≫= λ class,
                      [ConsumerNew class;
                       NewModeConsumer (em_id em) class
                         (name (self (mode_state st)))
                         (or_wildcard (cryptocurrency (attributes st)))
                         (or_wildcard (symbol (attributes st)))
                         (or_wildcard (time_frame (attributes st)))]).
Proof.
  revert st r st'.
  induction classes as [|class classes IH]; intros st r st' Hem Hrun;
    cbn in Hrun.
  - injection Hrun as <- <-. repeat split. exists [].
    rewrite app_nil_r. split; [done|]. by intros ? [= <-].
  - cbv [bind] in Hrun.
    destruct (_create_mode_consumer env class st) as [r1 st1] eqn:Hfirst.
    apply (create_mode_consumer_step _ _ _ em) in Hfirst
      as (Hmode1 & Hattrs1 & made1 & Hcalls1 & _ & Hok1); [|done].
    destruct r1 as [consumer|e].
    2:{ injection Hrun as <- <-. repeat split; try done.
        exists made1. by split. }
    destruct (Hok1 consumer eq_refl) as [-> ->].
    destruct (list_comprehension _ classes st1) as [r2 st2] eqn:Hrest.
    apply IH in Hrest as (Hmode2 & Hattrs2 & made2 & Hcalls2 & Hok2);
      [|by rewrite Hmode1].
    rewrite Hmode1, Hattrs1 in Hok2.
    assert (Hcalls : startup_calls st2
              = (startup_calls st
                 ++ [ConsumerNew class;
                     NewModeConsumer (em_id em) class
                       (name (self (mode_state st)))
                       (or_wildcard (cryptocurrency (attributes st)))
                       (or_wildcard (symbol (attributes st)))
                       (or_wildcard (time_frame (attributes st)))]
                 ++ made2)%list)
      by (by rewrite Hcalls2, Hcalls1, <- app_assoc).
    destruct r2 as [created|e]; injection Hrun as <- <-;
      (split; [congruence|]); (split; [congruence|]);
      eexists; (split; [exact Hcalls|]); [|done].
    intros ? [= <-]. destruct (Hok2 created eq_refl) as [-> ->]. done.
Qed.

Lemma add_temp_consumers_step env st em r st' :
  exchange_manager (self (mode_state st)) = Some em →
  _add_temp_consumers env st = (r, st') →
  mode_state st' = mode_state st
  ∧ attributes st' = attributes st
  ∧ ∃ made,
      startup_calls st' = (startup_calls st ++ made)%list
      ∧ (∀ created, r = Ok created →
           if is_backtesting em
           then created = [] ∧ made = []
           else created = [trades_consumer env]
                ∧ made = [NewTradesConsumer (em_id em)
                            (symbol (attributes st))]).
Proof.
  intros Hem Hrun. unfold _add_temp_consumers in Hrun.
  cbv [bind] in Hrun. rewrite lift_mode_attr, Hem in Hrun.
  destruct (is_backtesting em); cbn [negb] in Hrun; reduce_in Hrun.
  { injection Hrun as <- <-. repeat split. exists [].
    rewrite app_nil_r. split; [done|]. by intros ? [= <-]. }
  rewrite lift_mode_attr, Hem in Hrun.
  destruct (get_chan env TRADES_CHANNEL (em_id em)); reduce_in Hrun.
  { injection Hrun as <- <-. repeat split. exists [].
    rewrite app_nil_r. split; [done|]. done. }
  rewrite call_out_run in Hrun.
  destruct (new_consumer env (trades_consumer env));
    injection Hrun as <- <-; repeat split; eexists [_]; cbn;
    (split; [done|]); [done|]. by intros ? [= <-].
Qed.

Lemma create_consumers_run env st em created st' :
  exchange_manager (self (mode_state st)) = Some em →
  create_consumers env st = (Ok created, st') →
  created
  = (MODE_CONSUMER_CLASSES (attributes st)
     ++ if is_backtesting em then [] else [trades_consumer env])%list
  ∧ mode_state st' = mode_state st
  ∧ attributes st' = attributes st.
Proof.
  intros Hem Hrun. unfold create_consumers in Hrun.
  cbv [bind get] in Hrun.
  destruct (list_comprehension _ _ st) as [r1 st1] eqn:Hbase.
  apply (consumers_comprehension _ _ _ em) in Hbase
    as (Hmode1 & Hattrs1 & made1 & Hcalls1 & Hok1); [|done].
  destruct r1 as [base_consumers|e]; [|done].
  destruct (Hok1 _ eq_refl) as [-> ->].
  destruct (_add_temp_consumers env st1) as [r2 st2] eqn:Htemp.
  apply (add_temp_consumers_step _ _ em) in Htemp
    as (Hmode2 & Hattrs2 & made2 & Hcalls2 & Hok2); [|by rewrite Hmode1].
  destruct r2 as [temp_consumers|e]; [|done].
  injection Hrun as <- <-. specialize (Hok2 _ eq_refl).
  rewrite Hmode2, Hmode1, Hattrs2, Hattrs1.
  by destruct (is_backtesting em); destruct Hok2 as [-> ->].
Qed.

(** X18. The consumers of a mode, when [create_consumers] answers: one
    consumer for each class of [MODE_CONSUMER_CLASSES], in order, each
    built and then registered on the mode channel of the exchange under
    the name of the mode, with the wildcard in place of a cryptocurrency,
    symbol or time frame that is unset or empty; then, on an exchange that
    is not a backtesting one only, the consumer of the trades channel,
    registered with the symbol of the mode as it is.  The instance is left
    unchanged. *)
Theorem create_consumers_subscriptions env st em created st' :
  exchange_manager (self (mode_state st)) = Some em →
  create_consumers env st = (Ok created, st') →
  let attrs := attributes st in
  created
  = (MODE_CONSUMER_CLASSES attrs
     ++ if is_backtesting em then [] else [trades_consumer env])%list
  ∧ startup_calls st'
    = (startup_calls st
       ++ (MODE_CONSUMER_CLASSES attrs ≫= λ class,
             [ConsumerNew class;
              NewModeConsumer (em_id em) class (name (self (mode_state st)))
                (or_wildcard (cryptocurrency attrs))
                (or_wildcard (symbol attrs))
                (or_wildcard (time_frame attrs))])
       ++ if is_backtesting em then []
          else [NewTradesConsumer (em_id em) (symbol attrs)])%list
  ∧ mode_state st' = mode_state st
  ∧ attributes st' = attributes st.
Proof.
  intros Hem Hrun attrs. unfold create_consumers in Hrun.
  cbv [bind get] in Hrun.
  destruct (list_comprehension _ _ st) as [r1 st1] eqn:Hbase.
  apply (consumers_comprehension _ _ _ em) in Hbase
    as (Hmode1 & Hattrs1 & made1 & Hcalls1 & Hok1); [|done].
  destruct r1 as [base_consumers|e]; [|done].
  destruct (Hok1 _ eq_refl) as [-> ->].
  destruct (_add_temp_consumers env st1) as [r2 st2] eqn:Htemp.
  apply (add_temp_consumers_step _ _ em) in Htemp
    as (Hmode2 & Hattrs2 & made2 & Hcalls2 & Hok2); [|by rewrite Hmode1].
  destruct r2 as [temp_consumers|e]; [|done].
  injection Hrun as <- <-. specialize (Hok2 _ eq_refl).
  rewrite Hcalls2, Hcalls1, <- app_assoc, Hmode2, Hmode1, Hattrs2, Hattrs1.
  fold attrs. destruct (is_backtesting em); destruct Hok2 as [-> ->];
    by rewrite ?Hattrs1.
Qed.

(** ** Configuration *)

Lemma reload_elements env elements st r st' :
  for_each
    (λ element,
       if is_mode_element env element
       then call_out (ElementReloadConfig element)
              (element_reload_config env element)
       else ret tt) elements st = (r, st') →
  mode_state st' = mode_state st
  ∧ attributes st' = attributes st
  ∧ ∃ reloaded,
      startup_calls st'
      = (startup_calls st ++ (ElementReloadConfig <$> reloaded))%list
      ∧ reloaded
        `prefix_of` filter (λ element, is_mode_element env element = true)
                      elements
      ∧ (r = Ok tt →
         reloaded = filter (λ element, is_mode_element env element = true)
                      elements).
Proof.
  revert st. induction elements as [|element elements IH]; intros st Hrun;
    cbn in Hrun.
  - injection Hrun as <- <-. repeat split. exists [].
    rewrite app_nil_r. by repeat split.
  - cbv [bind] in Hrun. rewrite filter_cons.
    destruct (is_mode_element env element) eqn:Hkind.
    + rewrite call_out_run in Hrun.
      destruct (element_reload_config env element).
      * injection Hrun as <- <-. repeat split. exists [element].
        repeat split; try done. by apply prefix_cons, prefix_nil.
      * apply IH in Hrun as (Hmode & Hattrs & reloaded & Hcalls & Hp & Hall).
        repeat split; try done. exists (element :: reloaded).
        cbn in *. rewrite Hcalls, <- app_assoc.
        repeat split; try done; [by apply prefix_cons|].
        intros Hok. by rewrite Hall.
    + reduce_in Hrun. rewrite decide_False by done. by apply IH.
Qed.

Lemma reload_config_step env bot st em r st' :
  exchange_manager (self (mode_state st)) = Some em →
  reload_config env bot st = (r, st') →
  let elements :=
    filter (λ element, is_mode_element env element = true)
      (consumers (self (mode_state st))
       ++ producers (self (mode_state st)))%list in
  mode_state st'
  = set_self (set_trading_config (get_tentacle_config env)
                (self (mode_state st))) (mode_state st)
  ∧ attributes st' = attributes st
  ∧ ∃ reloaded,
      startup_calls st'
      = (startup_calls st ++ LoadAndSaveUserInputs bot
         :: (ElementReloadConfig <$> reloaded))%list
      ∧ reloaded `prefix_of` elements
      ∧ (r = Ok tt → reloaded = elements)
      ∧ (is_Some (load_and_save_user_inputs env) →
         reloaded = [] ∧ r ≠ Ok tt).
Proof.
  intros Hem Hrun elements. unfold reload_config in Hrun.
  cbv [bind] in Hrun. rewrite lift_mode_attr, Hem, update_self_run in Hrun.
  reduce_in Hrun. unfold set_default_config in Hrun.
  assert (Hdefault : ∀ (b : bool) (x : @startup_state F),
    (if b then ret tt else ret tt) x = (Ok tt, x)) by (by intros []).
  rewrite Hdefault in Hrun. rewrite call_out_run in Hrun.
  destruct (load_and_save_user_inputs env) as [e|].
  { injection Hrun as <- <-. repeat split. exists [].
    repeat split; try done; apply prefix_nil. }
  apply reload_elements in Hrun
    as (Hmode & Hattrs & reloaded & Hcalls & Hp & Hall).
  cbn in Hmode, Hattrs, Hcalls, Hp, Hall.
  repeat split; try done. exists reloaded.
  rewrite Hcalls, <- app_assoc.
  repeat split; try done; by intros [? [=]].
Qed.

(** X19. Reloading the configuration replaces the configuration of the
    mode by the stored one before anything can fail, then loads the user
    inputs, then reloads the consumers and after them the producers,
    skipping the elements that are no mode consumer or producer; nothing
    is reloaded when loading the user inputs fails.  The signal emission
    setting is read from the new configuration from then on: missing
    key, no emission; no configuration at all, [TypeError]. *)
Theorem reload_config_replaces_configuration env bot st em r st' :
  exchange_manager (self (mode_state st)) = Some em →
  reload_config env bot st = (r, st') →
  let elements :=
    filter (λ element, is_mode_element env element = true)
      (consumers (self (mode_state st))
       ++ producers (self (mode_state st)))%list in
  trading_config (self (mode_state st')) = get_tentacle_config env
  ∧ (∃ reloaded,
       startup_calls st'
       = (startup_calls st ++ LoadAndSaveUserInputs bot
          :: (ElementReloadConfig <$> reloaded))%list
       ∧ reloaded `prefix_of` elements
       ∧ (r = Ok tt → reloaded = elements)
       ∧ (is_Some (load_and_save_user_inputs env) →
          reloaded = [] ∧ r ≠ Ok tt))
  ∧ is_trading_signal_emitter (mode_state st')
    = (match get_tentacle_config env with
       | Some config =>
           Ok (default (VBool false) (config !! CONFIG_EMIT_TRADING_SIGNALS))
       | None => Raise TypeError
       end, mode_state st').
Proof.
  intros Hem Hrun elements.
  destruct (reload_config_step _ _ _ _ _ _ Hem Hrun)
    as (Hmode & _ & Hcalls).
  split; [by rewrite Hmode|]. split; [exact Hcalls|].
  unfold is_trading_signal_emitter, try_except, trading_config_item.
  cbv [bind get ret raise]. rewrite Hmode. cbn.
  destruct (get_tentacle_config env) as [config|]; [|done].
  by destruct (config !! CONFIG_EMIT_TRADING_SIGNALS).
Qed.

(** ** Initialization *)

Lemma save_exchange_init_data_step env live st r st' :
  save_exchange_init_data env live st = (r, st') →
  mode_state st' = mode_state st ∧ attributes st' = attributes st.
Proof.
  unfold save_exchange_init_data, save_portfolio, save_live_metadata.
  cbv [bind]. rewrite call_out_run. intros Hrun.
  destruct (store_portfolio env); [by injection Hrun as <- <-|].
  rewrite lift_mode_attr in Hrun.
  cbn [mode_state attributes add_startup_call] in Hrun.
  destruct (exchange_manager (self (mode_state st)));
    [|by injection Hrun as <- <-].
  unfold lift_mode at 1 in Hrun.
  cbn [mode_state attributes add_startup_call] in Hrun.
  pose proof (get_live_metadata_pure live (mode_state st)) as Hpure.
  destruct (get_live_metadata live (mode_state st)) as [[metadata|?] s1];
    cbn in Hpure; subst s1; [|by injection Hrun as <- <-].
  rewrite call_out_run in Hrun. by injection Hrun as <- <-.
Qed.

Lemma set_self_set_self (m m' : @TradingMode F) (s : @state F) :
  set_self m (set_self m' s) = set_self m s.
Proof. done. Qed.

Lemma initialize_outcome env live st em r st' :
  exchange_manager (self (mode_state st)) = Some em →
  initialize env live st = (r, st') →
  let attrs := attributes st in
  let configured :=
    set_trading_config (get_tentacle_config env) (self (mode_state st)) in
  let produced := set_producers (MODE_PRODUCER_CLASSES attrs) configured in
  let consumed :=
    set_consumers
      (MODE_CONSUMER_CLASSES attrs
       ++ if is_backtesting em then [] else [trades_consumer env])%list
      produced in
  attributes st' = attrs
  ∧ match r with
    | Ok _ => mode_state st' = set_self consumed (mode_state st)
    | Raise _ =>
        mode_state st' = set_self configured (mode_state st)
        ∨ mode_state st' = set_self produced (mode_state st)
    end.
Proof.
  intros Hem Hrun attrs configured produced consumed. subst attrs.
  unfold initialize in Hrun. cbv [bind] in Hrun.
  rewrite lift_mode_attr, Hem in Hrun.
  destruct (reload_config env (bot_id em) st) as [r1 st1] eqn:Hreload.
  apply (reload_config_step _ _ _ em) in Hreload
    as (Hmode1 & Hattrs1 & _); [|done].
  fold configured in Hmode1.
  assert (Hem1 : exchange_manager (self (mode_state st1)) = Some em)
    by (by rewrite Hmode1).
  destruct r1 as [[]|?]; [|injection Hrun as <- <-; by auto].
  rewrite lift_mode_attr, Hem1 in Hrun. cbn beta iota in Hrun.
  rewrite lift_mode_attr, Hem1 in Hrun. cbn beta iota in Hrun.
  rewrite call_out_run in Hrun.
  destruct (run_databases_initialize env);
    [injection Hrun as <- <-; by auto|].
  destruct (save_exchange_init_data env live _) as [r2 st2] eqn:Hsave.
  apply save_exchange_init_data_step in Hsave as [Hmode2 Hattrs2].
  cbn [mode_state attributes add_startup_call] in Hmode2, Hattrs2.
  destruct r2 as [[]|?];
    [|injection Hrun as <- <-; split; [congruence|left; congruence]].
  unfold create_producers in Hrun at 1. cbv [bind get] in Hrun.
  destruct (list_comprehension _ _ st2) as [r3 st3] eqn:Hproducers.
  apply (producers_comprehension _ _ _ em) in Hproducers
    as (Hmode3 & Hattrs3 & made3 & _ & Hok3); [|congruence].
  destruct r3 as [created|?];
    [|injection Hrun as <- <-; split; [congruence|left; congruence]].
  destruct (Hok3 _ eq_refl) as [-> _].
  rewrite update_self_run in Hrun.
  destruct (create_consumers env _) as [r4 st4] eqn:Hconsumers.
  assert (Hmode4 : mode_state (set_mode_state
              (set_self (set_producers (MODE_PRODUCER_CLASSES (attributes st2))
                           (self (mode_state st3))) (mode_state st3)) st3)
            = set_self produced (mode_state st)).
  { cbn. rewrite Hmode3, Hmode2, Hmode1, Hattrs2, Hattrs1. done. }
  destruct r4 as [created|?].
  2:{ injection Hrun as <- <-.
      unfold create_consumers in Hconsumers. cbv [bind get] in Hconsumers.
      destruct (list_comprehension _ _ _) as [r5 st5] eqn:Hbase
        in Hconsumers.
      apply (consumers_comprehension _ _ _ em) in Hbase
        as (Hmode5 & Hattrs5 & _); [|by rewrite Hmode4].
      destruct r5 as [base|?];
        [|injection Hconsumers as <- <-; split;
          [cbn in Hattrs5; congruence|right; congruence]].
      destruct (_add_temp_consumers env st5) as [r6 st6] eqn:Htemp.
      apply (add_temp_consumers_step _ _ em) in Htemp
        as (Hmode6 & Hattrs6 & _); [|by rewrite Hmode5, Hmode4].
      destruct r6; [done|]. injection Hconsumers as <- <-.
      split; [cbn in Hattrs5; congruence|right; congruence]. }
  apply (create_consumers_run env _ em) in Hconsumers
    as (-> & Hmode5 & Hattrs5); [|by rewrite Hmode4].
  rewrite update_self_run in Hrun. injection Hrun as <- <-.
  cbn [mode_state attributes set_mode_state].
  cbn [attributes set_mode_state] in Hattrs5.
  split; [congruence|].
  rewrite Hmode5, Hmode4, set_self_set_self. cbn.
  rewrite Hattrs3, Hattrs2, Hattrs1. done.
Qed.

Lemma stop_returns (env : @Collaborators F) (s : @state F) em s' :
  exchange_manager (self s) = Some em →
  stop env s = (Ok tt, s') →
  ∃ saving,
    calls s' = (calls s ++ saving ++ (ProducerStop <$> producers (self s))
                ++ (ConsumerStop <$> consumers (self s)))%list
    ∧ Forall (λ c, is_stop_call c = false) saving
    ∧ (is_backtesting em = false → saving = [])
    ∧ exchange_manager (self s') = None.
Proof.
  intros Hem Hrun. unfold stop in Hrun. cbv [bind] in Hrun.
  unfold exchange_manager_attr at 1 in Hrun. cbv [bind get ret] in Hrun.
  rewrite Hem in Hrun.
  assert (Hsave : ∃ rs s1 saving,
    (if is_backtesting em then save_backtesting_data env else ret tt) s
      = (rs, s1)
    ∧ producers (self s1) = producers (self s)
    ∧ consumers (self s1) = consumers (self s)
    ∧ calls s1 = (calls s ++ saving)%list
    ∧ Forall (λ c, is_stop_call c = false) saving
    ∧ (is_backtesting em = false → saving = [])).
  { destruct (is_backtesting em).
    - destruct (save_backtesting_data env s) as [rs s1] eqn:Hs.
      destruct (save_backtesting_data_step env s em rs s1 Hem Hs)
        as (? & ? & ? & (saving & ? & ?) & _).
      exists rs, s1, saving. by repeat split.
    - exists (Ok tt), s, []. rewrite app_nil_r. by repeat split. }
  destruct Hsave as (rs & s1 & saving & Hs & Hp1 & Hc1 & Hcalls1
                     & Hsaving & Hlive).
  cbn beta iota in Hrun. unfold ret in Hs. rewrite Hs in Hrun.
  destruct rs as [[]|?]; [|done].
  destruct (for_each _ (producers (self s1)) s1) as [rp s2] eqn:Hps.
  apply for_each_invoke in Hps as (ps & _ & Hpall & Hpc & Hpself & _).
  destruct rp as [[]|?]; [|done]. rewrite (Hpall eq_refl), Hp1 in Hpc.
  destruct (for_each _ (consumers (self s2)) s2) as [rc s3] eqn:Hcs.
  apply for_each_invoke in Hcs as (cs & _ & Hcall & Hcc & Hcself & _).
  destruct rc as [[]|?]; [|done].
  rewrite (Hcall eq_refl), Hpself, Hc1 in Hcc.
  cbv [modify] in Hrun. injection Hrun as <-. exists saving. cbn.
  rewrite Hcc, Hpc, Hcalls1, <- !app_assoc. by repeat split.
Qed.

(** X20. What [initialize()] creates, [stop()] stops.  After an
    initialization that returned, a [stop()] that returns has stopped
    the producers of [MODE_PRODUCER_CLASSES] in order, then the consumers
    of [MODE_CONSUMER_CLASSES] in order, then, on an exchange that is not
    a backtesting one, the consumer of the trades channel; before them it
    made the calls of the metadata save, on a backtesting exchange
    only. *)
Theorem initialize_then_stop env live st em st' (env2 : @Collaborators F)
    s'' :
  exchange_manager (self (mode_state st)) = Some em →
  initialize env live st = (Ok tt, st') →
  stop env2 (mode_state st') = (Ok tt, s'') →
  ∃ saving,
    calls s''
    = (calls (mode_state st) ++ saving
       ++ (ProducerStop <$> MODE_PRODUCER_CLASSES (attributes st))
       ++ (ConsumerStop
           <$> MODE_CONSUMER_CLASSES (attributes st)
               ++ if is_backtesting em then [] else [trades_consumer env])
      )%list
    ∧ Forall (λ c, is_stop_call c = false) saving
    ∧ (is_backtesting em = false → saving = [])
    ∧ exchange_manager (self s'') = None.
Proof.
  intros Hem Hinit Hstop.
  destruct (initialize_outcome _ _ _ _ _ _ Hem Hinit) as [_ Hmode].
  cbv zeta in Hmode.
  apply (stop_returns _ _ em) in Hstop; [|by rewrite Hmode].
  by rewrite Hmode in Hstop.
Qed.

(** X21. An initialization that raises never leaves a partial list of
    consumers: the consumers of the instance are those it had, and its
    producers are either those it had or all those of
    [MODE_PRODUCER_CLASSES]; its configuration is the stored one.  The
    consumers registered on the channels before the failure are thus not
    known to the instance: when it had none, a [stop()] that returns
    afterwards stops no consumer. *)
Theorem failed_initialize_assigns_no_consumers env live st em e st' :
  exchange_manager (self (mode_state st)) = Some em →
  initialize env live st = (Raise e, st') →
  consumers (self (mode_state st')) = consumers (self (mode_state st))
  ∧ (producers (self (mode_state st')) = producers (self (mode_state st))
     ∨ producers (self (mode_state st'))
       = MODE_PRODUCER_CLASSES (attributes st))
  ∧ trading_config (self (mode_state st')) = get_tentacle_config env
  ∧ exchange_manager (self (mode_state st')) = Some em
  ∧ (consumers (self (mode_state st)) = [] →
     ∀ (env2 : @Collaborators F) s'',
       stop env2 (mode_state st') = (Ok tt, s'') →
       ∃ made,
         calls s'' = (calls (mode_state st) ++ made)%list
         ∧ ∀ consumer, ConsumerStop consumer ∉ made).
Proof.
  intros Hem Hinit.
  destruct (initialize_outcome _ _ _ _ _ _ Hem Hinit) as [_ Hmode].
  cbv zeta in Hmode.
  assert (Hfields :
    consumers (self (mode_state st')) = consumers (self (mode_state st))
    ∧ (producers (self (mode_state st')) = producers (self (mode_state st))
       ∨ producers (self (mode_state st'))
         = MODE_PRODUCER_CLASSES (attributes st))
    ∧ trading_config (self (mode_state st')) = get_tentacle_config env
    ∧ exchange_manager (self (mode_state st')) = Some em
    ∧ calls (mode_state st') = calls (mode_state st)).
  { destruct Hmode as [-> | ->]; cbn; repeat split; auto. }
  destruct Hfields as (Hconsumers & Hproducers & Hconfig & Hem' & Hcalls).
  repeat split; try done.
  intros Hnone env2 s'' Hstop.
  apply (stop_returns _ _ em) in Hstop
    as (saving & Hstopped & Hsaving & _); [|done].
  rewrite Hconsumers, Hnone, Hcalls in Hstopped. cbn in Hstopped.
  rewrite app_nil_r in Hstopped. eexists. split; [exact Hstopped|].
  intros consumer [Hin|Hin]%elem_of_app.
  - rewrite Forall_forall in Hsaving. by apply Hsaving in Hin.
  - by apply list_elem_of_fmap in Hin as (? & [=] & _).
Qed.

(** X22. The live metadata of a mode.  The run is recorded as a futures
    one only when the exchange manager is a futures one and the exchange
    has pair contracts, and then the contracts recorded, under the name
    of the exchange, are exactly those of traded pairs; otherwise it is
    recorded as a spot one with no contract.  The exchanges recorded are
    those of the configuration that are not disabled, an exchange with no
    enabled option counting as enabled.  The end time is -1 unless the
    exchange is a backtesting one.  The call raises [KeyError] when the
    configuration has no exchanges, and never changes the instance. *)
Theorem live_metadata_content live (s : @state F) em :
  exchange_manager (self s) = Some em →
  match config_exchanges live with
  | None => get_live_metadata live s = (Raise (KeyError CONFIG_EXCHANGES), s)
  | Some exchanges =>
      ∃ metadata,
        get_live_metadata live s = (Ok metadata, s)
        ∧ (row_trading_type metadata = "future"
           ↔ is_future em = true ∧ is_Some (pair_contracts live))
        ∧ (row_trading_type metadata = "future"
           ∨ (row_trading_type metadata = "spot"
              ∧ row_future_contracts metadata = []))
        ∧ (∀ contracts symbol contract,
             pair_contracts live = Some contracts →
             is_future em = true →
             (∃ recorded,
                row_future_contracts metadata
                = [(exchange_name em, recorded)]
                ∧ ((symbol, contract) ∈ recorded
                   ↔ (symbol, contract) ∈ contracts
                     ∧ symbol ∈ traded_symbol_pairs live)))
        ∧ (∀ exchange,
             exchange ∈ row_exchanges metadata
             ↔ ∃ config,
                 (exchange, config) ∈ exchanges
                 ∧ match config !! CONFIG_ENABLED_OPTION with
                   | Some enabled => truthy enabled = true
                   | None => True
                   end)
        ∧ row_end_time metadata
          = (if is_backtesting em
             then VFloat (backtesting_ending_time (backtesting em))
             else VInt (-1))
        ∧ row_symbols metadata = traded_symbol_pairs live
  end.
Proof.
  intros Hem. unfold get_live_metadata, exchange_manager_attr,
    get_additional_backtesting_metadata.
  cbv [bind get ret raise]. rewrite Hem. cbn beta iota.
  destruct (config_exchanges live) as [exchanges|]; [|done].
  cbn beta iota. change (id em) with em.
  assert (Hexchanges : ∀ exchange,
    exchange ∈ (filter (λ exchange_config : string * gmap string (@pyval F),
                          is_enabled exchange_config.2 = true) exchanges).*1
    ↔ ∃ config,
        (exchange, config) ∈ exchanges
        ∧ match config !! CONFIG_ENABLED_OPTION with
          | Some enabled => truthy enabled = true
          | None => True
          end).
  { intros exchange. rewrite list_elem_of_fmap. split.
    - intros ([name config] & -> & [Henabled Hin]%list_elem_of_filter).
      exists config. split; [done|]. unfold is_enabled in Henabled.
      cbn in Henabled. by destruct (config !! CONFIG_ENABLED_OPTION).
    - intros (config & Hin & Henabled). exists (exchange, config).
      split; [done|]. apply list_elem_of_filter. split; [|done].
      unfold is_enabled. cbn.
      by destruct (config !! CONFIG_ENABLED_OPTION). }
  destruct (is_future em), (pair_contracts live) as [contracts|];
    eexists; (split; [reflexivity|]); cbn;
    (split; [split; [try done; by eauto|try (by intros [[=] ?]);
                                   try (by intros [? [? [=]]])]|]).
  all: split; [by auto|].
  all: split; [|by split].
  all: intros ? symbol contract; try done.
  intros [= <-] _. eexists. split; [reflexivity|].
  rewrite list_elem_of_filter. cbn. tauto.
Qed.

End StartupProperties.

Section CcxtProperties.
Context {F : Type} `{PyFloat F} `{CcxtConstants}.
Implicit Types (client : @Client F) (config : gmap string (@pyval F)).

Lemma set_if_not_none_lookup key value config k :
  set_if_not_none key value config !! k
  = if bool_decide (k = key)
    then match value with
         | Some v => Some (VStr v)
         | None => config !! k
         end
    else config !! k.
Proof.
  unfold set_if_not_none. destruct value as [v|].
  - case_bool_decide as Hk.
    + subst. by rewrite lookup_insert_eq.
    + by rewrite lookup_insert_ne.
  - by case_bool_decide.
Qed.

(** X23. The configuration a client is built from.  An entry of the
    additional configuration always wins.  Where the additional
    configuration says nothing, the API key, the secret and the password
    are present exactly when they were given, and the options and the
    headers are those given. *)
Theorem client_config_entries (options headers : @pyval F)
    (additional_config : option (gmap string (@pyval F)))
    (api_key secret password : option string) :
  let config :=
    _get_client_config options headers additional_config
      api_key secret password in
  let additional := default ∅ additional_config in
  (∀ k v, additional !! k = Some v → config !! k = Some v)
  ∧ (additional !! "apiKey" = None → config !! "apiKey" = VStr <$> api_key)
  ∧ (additional !! "secret" = None → config !! "secret" = VStr <$> secret)
  ∧ (additional !! "password" = None →
     config !! "password" = VStr <$> password)
  ∧ (additional !! "options" = None → config !! "options" = Some options)
  ∧ (additional !! "headers" = None → config !! "headers" = Some headers).
Proof.
  intros config additional. subst config. unfold _get_client_config.
  fold additional. split.
  { intros k v Hk. by rewrite lookup_union, Hk, union_Some_l. }
  repeat split; intros Hk; rewrite lookup_union, Hk, (left_id None _);
    rewrite !set_if_not_none_lookup; cbn;
    by repeat match goal with
       | |- context [match ?x with Some _ => _ | None => _ end] => destruct x
       end.
Qed.

(** X24. Who gets an authenticated client.  [create_client] answers an
    authenticated client only when authentication was asked for, the
    exchange is not a backtesting one, its configuration was accepted,
    the credentials were read (and adapted), the client was built with
    them and, when credentials are checked, the client accepted them.
    A client answered as not authenticated comes from the fallback or was
    built without credentials.  An exception raised while reading the
    credentials or building or checking the authenticated client is never
    raised to the caller, unless it is no [Exception]: what
    [create_client] raises comes from building the client without
    credentials or from the fallback. *)
Theorem create_client_authentication
    (exchange_class : gmap string (@pyval F) → result Client)
    (exchange_manager : ExchangeAccess) (options headers : @pyval F)
    (additional_config : option (gmap string (@pyval F)))
    (should_authenticate : bool)
    (unauthenticated_exchange_fallback : option (exn → result Client))
    (keys_adapter :
       option (option string → option string → option string →
               result (option string * option string * option string)))
    (log : list client_log) r log' :
  create_client exchange_class exchange_manager options headers
    additional_config should_authenticate unauthenticated_exchange_fallback
    keys_adapter log = (r, log') →
  let without_credentials :=
    exchange_class
      (_get_client_config options headers additional_config
         None None None) in
  match r with
  | Ok (client, true) =>
      should_authenticate = true
      ∧ is_backtesting (manager exchange_manager) = false
      ∧ ignore_config exchange_manager || check_config exchange_manager
        = true
      ∧ ∃ stored key secret password built,
          get_exchange_credentials exchange_manager = Ok stored
          ∧ match keys_adapter with
            | Some adapt => adapt stored.1.1 stored.1.2 stored.2
            | None => Ok stored
            end = Ok (key, secret, password)
          ∧ exchange_class
              (_get_client_config options headers additional_config
                 key secret password) = Ok built
          ∧ (check_credentials exchange_manager = true →
             checkRequiredCredentials built = None)
          ∧ client
            = _use_http_proxy_if_necessary (set_logger_level "INFO" built)
  | Ok (client, false) =>
      (∃ fallback e,
         unauthenticated_exchange_fallback = Some fallback
         ∧ is_Exception e = true
         ∧ fallback e = Ok client)
      ∨ (∃ built,
           without_credentials = Ok built
           ∧ aiohttp_trust_env client
             = Some ENABLE_EXCHANGE_HTTP_PROXY_FROM_ENV
           ∧ (client = _use_http_proxy_if_necessary built
              ∨ client
                = _use_http_proxy_if_necessary
                    (set_logger_level "INFO" built)))
  | Raise e =>
      is_Exception e = false
      ∨ without_credentials = Raise e
      ∨ ∃ fallback e0,
          unauthenticated_exchange_fallback = Some fallback
          ∧ is_Exception e0 = true
          ∧ fallback e0 = Raise e
  end.
Proof.
  intros Hrun without_credentials. subst without_credentials.
  unfold create_client, get_unauthenticated_exchange in Hrun.
  revert Hrun.
  set (build := _get_client_config options headers additional_config).
  clearbody build. intros Hrun.
  cbv [bind modify ret raise attempt lift_result lift_fault] in Hrun.
  repeat (match type of Hrun with
          | context [match ?x with _ => _ end] =>
              lazymatch x with
              | context [match _ with _ => _ end] => fail
              | _ => destruct x eqn:?
              end
          end; cbn beta iota zeta in Hrun).
  all: injection Hrun as <- <-.
  all: repeat match goal with
       | Hb : _ && _ = true |- _ => apply andb_true_iff in Hb as [? ?]
       | Hb : negb _ = true |- _ => apply negb_true_iff in Hb
       end.
  all: subst; try (by auto).
  all: try (by left; eauto).
  all: try (by right; eauto 7).
  all: try (by repeat split; eauto 12).
  all: repeat split; try done; eexists _, _, _, _, _; repeat split;
    eauto; done.
Qed.

(** ** Symbols *)

Lemma active_symbols_loaded client loaded symbols :
  markets client = Some loaded →
  active_symbols client symbols
  = Ok (filter (λ symbol,
                  truthy (default (VBool true)
                            (default ∅ (loaded !! symbol) !! ACTIVE))
                  = true) symbols).
Proof.
  intros Hloaded. induction symbols as [|symbol symbols IH]; [done|].
  rewrite filter_cons. cbn [active_symbols]. unfold market_is_active.
  rewrite Hloaded, IH.
  destruct (truthy _) eqn:Hactive.
  - by rewrite decide_True.
  - by rewrite decide_False.
Qed.

Lemma active_symbols_not_loaded client symbols :
  markets client = None →
  active_symbols client symbols
  = match symbols with
    | [] => Ok []
    | _ => Raise (AttributeError "get")
    end.
Proof.
  intros Hnone. destruct symbols as [|symbol symbols]; [done|].
  cbn [active_symbols]. unfold market_is_active. by rewrite Hnone.
Qed.

Lemma get_symbols_all client :
  get_symbols client false
  = Ok (match symbols client with
        | Some listed => list_to_set listed
        | None => ∅
        end).
Proof. unfold get_symbols. by destruct (symbols client). Qed.

Lemma get_symbols_active client :
  get_symbols client true
  = Ok (match symbols client, markets client with
        | Some listed, Some loaded =>
            list_to_set
              (filter (λ symbol,
                         truthy (default (VBool true)
                                   (default ∅ (loaded !! symbol) !! ACTIVE))
                         = true) listed)
        | _, _ => ∅
        end).
Proof.
  unfold get_symbols. destruct (symbols client) as [listed|]; [|done].
  destruct (markets client) as [loaded|] eqn:Hmarkets.
  - by rewrite (active_symbols_loaded _ loaded).
  - rewrite active_symbols_not_loaded by done. by destruct listed.
Qed.

(** X25. The symbols of a client.  [get_symbols] never raises.  Without
    the active filter it answers the symbols of the client, and nothing
    when the client has none loaded.  With the filter it answers those of
    them whose market, in loaded markets, is missing, has no active entry
    or has a true one; a market whose active entry is [None] or false is
    left out, and nothing is answered when the markets are not loaded.
    The filtered symbols are always among the unfiltered ones. *)
Theorem get_symbols_content client active_only :
  ∃ found all_symbols,
    get_symbols client active_only = Ok found
    ∧ get_symbols client false = Ok all_symbols
    ∧ found ⊆ all_symbols
    ∧ (∀ symbol,
         symbol ∈ found
         ↔ ∃ listed,
             symbols client = Some listed
             ∧ symbol ∈ listed
             ∧ (active_only = true →
                ∃ loaded,
                  markets client = Some loaded
                  ∧ match loaded !! symbol ≫= (.!! ACTIVE) with
                    | Some active => truthy active = true
                    | None => True
                    end)).
Proof.
  assert (Hactive : ∀ (loaded : gmap string (gmap string (@pyval F))) symbol,
    truthy (default (VBool true) (default ∅ (loaded !! symbol) !! ACTIVE))
    = true
    ↔ match loaded !! symbol ≫= (.!! ACTIVE) with
      | Some active => truthy active = true
      | None => True
      end).
  { intros loaded symbol. destruct (loaded !! symbol) as [found|]; cbn.
    - by destruct (found !! ACTIVE).
    - by rewrite lookup_empty. }
  destruct active_only; eexists _, _;
    (split; [first [apply get_symbols_active|apply get_symbols_all]|]);
    (split; [apply get_symbols_all|]);
    destruct (symbols client) as [listed|], (markets client) as [loaded|];
    split; try done; intros symbol;
    rewrite ?elem_of_list_to_set, ?list_elem_of_filter, ?Hactive,
      ?elem_of_empty.
  - tauto.
  - split.
    + intros [? ?]. exists listed. repeat split; try done.
      intros _. by exists loaded.
    + intros (? & [= <-] & ? & Hfilter).
      destruct (Hfilter eq_refl) as (? & [= <-] & ?). done.
  - split; [done|].
    intros (? & _ & _ & Hfilter). by destruct (Hfilter eq_refl) as (? & ? & _).
  - split; [done|]. by intros (? & ? & _).
  - split; [done|]. by intros (? & ? & _).
  - split; [intros ?; exists listed; by repeat split|].
    by intros (? & [= <-] & ? & _).
  - split; [intros ?; exists listed; by repeat split|].
    by intros (? & [= <-] & ? & _).
  - split; [done|]. by intros (? & ? & _).
  - split; [done|]. by intros (? & ? & _).
Qed.

(** X26. Looking a pair up.  A pair is answered its exchange id (its base
    currency) only when it is a symbol of the client and the market the
    client answers for it has an id (a base); a pair that is no symbol of
    the client is refused with [ValueError].  On a client that was closed
    every pair is refused with [ValueError] and no symbol is left; on a
    client whose symbols were never loaded, where [get_symbols] answers
    no symbol, the look-up raises [TypeError] instead. *)
Theorem pair_lookup_outcomes client pair :
  let not_supported : pair_error + @pyval F :=
    inl (ValueError (pair ++ " is not supported")) in
  (∀ id,
     get_exchange_pair client pair = inr id →
     ∃ listed found,
       symbols client = Some listed ∧ pair ∈ listed
       ∧ market client pair = Ok found ∧ found !! "id" = Some id)
  ∧ (∀ base,
       get_pair_cryptocurrency client pair = inr base →
       ∃ listed found,
         symbols client = Some listed ∧ pair ∈ listed
         ∧ market client pair = Ok found ∧ found !! "base" = Some base)
  ∧ (∀ listed,
       symbols client = Some listed → pair ∉ listed →
       get_exchange_pair client pair = not_supported
       ∧ get_pair_cryptocurrency client pair = not_supported)
  ∧ (symbols client = None →
     get_symbols client true = Ok ∅
     ∧ get_symbols client false = Ok ∅
     ∧ get_exchange_pair client pair = inl (Uncaught TypeError)
     ∧ get_pair_cryptocurrency client pair = inl (Uncaught TypeError))
  ∧ (∀ closed,
       close_client client = Ok closed →
       get_symbols closed true = Ok ∅
       ∧ get_symbols closed false = Ok ∅
       ∧ get_exchange_pair closed pair = not_supported
       ∧ get_pair_cryptocurrency closed pair = not_supported).
Proof.
  intros not_supported. subst not_supported.
  split; [|split; [|split; [|split]]].
  - intros id. unfold get_exchange_pair.
    destruct (symbols client) as [listed|]; [|done].
    case_bool_decide as Hlisted; [|done].
    destruct (market client pair) as [found|e] eqn:Hmarket;
      [|by destruct (is_KeyError e)].
    destruct (found !! "id") as [v|] eqn:Hid; [|done].
    intros [= <-]. by exists listed, found.
  - intros base. unfold get_pair_cryptocurrency.
    destruct (symbols client) as [listed|]; [|done].
    case_bool_decide as Hlisted; [|done].
    destruct (market client pair) as [found|e] eqn:Hmarket;
      [|by destruct (is_KeyError e)].
    destruct (found !! "base") as [v|] eqn:Hbase; [|done].
    intros [= <-]. by exists listed, found.
  - intros listed Hsymbols Hnot.
    unfold get_exchange_pair, get_pair_cryptocurrency.
    rewrite Hsymbols. by rewrite !bool_decide_false.
  - intros Hsymbols. rewrite get_symbols_active, get_symbols_all.
    unfold get_exchange_pair, get_pair_cryptocurrency.
    by rewrite Hsymbols.
  - intros closed Hclose. unfold close_client in Hclose.
    destruct (close client); [done|]. injection Hclose as <-.
    rewrite get_symbols_active, get_symbols_all.
    unfold get_exchange_pair, get_pair_cryptocurrency. cbn.
    by rewrite !bool_decide_false by apply not_elem_of_nil.
Qed.

(** ** Headers and options *)

Lemma add_headers_fields client (headers_dict : gmap string (@pyval F)) :
  headers (add_headers client headers_dict) = headers_dict ∪ headers client
  ∧ options (add_headers client headers_dict) = options client
  ∧ symbols (add_headers client headers_dict) = symbols client
  ∧ markets (add_headers client headers_dict) = markets client.
Proof.
  unfold add_headers.
  apply (map_fold_weak_ind
           (λ (updated : Client) (added : gmap string (@pyval F)),
              headers updated = added ∪ headers client
              ∧ options updated = options client
              ∧ symbols updated = symbols client
              ∧ markets updated = markets client)).
  - by rewrite (left_id_L ∅ (∪)).
  - intros k v added updated Hk (Hheaders & Hoptions & Hsymbols & Hmarkets).
    cbn. rewrite Hheaders. by rewrite insert_union_l.
Qed.

Lemma add_options_fields client (options_dict : gmap string (@pyval F)) :
  options (add_options client options_dict) = options_dict ∪ options client
  ∧ headers (add_options client options_dict) = headers client
  ∧ symbols (add_options client options_dict) = symbols client
  ∧ markets (add_options client options_dict) = markets client.
Proof.
  unfold add_options.
  apply (map_fold_weak_ind
           (λ (updated : Client) (added : gmap string (@pyval F)),
              options updated = added ∪ options client
              ∧ headers updated = headers client
              ∧ symbols updated = symbols client
              ∧ markets updated = markets client)).
  - by rewrite (left_id_L ∅ (∪)).
  - intros k v added updated Hk (Hoptions & Hheaders & Hsymbols & Hmarkets).
    cbn. rewrite Hoptions. by rewrite insert_union_l.
Qed.

(** X27. Adding headers (options) to a client.  Afterwards a header is
    the one added under its key, or the one the client had when none was
    added; headers added later replace those added earlier under the same
    key, and adding the same headers twice changes nothing more.  Adding
    headers leaves the options untouched, and adding options the
    headers. *)
Theorem add_headers_and_options client
    (first second : gmap string (@pyval F)) k :
  headers (add_headers client first) !! k
  = match first !! k with
    | Some added => Some added
    | None => headers client !! k
    end
  ∧ options (add_options client first) !! k
    = match first !! k with
      | Some added => Some added
      | None => options client !! k
      end
  ∧ headers (add_headers (add_headers client first) second) !! k
    = match second !! k with
      | Some added => Some added
      | None => headers (add_headers client first) !! k
      end
  ∧ headers (add_headers (add_headers client first) first)
    = headers (add_headers client first)
  ∧ options (add_options (add_options client first) first)
    = options (add_options client first)
  ∧ options (add_headers client first) = options client
  ∧ headers (add_options client first) = headers client.
Proof.
  destruct (add_headers_fields client first) as (Hh1 & Ho1 & _).
  destruct (add_options_fields client first) as (Hoo1 & Hoh1 & _).
  destruct (add_headers_fields (add_headers client first) second)
    as (Hh2 & _).
  destruct (add_headers_fields (add_headers client first) first)
    as (Hh3 & _).
  destruct (add_options_fields (add_options client first) first)
    as (Ho3 & _).
  assert (Hunion : ∀ added existing : gmap string (@pyval F),
    (added ∪ existing) !! k
    = match added !! k with
      | Some v => Some v
      | None => existing !! k
      end).
  { intros added existing. rewrite lookup_union.
    destruct (added !! k); [by rewrite union_Some_l|].
    by rewrite (left_id None _). }
  repeat split; try done.
  - by rewrite Hh1, Hunion.
  - by rewrite Hoo1, Hunion.
  - by rewrite Hh2, Hunion.
  - rewrite Hh3, Hh1. by rewrite (assoc_L (∪)), (idemp_L (∪)).
  - rewrite Ho3, Hoo1. by rewrite (assoc_L (∪)), (idemp_L (∪)).
Qed.

End CcxtProperties.

(** * More properties on the concrete process *)

Lemma trading_signal_identifier_fallback_witness :
  get_trading_signal_identifier live_state
  = (Ok (VStr "DailyTradingMode"), live_state).
Proof.
  destruct (trading_signal_identifier_fallback live_state emitting_config)
    as (identifier & Hrun & _ & Hname & _); [reflexivity|].
  rewrite Hrun. f_equal. f_equal. apply Hname.
  intros configured Hconfigured. vm_compute in Hconfigured. discriminate.
Defined.

Lemma backtesting_never_emits_witness :
  should_emit_trading_signal backtesting_state
    = (Ok (VBool false), backtesting_state)
  ∧ signals (create_order (example_env None None None) example_order false
               None None backtesting_state).2 = []
  ∧ calls (create_order (example_env None None None) example_order false
             None None backtesting_state).2
    = [TraderCreateOrder example_order].
Proof.
  destruct (backtesting_never_emits (example_env None None None)
              backtesting_state (example_exchange_manager true))
    as (Hemit & _ & Hcreate & _); [reflexivity..|].
  split; [exact Hemit|]. exact (Hcreate example_order false None None).
Defined.

Lemma failed_order_emits_nothing_witness :
  (∃ s',
     create_order (failing_trader_env (OtherException "insufficient funds"))
       example_order false None None live_state
     = (Raise (OtherException "insufficient funds"), s')
     ∧ signals s' = [])
  ∧ (∃ s',
       cancel_order (failing_trader_env (OtherException "insufficient funds"))
         example_order None live_state
       = (Raise (OtherException "insufficient funds"), s')
       ∧ signals s' = []).
Proof.
  destruct (failed_order_emits_nothing
              (failing_trader_env (OtherException "insufficient funds"))
              live_state example_order (example_exchange_manager false)
              (VBool true) (OtherException "insufficient funds"))
    as (Hcreate & _ & Hcancel & _); [reflexivity..|].
  split.
  - apply (Hcreate false None None example_personal_data); [reflexivity|].
    intros _. vm_compute. reflexivity.
  - apply (Hcancel None example_personal_data). reflexivity.
Defined.

Lemma stopped_instance_is_unusable_witness :
  let stopped := (stop (example_env None None None) live_state).2 in
  stop (example_env None None None) live_state = (Ok tt, stopped)
  ∧ stop (example_env None None None) stopped
    = (Raise (AttributeError "is_backtesting"), stopped)
  ∧ create_order (example_env None None None) example_order false None None
      stopped
    = (Raise (AttributeError "is_backtesting"), stopped)
  ∧ cancel_order (example_env None None None) example_order None stopped
    = (Raise (AttributeError "trader"), stopped).
Proof.
  intros stopped.
  assert (Hstop : stop (example_env None None None) live_state
                  = (Ok tt, stopped)) by (vm_compute; reflexivity).
  destruct (stopped_instance_is_unusable (example_env None None None)
              (example_env None None None) live_state stopped Hstop)
    as (Hagain & Hcreate & Hcancel & _).
  split; [exact Hstop|]. split; [exact Hagain|].
  split; [exact (Hcreate example_order false None None)|].
  exact (Hcancel example_order None).
Defined.

Lemma remote_signal_scope_block_failure_witness :
  async_with (remote_signal_publisher (example_env None None None) "BTC/USDT")
    (λ _, raise AuthenticationRequired : M (@state Q) unit) live_state
  = (Ok None,
     add_logged AuthenticationRequired
       (add_call (BundleOpen example_builder) live_state))
  ∧ async_with
      (remote_signal_publisher (example_env None None None) "BTC/USDT")
      (λ _, create_order (example_env None None None) example_order false
              None None ;;;
            (raise (OtherException "strategy failed") : M (@state Q) unit))
      live_state
    = (Raise (OtherException "strategy failed"),
       add_call (BundleSend "BTC/USDT")
         (create_order (example_env None None None) example_order false None
            None (add_call (BundleOpen example_builder) live_state)).2).
Proof.
  split.
  - rewrite (remote_signal_scope_block_failure (example_env None None None)
               "BTC/USDT" live_state (VBool true) (VStr "DailyTradingMode")
               (λ _, raise AuthenticationRequired) AuthenticationRequired
               (add_call (BundleOpen example_builder) live_state));
      reflexivity.
  - rewrite (remote_signal_scope_block_failure (example_env None None None)
               "BTC/USDT" live_state (VBool true) (VStr "DailyTradingMode")
               (λ _, create_order (example_env None None None) example_order
                       false None None ;;;
                     raise (OtherException "strategy failed"))
               (OtherException "strategy failed")
               (create_order (example_env None None None) example_order false
                  None None
                  (add_call (BundleOpen example_builder) live_state)).2);
      vm_compute; reflexivity.
Defined.

Lemma remote_signal_other_failure_propagates_witness :
  async_with
    (remote_signal_publisher
       (example_env (Some (OtherException "connection reset")) None None)
       "BTC/USDT")
    (λ _, ret tt : M (@state Q) unit) live_state
  = (Raise (OtherException "connection reset"),
     add_call (BundleOpen example_builder) live_state).
Proof.
  destruct (remote_signal_other_failure_propagates
              (example_env (Some (OtherException "connection reset"))
                 None None)
              "BTC/USDT" live_state (VBool true) (VStr "DailyTradingMode")
              (λ _, ret tt : M (@state Q) unit)
              (OtherException "connection reset"))
    as [Hopen _]; [reflexivity..|].
  exact (Hopen eq_refl).
Defined.

Lemma saved_flag_skips_only_the_write_witness :
  ∃ s' s'',
    save_backtesting_data (example_env None None None)
      (set_saved "X" true backtesting_state) = (Ok tt, s')
    ∧ save_backtesting_data (example_env None None None) s' = (Ok tt, s'')
    ∧ calls s''
      = [RunDbFlush "X"; GetUserInputs "X"; StoreTransactions; StoreTrades;
         RunDbFlush "X"; GetUserInputs "X"; StoreTransactions; StoreTrades]
    ∧ are_metadata_saved (self s'') = false
    ∧ metadata_db s'' = [].
Proof.
  destruct (saved_flag_skips_only_the_write (example_env None None None)
              (example_env None None None)
              (set_saved "X" true backtesting_state)
              (example_exchange_manager true) example_user_inputs
              example_user_inputs)
    as (s' & s'' & Hfirst & Hsecond & Hcalls & Hcalls' & Hsaved & Hdb);
    [vm_compute; reflexivity..|].
  exists s', s''. split; [exact Hfirst|]. split; [exact Hsecond|].
  split; [by rewrite Hcalls', Hcalls|]. split; [exact Hsaved|exact Hdb].
Defined.

Lemma save_failure_before_write_witness :
  ∃ s',
    save_backtesting_data (failing_storage_env (OtherException "disk full"))
      backtesting_state
    = (Raise (OtherException "disk full"), s')
    ∧ SAVED_RUN_METADATA_DB_BY_BOT_ID s' = ∅
    ∧ metadata_db s' = []
    ∧ self s' = self backtesting_state.
Proof.
  destruct (save_failure_before_write
              (failing_storage_env (OtherException "disk full"))
              backtesting_state (example_exchange_manager true)
              (OtherException "disk full"))
    as (s' & made & Hrun & Hflags & Hdb & Hself & _);
    [reflexivity | reflexivity | left; reflexivity |].
  exists s'. split; [exact Hrun|]. split; [exact Hflags|].
  split; [exact Hdb|exact Hself].
Defined.


Lemma live_stop_saves_nothing_witness :
  let stopped := (stop (example_env None None None) live_state).2 in
  metadata_db stopped = []
  ∧ SAVED_RUN_METADATA_DB_BY_BOT_ID stopped = ∅
  ∧ are_metadata_saved (self stopped) = false.
Proof.
  intros stopped.
  destruct (live_stop_saves_nothing (example_env None None None) live_state
              (example_exchange_manager false) (Ok tt) stopped)
    as (Hdb & Hflags & Hsaved & _); [vm_compute; reflexivity..|].
  split; [exact Hdb|]. split; [exact Hflags|exact Hsaved].
Defined.

Lemma end_portfolio_holdings_witness :
  ∃ end_portfolio,
    set_positions example_positions (pop_available example_futures_portfolio)
    = Ok end_portfolio
    ∧ dict_get "BTC" end_portfolio ≫= dict_get "position" = Some 3%Q
    ∧ dict_get "BTC" end_portfolio ≫= dict_get "available" = None
    ∧ dict_get "USDT" end_portfolio ≫= dict_get "total" = Some 1000%Q.
Proof.
  assert (Hrun : ∃ end_portfolio,
    set_positions example_positions (pop_available example_futures_portfolio)
    = Ok end_portfolio) by (eexists; vm_compute; reflexivity).
  destruct Hrun as [end_portfolio Hrun]. exists end_portfolio.
  split; [exact Hrun|].
  split; [|split];
    (etrans;
     [exact (end_portfolio_holdings example_positions
               example_futures_portfolio end_portfolio _ _ Hrun)
     |vm_compute; reflexivity]).
Defined.

Lemma backtesting_metadata_outcome_witness :
  (∃ metadata,
     (get_backtesting_metadata (example_env None None None)
        example_user_inputs
        (get_run_databases_identifier (example_env None None None) "X")
        backtesting_state).1 = Ok metadata
     ∧ metadata !! LEVERAGE = Some (VInt 0))
  ∧ (get_backtesting_metadata (example_env None None None)
       example_user_inputs
       (get_run_databases_identifier (example_env None None None) "Y")
       (example_futures_state [])).1 = Raise IndexError
  ∧ (∃ metadata,
       (get_backtesting_metadata (example_env None None None)
          example_user_inputs
          (get_run_databases_identifier (example_env None None None) "Y")
          (example_futures_state ["BTC/USDT"])).1 = Ok metadata
       ∧ metadata !! LEVERAGE = Some (VFloat 5%Q)).
Proof.
  split; [|split].
  - destruct (backtesting_metadata_outcome (example_env None None None)
                example_user_inputs
                (get_run_databases_identifier (example_env None None None)
                   "X")
                backtesting_state (example_exchange_manager true) eq_refl)
      as (_ & Hspot & _).
    destruct (Hspot eq_refl) as (metadata & Hrun & Hleverage & _).
    by exists metadata.
  - vm_compute. reflexivity.
  - destruct (backtesting_metadata_outcome (example_env None None None)
                example_user_inputs
                (get_run_databases_identifier (example_env None None None)
                   "Y")
                (example_futures_state ["BTC/USDT"])
                (example_futures_manager ["BTC/USDT"]) eq_refl)
      as (_ & _ & Hfuture).
    specialize (Hfuture eq_refl).
    assert (Hok : is_Ok (get_backtesting_metadata (example_env None None None)
                example_user_inputs
                (get_run_databases_identifier (example_env None None None)
                   "Y")
                (example_futures_state ["BTC/USDT"])).1 = true)
      by (vm_compute; reflexivity).
    destruct (get_backtesting_metadata _ _ _ _).1 as [metadata|e]; [|done].
    exists metadata. split; [done|].
    destruct Hfuture as [_ Hleverage]. etrans; [exact Hleverage|].
    vm_compute. reflexivity.
Defined.

Lemma backtesting_metadata_counters_witness :
  get_backtesting_metadata (example_env None None None) example_user_inputs
    (get_run_databases_identifier (example_env None None None) "X")
    backtesting_state
  = (Ok example_metadata, backtesting_state)
  ∧ ∃ entries wins loses : Z,
      example_metadata !! ENTRIES = Some (VInt entries)
      ∧ example_metadata !! WINS = Some (VInt wins)
      ∧ example_metadata !! LOSES = Some (VInt loses)
      ∧ example_metadata !! TRADES = Some (VInt 19)
      ∧ entries = 10%Z
      ∧ (wins + loses = entries)%Z.
Proof.
  split; [vm_compute; reflexivity|].
  destruct (backtesting_metadata_counters (example_env None None None)
              example_user_inputs
              (get_run_databases_identifier (example_env None None None) "X")
              backtesting_state (example_exchange_manager true)
              example_metadata backtesting_state)
    as (entries & wins & loses & Hentries & Hwins & Hloses & Htrades
        & Hcount & Hsum & _);
    [vm_compute; reflexivity..|].
  exists entries, wins, loses.
  split; [exact Hentries|]. split; [exact Hwins|]. split; [exact Hloses|].
  split; [etrans; [exact Htrades|vm_compute; reflexivity]|].
  split; [etrans; [exact Hcount|vm_compute; reflexivity]|exact Hsum].
Defined.

Lemma required_strategies_resolution_witness :
  is_Ok (get_required_strategies_names_and_count
           ({[ "required_strategies" := VList [VStr "SimpleStrategy"] ]}
              : gmap string (@pyval Q))
           (Some {[ "default_config" := VList [] ]}))
  = false
  ∧ get_required_strategies_names_and_count
      ({[ "required_strategies" := VList [VStr "SimpleStrategy"] ]}
         : gmap string (@pyval Q))
      (Some ∅)
    = Ok (VList [VStr "SimpleStrategy"], VInt 1).
Proof.
  destruct (required_strategies_resolution
              ({[ "required_strategies" := VList [VStr "SimpleStrategy"] ]}
                 : gmap string (@pyval Q))
              ∅ {[ "default_config" := VList [] ]})
    as (_ & Hmissing & Hempty & Hstored).
  { apply insert_non_empty. }
  split; [apply Hmissing; reflexivity|].
  rewrite Hempty. etrans; [apply Hstored; reflexivity|].
  vm_compute. reflexivity.
Defined.

Lemma create_consumers_subscriptions_witness :
  ∃ st',
    create_consumers (example_startup_env (λ _, None))
      (example_startup_state (example_new_mode false))
    = (Ok ["DailyTradingModeConsumer"; "DailyTradingModeExtraConsumer";
           "trades consumer"], st')
    ∧ startup_calls st'
      = [ConsumerNew "DailyTradingModeConsumer";
         NewModeConsumer "exchange-1" "DailyTradingModeConsumer"
           "DailyTradingMode" "*" "BTC/USDT" "*";
         ConsumerNew "DailyTradingModeExtraConsumer";
         NewModeConsumer "exchange-1" "DailyTradingModeExtraConsumer"
           "DailyTradingMode" "*" "BTC/USDT" "*";
         NewTradesConsumer "exchange-1" (Some "BTC/USDT")].
Proof.
  eexists. split; [vm_compute; reflexivity|].
  destruct (create_consumers_subscriptions (example_startup_env (λ _, None))
              (example_startup_state (example_new_mode false))
              (example_exchange_manager false) _ _ eq_refl
              ltac:(vm_compute; reflexivity))
    as (_ & Hcalls & _).
  etrans; [exact Hcalls|]. vm_compute. reflexivity.
Defined.

Lemma reload_config_replaces_configuration_witness :
  let started :=
    (initialize (example_startup_env (λ _, None)) example_live_data
       (example_startup_state (example_new_mode false))).2 in
  let reloaded := (reload_config (example_startup_env (λ _, None)) "X"
                     started).2 in
  trading_config (self (mode_state reloaded)) = Some emitting_config
  ∧ startup_calls reloaded
    = (startup_calls started
       ++ [LoadAndSaveUserInputs "X";
           ElementReloadConfig "DailyTradingModeConsumer";
           ElementReloadConfig "DailyTradingModeExtraConsumer";
           ElementReloadConfig "DailyTradingModeProducer"])%list
  ∧ is_trading_signal_emitter (mode_state reloaded)
    = (Ok (VBool true), mode_state reloaded).
Proof.
  intros started reloaded.
  destruct (reload_config_replaces_configuration
              (example_startup_env (λ _, None)) "X" started
              (example_exchange_manager false) (Ok tt) reloaded)
    as (Hconfig & (elements & Hcalls & _ & Hall & _) & Hemitter);
    [vm_compute; reflexivity..|].
  split; [exact Hconfig|]. split; [|exact Hemitter].
  rewrite Hcalls, (Hall eq_refl). vm_compute. reflexivity.
Defined.

Lemma initialize_then_stop_witness :
  let started :=
    (initialize (example_startup_env (λ _, None)) example_live_data
       (example_startup_state (example_new_mode false))).2 in
  let stopped :=
    (stop (example_env None None None) (mode_state started)).2 in
  calls stopped
  = [ProducerStop "DailyTradingModeProducer";
     ConsumerStop "DailyTradingModeConsumer";
     ConsumerStop "DailyTradingModeExtraConsumer";
     ConsumerStop "trades consumer"]
  ∧ exchange_manager (self stopped) = None.
Proof.
  intros started stopped.
  destruct (initialize_then_stop (example_startup_env (λ _, None))
              example_live_data
              (example_startup_state (example_new_mode false))
              (example_exchange_manager false) started
              (example_env None None None) stopped)
    as (saving & Hcalls & _ & Hlive & Hreleased);
    [vm_compute; reflexivity..|].
  split; [|exact Hreleased].
  rewrite Hcalls, (Hlive eq_refl). reflexivity.
Defined.

Lemma failed_initialize_assigns_no_consumers_witness :
  let env :=
    example_startup_env
      (λ class, if bool_decide (class = "DailyTradingModeExtraConsumer")
                then Some (OtherException "no such evaluator") else None) in
  let failed :=
    (initialize env example_live_data
       (example_startup_state (example_new_mode false))).2 in
  (initialize env example_live_data
     (example_startup_state (example_new_mode false))).1
  = Raise (OtherException "no such evaluator")
  ∧ NewModeConsumer "exchange-1" "DailyTradingModeConsumer"
      "DailyTradingMode" "*" "BTC/USDT" "*" ∈ startup_calls failed
  ∧ consumers (self (mode_state failed)) = []
  ∧ ∃ made,
      calls (stop (example_env None None None) (mode_state failed)).2 = made
      ∧ ∀ consumer, ConsumerStop consumer ∉ made.
Proof.
  intros env failed.
  split; [vm_compute; reflexivity|].
  split; [vm_compute; repeat constructor|].
  destruct (failed_initialize_assigns_no_consumers env example_live_data
              (example_startup_state (example_new_mode false))
              (example_exchange_manager false)
              (OtherException "no such evaluator") failed)
    as (Hconsumers & _ & _ & _ & Hstop); [vm_compute; reflexivity..|].
  split; [exact Hconsumers|].
  destruct (Hstop eq_refl (example_env None None None)
              (stop (example_env None None None) (mode_state failed)).2)
    as (made & Hcalls & Hnone); [vm_compute; reflexivity|].
  exists made. split; [exact Hcalls|exact Hnone].
Defined.

Lemma live_metadata_content_witness :
  ∃ metadata,
    get_live_metadata example_live_data (example_futures_state ["BTC/USDT"])
    = (Ok metadata, example_futures_state ["BTC/USDT"])
    ∧ row_trading_type metadata = "future"
    ∧ "okx" ∈ row_exchanges metadata
    ∧ row_end_time metadata = VFloat 1600086400%Q.
Proof.
  pose proof (live_metadata_content example_live_data
                (example_futures_state ["BTC/USDT"])
                (example_futures_manager ["BTC/USDT"]) eq_refl) as Hlive.
  cbv beta iota delta [config_exchanges example_live_data] in Hlive.
  destruct Hlive as (metadata & Hrun & Htype & _ & _ & Hexchanges & Hend & _).
  exists metadata. split; [exact Hrun|].
  split; [apply Htype; split; [reflexivity|by eexists]|].
  split; [|exact Hend].
  apply Hexchanges. exists ∅. split; [|exact I].
  repeat constructor.
Defined.

Lemma create_client_authentication_witness :
  create_client example_exchange_class
    (example_access false (Ok (Some "", Some "secret", None)))
    (VDict []) (VDict []) None true None None []
  = (Ok (_use_http_proxy_if_necessary example_client, false),
     [InfoCreating "binance"; WarningNoApiKey "binance"])
  ∧ create_client example_exchange_class
      (example_access false (Ok (Some "key", Some "secret", None)))
      (VDict []) (VDict []) None true None None []
    = (Ok (_use_http_proxy_if_necessary
             (set_logger_level "INFO" example_client), true),
       [InfoCreating "binance"])
  ∧ ∃ built,
      example_exchange_class
        (_get_client_config (VDict []) (VDict []) None None None None)
      = Ok built
      ∧ aiohttp_trust_env (_use_http_proxy_if_necessary example_client)
        = Some false.
Proof.
  split; [vm_compute; reflexivity|]. split; [vm_compute; reflexivity|].
  destruct (create_client_authentication example_exchange_class
              (example_access false (Ok (Some "", Some "secret", None)))
              (VDict []) (VDict []) None true None None []
              (Ok (_use_http_proxy_if_necessary example_client, false))
              [InfoCreating "binance"; WarningNoApiKey "binance"])
    as [(fallback & e & Hfallback & _)|(built & Hbuilt & Henv & _)];
    [vm_compute; reflexivity | discriminate Hfallback |].
  exists built. split; [exact Hbuilt|exact Henv].
Defined.
